(** * Paginated listing of cloud resources (package infra)

    A shallow embedding of the three listing operations of the package
    (ListInstances and ListZones of the compute client, ListDNSRecordSets of
    dns.go), of the request validators in front of them and of makeCanceler.

    The Go code starts one goroutine per listing call.  The goroutine talks to
    three parties: the remote service (one [Do] per iteration), the consumer of
    the unbuffered pages channel, and the cancel channel read by the [select]
    at the throttle wait.  The embedding turns these into explicit state
    passing: the remote service is a transition function on a world, the
    consumer is a script saying how often it invoked the cancel function
    before each throttle wait, and every interaction is recorded as an event
    of the run.  The loop has no bound of its own, so it is run on fuel: one
    unit per iteration.  The consumer is taken to keep receiving: a send on
    the pages channel is recorded when the page is handed over.

    Layout: machine integers, errors, panics and the runtime; makeCanceler;
    the requests and their Validate methods; the three listing functions,
    each translated from its own text; one view over the three; the
    properties, first of the common loop and then of the streams; and the
    properties tried on sample inputs.

    The rest of the package (machine types, instance requests and
    CreateInstance, DNS records and the updates of record sets, uploads to
    storage, the helpers of the full setup) is embedded in front of the
    listing section, with its properties at the end of the file. *)

From Stdlib Require Import ZArith List String Ascii Bool Lia DecimalString.
Import ListNotations.

Local Open Scope string_scope.
Local Open Scope list_scope.
Local Open Scope Z_scope.

(* ===================================================================== *)
(** ** Machine integers: Go's int64 *)

Definition wrap64 (z : Z) : Z := (z + 2 ^ 63) mod 2 ^ 64 - 2 ^ 63.

Definition in_int64 (z : Z) : Prop := - 2 ^ 63 <= z < 2 ^ 63.

(** [a + b] on int64 operands. *)
Definition int64_add (a b : Z) : Z := wrap64 (a + b).

(* ===================================================================== *)
(** ** Errors

    The package-level error values of the var block, compared by identity in
    Go, and the errors handed back by the remote API. *)

Inductive error : Type :=
| errBlankProject
| errBlankZone
| errEmptyInstanceID
| errEmptyProject
| errEmptyZone
| errBlankName
| errUnimplemented
| errEmptyNetworkInterface
| apiError (msg : string).

(* ===================================================================== *)
(** ** Panics and the runtime

    A Go call either returns or panics.  The synchronous part of a listing
    call also allocates channels and starts a goroutine; the runtime record
    counts both, so that "nothing was started" is a statement about it. *)

Inductive Outcome (A : Type) : Type :=
| Returns (a : A)
| Panics (msg : string).

Arguments Returns {A} a.
Arguments Panics {A} msg.

Record Runtime : Type := mkRuntime {
  rt_channels : nat;     (* channels allocated by make(chan ...) *)
  rt_goroutines : nat    (* goroutines started by a go statement *)
}.

Definition M (A : Type) : Type := Runtime -> Outcome (A * Runtime).

Definition ret {A} (a : A) : M A := fun rt => Returns (a, rt).

Definition bind {A B} (m : M A) (k : A -> M B) : M B :=
  fun rt =>
    match m rt with
    | Returns (a, rt') => k a rt'
    | Panics msg => Panics msg
    end.

Definition lift {A} (o : Outcome A) : M A :=
  fun rt =>
    match o with
    | Returns a => Returns (a, rt)
    | Panics msg => Panics msg
    end.

Declare Scope go_scope.
Delimit Scope go_scope with go.
Notation "x <- m ;; k" := (bind m (fun x => k))
  (at level 61, m at next level, right associativity) : go_scope.

(** Reading a field through a pointer: a nil pointer panics. *)
Definition field {R A} (p : option R) (f : R -> A) : Outcome A :=
  match p with
  | Some r => Returns (f r)
  | None => Panics "invalid memory address or nil pointer dereference"
  end.

(** Go's short-circuit [a || b]: [b] is evaluated only when [a] is false. *)
Definition or_else (a : bool) (b : Outcome bool) : Outcome bool :=
  if a then Returns true else b.

Definition is_nil {R} (p : option R) : bool :=
  match p with None => true | Some _ => false end.

(* ===================================================================== *)
(** ** Channels, sync.Once and makeCanceler *)

Record Chan : Type := mkChan {
  ch_cap : nat;
  ch_closed : bool
}.

(** make(chan T, n): a fresh open channel; the runtime counts it. *)
Definition make_chan (n : nat) : M Chan :=
  fun rt =>
    Returns (mkChan n false,
             mkRuntime (S (rt_channels rt)) (rt_goroutines rt)).

(** close(c): closing a closed channel panics. *)
Definition close_chan (c : Chan) : Outcome Chan :=
  if ch_closed c then Panics "close of closed channel"
  else Returns (mkChan (ch_cap c) true).

(** sync.Once: [o.Do(f)] runs [f] only if no earlier [Do] of [o] ran. *)
Record Once : Type := mkOnce { once_done : bool }.

Definition Once_Do {S} (o : Once) (f : S -> Outcome S) (s : S)
  : Outcome (Once * S) :=
  if once_done o then Returns (o, s)
  else match f s with
       | Returns s' => Returns (mkOnce true, s')
       | Panics msg => Panics msg
       end.

(** The state shared by the two results of makeCanceler: the Once captured by
    the cancel closure and the channel it closes.  Invocations of the cancel
    function are taken one at a time: sync.Once serializes concurrent
    callers. *)
Record Canceler : Type := mkCanceler {
  cancelOnce : Once;
  cancelChan : Chan
}.

Definition makeCanceler : M Canceler :=
  (cancelChan <- make_chan 1 ;;
   ret (mkCanceler (mkOnce false) cancelChan))%go.

(** The closure [cancel] returned by makeCanceler; its error result is the
    zero value of [var err error]. *)
Definition cancel (c : Canceler) : Outcome (option error * Canceler) :=
  let err : option error := None in
  match Once_Do (cancelOnce c) close_chan (cancelChan c) with
  | Returns (o, ch) => Returns (err, mkCanceler o ch)
  | Panics msg => Panics msg
  end.

(** [n] successive invocations of the cancel function. *)
Fixpoint cancel_times (n : nat) (c : Canceler) : Outcome Canceler :=
  match n with
  | O => Returns c
  | S n' =>
      match cancel c with
      | Returns (_, c') => cancel_times n' c'
      | Panics msg => Panics msg
      end
  end.

(** What [case <-cancelChan] of a select sees: a receive on the channel, on
    which nothing is ever sent, is ready exactly when it is closed.  The
    other case of the select, [<-time.After(throttleDuration)], becomes ready
    only when the wait is over, so the select takes the cancel case exactly
    when the channel was closed before the end of the wait. *)
Definition cancel_ready (c : Canceler) : bool := ch_closed (cancelChan c).

(* ===================================================================== *)
(** ** Requests and their validation

    The request structs and their Validate methods.  A request reaches a
    listing function as a pointer, [None] being nil; the methods have pointer
    receivers, so calling one on nil is no panic by itself. *)

Record ZoneRequest : Type := mkZoneRequest {
  zr_Project : string;
  zr_OrderBy : string;
  zr_Filter : string;
  zr_MaxPages : Z;
  zr_ResultsPerPage : Z
}.

Record InstancesRequest : Type := mkInstancesRequest {
  ir_Project : string;
  ir_OrderBy : string;
  ir_Filter : string;
  ir_MaxPages : Z;
  ir_ResultsPerPage : Z;
  ir_Zone : string
}.

Record RecordSetRequest : Type := mkRecordSetRequest {
  rr_Project : string;
  rr_Zone : string;
  rr_DomainName : string;
  rr_MaxPages : Z;
  rr_ResultsPerPage : Z
}.

Definition ZoneRequest_Validate (zreq : option ZoneRequest)
  : Outcome (option error) :=
  match or_else (is_nil zreq)
          (match field zreq zr_Project with
           | Returns p => Returns (String.eqb p "")
           | Panics m => Panics m
           end) with
  | Panics m => Panics m
  | Returns true => Returns (Some errBlankProject)
  | Returns false => Returns None
  end.

Definition InstancesRequest_Validate (ireq : option InstancesRequest)
  : Outcome (option error) :=
  match or_else (is_nil ireq)
          (match field ireq ir_Zone with
           | Returns z => Returns (String.eqb z "")
           | Panics m => Panics m
           end) with
  | Panics m => Panics m
  | Returns true => Returns (Some errBlankZone)
  | Returns false =>
      match field ireq ir_Project with
      | Panics m => Panics m
      | Returns p =>
          if String.eqb p "" then Returns (Some errBlankProject) else Returns None
      end
  end.

Definition RecordSetRequest_Validate (rreq : option RecordSetRequest)
  : Outcome (option error) :=
  match or_else (is_nil rreq)
          (match field rreq rr_Project with
           | Returns p => Returns (String.eqb p "")
           | Panics m => Panics m
           end) with
  | Panics m => Panics m
  | Returns true => Returns (Some errEmptyProject)
  | Returns false =>
      match field rreq rr_Zone with
      | Panics m => Panics m
      | Returns z =>
          if String.eqb z "" then Returns (Some errEmptyZone) else Returns None
      end
  end.

(* ===================================================================== *)
(** ** Runs of a background goroutine

    What a listing goroutine does is recorded as a list of events, in order:
    the remote call it made with the result it got, the page it handed to the
    consumer on the unbuffered pages channel (a send completes when the
    consumer has received the page), and the outcome of the select at the
    throttle wait.  [Closed] says that the goroutine returned, which runs the
    deferred close of the pages channel; [Running] that the fuel ran out
    first; [Crashed] that a panic took the process down. *)

Inductive Status : Type := Running | Closed | Crashed.

Inductive Event (Call Resp Page : Type) : Type :=
| EvDo (c : Call) (r : Resp + error)
| EvSend (p : Page)
| EvSelect (cancelled : bool).

Arguments EvDo {Call Resp Page} c r.
Arguments EvSend {Call Resp Page} p.
Arguments EvSelect {Call Resp Page} cancelled.

Definition Run (Call Resp Page : Type) : Type :=
  (list (Event Call Resp Page) * Status)%type.

(** [after evs r]: the run that performs [evs] and goes on as [r]. *)
Definition after {Call Resp Page} (evs : list (Event Call Resp Page))
  (r : Run Call Resp Page) : Run Call Resp Page :=
  ((evs ++ fst r)%list, snd r).

(** The closure pageExceedsMax of the three listing functions (the same text
    in each), with the captured maxPageNumber as first argument. *)
Definition pageExceedsMax (maxPageNumber pageNumber : Z) : bool :=
  if maxPageNumber <=? 0 then false
  else pageNumber >? maxPageNumber.

(** strings.HasSuffix(s, ".") *)
Fixpoint HasSuffix_dot (s : string) : bool :=
  match s with
  | EmptyString => false
  | String c EmptyString => Ascii.eqb c "."
  | String _ s' => HasSuffix_dot s'
  end.

Definition ensureHasTrailingDot (s : string) : string :=
  if negb (HasSuffix_dot s) then (s ++ ".")%string else s.

(* ===================================================================== *)
(** ** A remote collection of pages

    The lister the properties below are tried on: a collection of [k] pages,
    page 0 under the empty token and page [i] under the token [token_of i].
    The answer for a page carries the token of the next page, and the empty
    token after the last one. *)

Fixpoint token_of (i : nat) : string :=
  match i with
  | O => ""
  | S i' => String "p"%char (token_of i')
  end.

Definition collection_answer {T} (pages : list (list T)) (tok : string)
  : (list T * string) + error :=
  let i := String.length tok in
  match nth_error pages i with
  | Some items =>
      inl (items,
           if (S i <? List.length pages)%nat then token_of (S i) else "")
  | None => inr (apiError "invalid page token")
  end.

Definition token_or_empty (t : option string) : string :=
  match t with Some s => s | None => "" end.

(* ===================================================================== *)
(** ** Sample inputs *)

(** The collection of section 8 of the design: two items, one item, and an
    empty last page. *)
Definition sample_pages : list (list string) := [["a"; "b"]; ["c"]; []].

Definition sample_zones (maxPages resultsPerPage : Z) : ZoneRequest :=
  mkZoneRequest "orijtech-161805" "" "" maxPages resultsPerPage.

Definition sample_instances (maxPages resultsPerPage : Z) : InstancesRequest :=
  mkInstancesRequest "orijtech-161805" "" "" maxPages resultsPerPage
    "us-central1-c".

Definition sample_recordSets (maxPages resultsPerPage : Z) : RecordSetRequest :=
  mkRecordSetRequest "orijtech-161805" "us-central1-c" "" maxPages
    resultsPerPage.

Definition rt0 : Runtime := mkRuntime 0 0.

(* ===================================================================== *)
(** ** Provisioning: the rest of the package

    Machine types, instance requests, DNS records and their record sets,
    uploads to storage and the helpers of the full setup.  The calls to the
    remote services go through a client whose operations are transition
    functions on the state of the service; every call is logged. *)

(** The error values of the other var blocks of the package, next to those of
    the first ([pkgError]), and the errors made by fmt.Errorf. *)
Inductive Error : Type :=
| pkgError (e : error)
| errInvalidZeroCount
| errMemoryMultipleOf256
| errEmptyType
| errBlankCanonicalName
| errEmptyIPV4Addresses
| errEmptyIPV6Addresses
| errEmptyCertificateAuthorityAuthorizations
| errEmptySPFData
| errEmptySRVData
| errEmptyTXTRecords
| errEmptyNameServers
| errEmptyPreferenceAndMailServers
| errBlankUpdateRequest
| errBlankReaderFunc
| errEmptyName
| errEmptyBucket
| errEmptyDomainName
| errUnknownRecordType (recordType : string)
| errOperation (jsonBlob : string).

(* --------------------------------------------------------------------- *)
(** *** Strings: the functions of package strings and fmt the code uses *)

(** [strip_prefix p s]: the rest of [s] after its prefix [p], if it has it. *)
Fixpoint strip_prefix (p s : string) : option string :=
  match p, s with
  | EmptyString, _ => Some s
  | String a p', String b s' =>
      if Ascii.eqb a b then strip_prefix p' s' else None
  | String _ _, EmptyString => None
  end.

(** strings.HasPrefix and strings.TrimPrefix *)
Definition HasPrefix (s p : string) : bool :=
  match strip_prefix p s with Some _ => true | None => false end.

Definition TrimPrefix (s p : string) : string :=
  match strip_prefix p s with Some rest => rest | None => s end.

Fixpoint rev_string (s acc : string) : string :=
  match s with
  | EmptyString => acc
  | String c s' => rev_string s' (String c acc)
  end.

Fixpoint bytes (l : list nat) : string :=
  match l with
  | [] => EmptyString
  | n :: l' => String (ascii_of_nat n) (bytes l')
  end.

(** The UTF-8 encodings of the runes of unicode.White_Space: U+0009 to
    U+000D, U+0020, U+0085, U+00A0, U+1680, U+2000 to U+200A, U+2028, U+2029,
    U+202F, U+205F and U+3000. *)
Definition whiteSpace : list string :=
  map (fun n => bytes [n]) [9; 10; 11; 12; 13; 32]%nat ++
  [bytes [194; 133]; bytes [194; 160]; bytes [225; 154; 128]]%nat ++
  map (fun n => bytes [226%nat; 128%nat; n])
    [128; 129; 130; 131; 132; 133; 134; 135; 136; 137; 138]%nat ++
  [bytes [226; 128; 168]; bytes [226; 128; 169]; bytes [226; 128; 175];
   bytes [226; 129; 159]; bytes [227; 128; 128]]%nat.

Fixpoint strip_any (ps : list string) (s : string) : option string :=
  match ps with
  | [] => None
  | p :: ps' =>
      match strip_prefix p s with
      | Some rest => Some rest
      | None => strip_any ps' s
      end
  end.

(** Dropping the leading runes that are among [spaces]; [fuel] bounds the
    number of runes dropped. *)
Fixpoint trim_left (spaces : list string) (fuel : nat) (s : string) : string :=
  match fuel with
  | O => s
  | S fuel' =>
      match strip_any spaces s with
      | Some rest => trim_left spaces fuel' rest
      | None => s
      end
  end.

(** strings.TrimSpace: the leading white space is dropped, then the trailing
    one (the same on the reversed string, with the encodings reversed). *)
Definition TrimSpace (s : string) : string :=
  let s := trim_left whiteSpace (String.length s) s in
  rev_string
    (trim_left (map (fun p => rev_string p EmptyString) whiteSpace)
       (String.length s) (rev_string s EmptyString))
    EmptyString.

(** strings.TrimSuffix(s, ".") *)
Fixpoint stripTrailingDot (s : string) : string :=
  match s with
  | EmptyString => EmptyString
  | String c EmptyString => if Ascii.eqb c "." then EmptyString else s
  | String c s' => String c (stripTrailingDot s')
  end.

Definition httpsify (s : string) : string :=
  if HasPrefix s "https://" then s
  else
    let s := TrimPrefix s "http://" in
    ("https://" ++ s)%string.

(** The verb %d of fmt on an int. *)
Definition format_d (n : Z) : string := NilZero.string_of_int (Z.to_int n).

(* --------------------------------------------------------------------- *)
(** *** Machine types *)

Definition StandardType : Type := string.

Record MachineType : Type := mkMachineType {
  mt_CPUCount : Z;
  mt_MemoryMBs : Z;
  mt_Type : StandardType
}.

Definition N1Standard1 : StandardType := "n1-standard-1".

Definition basic1VCPUMachine : MachineType :=
  mkMachineType 0 0 N1Standard1.

Definition validateAsStandardMachine (mt : MachineType) : option Error :=
  if String.eqb (mt_Type mt) "" then Some errEmptyType else None.

(** [int] is taken to be 64 bits wide; [/] on ints truncates toward zero. *)
Definition validateAsCustomMachine (mt : MachineType) : option Error :=
  if (mt_CPUCount mt <=? 0) || (mt_CPUCount mt >? 32) then
    Some errInvalidZeroCount
  else if negb ((mt_CPUCount mt =? 1) || (Z.land 1 (mt_CPUCount mt) =? 0)) then
    Some errInvalidZeroCount
  else if negb (wrap64 (Z.quot (mt_MemoryMBs mt) 256 * 256) =? mt_MemoryMBs mt)
  then Some errMemoryMultipleOf256
  else None.

(** The loop of Validate over its slice of validators. *)
Fixpoint run_validators (validators : list (unit -> option Error))
  (err : option Error) : option Error :=
  match validators with
  | [] => err
  | fn :: validators' =>
      match fn tt with
      | None => None
      | Some e => run_validators validators' (Some e)
      end
  end.

Definition MachineType_Validate (mt : MachineType) : option Error :=
  let validators :=
    [fun _ => validateAsCustomMachine mt;
     fun _ => validateAsStandardMachine mt] in
  run_validators validators None.

Definition standardRoute (mt : MachineType) : string :=
  ("/machineTypes/" ++ mt_Type mt)%string.

Definition customRoute (mt : MachineType) : string :=
  ("/machineTypes/custom-" ++ format_d (mt_CPUCount mt) ++ "-"
     ++ format_d (mt_MemoryMBs mt))%string.

Definition canMakeCustomMachine (mt : MachineType) : bool :=
  match validateAsCustomMachine mt with None => true | Some _ => false end.

Definition route (mt : MachineType) : string :=
  if canMakeCustomMachine mt then customRoute mt else standardRoute mt.

Definition partialURLByZone (mt : MachineType) (zone : string) : string :=
  ("/zones/" ++ zone ++ route mt)%string.

(* --------------------------------------------------------------------- *)
(** *** The structs of the remote APIs, with the fields the package reads or
    writes *)

Record compute_AccessConfig : Type := mkAccessConfig {
  ac_Name : string;
  ac_Type : string
}.

Record compute_NetworkInterface : Type := mkNetworkInterface {
  ni_AccessConfigs : list compute_AccessConfig;
  ni_NetworkIP : string
}.

Record compute_AttachedDiskInitializeParams : Type :=
  mkAttachedDiskInitializeParams {
  dip_DiskSizeGb : Z;
  dip_SourceImage : string
}.

Record compute_AttachedDisk : Type := mkAttachedDisk {
  ad_AutoDelete : bool;
  ad_Boot : bool;
  ad_Type : string;
  ad_Mode : string;
  ad_InitializeParams : option compute_AttachedDiskInitializeParams
}.

Record compute_Metadata : Type := mkMetadata {
  md_Items : list (string * string)
}.

Record compute_ServiceAccount : Type := mkServiceAccount {
  sa_Email : string;
  sa_Scopes : list string
}.

Record compute_Instance : Type := mkInstance {
  ci_Name : string;
  ci_Disks : list compute_AttachedDisk;
  ci_Metadata : option compute_Metadata;
  ci_Description : string;
  ci_MachineType : string;
  ci_ServiceAccounts : list compute_ServiceAccount;
  ci_NetworkInterfaces : list (option compute_NetworkInterface)
}.

(** [op_Error] stands for the JSON rendering of a non-nil Operation.Error. *)
Record compute_Operation : Type := mkOperation {
  op_Error : option string
}.

Record dns_ResourceRecordSet : Type := mkResourceRecordSet {
  rs_Name : string;
  rs_Type : string;
  rs_Ttl : Z;
  rs_Rrdatas : list string
}.

Record dns_Change : Type := mkChange {
  ch_Additions : list dns_ResourceRecordSet;
  ch_Deletions : list dns_ResourceRecordSet
}.

Record storage_Bucket : Type := mkBucket {
  bk_Name : string
}.

Record storage_Object : Type := mkObject {
  ob_Name : string;
  ob_Bucket : string
}.

Definition BasicAttachedDisk : compute_AttachedDisk :=
  mkAttachedDisk true true "PERSISTENT" "READ_WRITE"
    (Some (mkAttachedDiskInitializeParams 10
             "projects/debian-cloud/global/images/family/debian-8")).

Definition BasicExternalNATNetworkInterface : compute_NetworkInterface :=
  mkNetworkInterface [mkAccessConfig "External NAT" "ONE_TO_ONE_NAT"] "".

(* --------------------------------------------------------------------- *)
(** *** Instance requests *)

Record InstanceRequest : Type := mkInstanceRequest {
  iq_Zone : string;
  iq_Project : string;
  iq_Description : string;
  iq_Name : string;
  iq_MachineType : option MachineType;
  iq_CanForwardIP : bool;
  iq_Disks : list compute_AttachedDisk;
  iq_NetworkInterface : option compute_NetworkInterface;
  iq_Metadata : option compute_Metadata;
  iq_ServiceAccounts : list compute_ServiceAccount;
  iq_NullFields : list string;
  iq_BlockUntilCompletion : bool
}.

Definition disksOrDefault (ireq : InstanceRequest) : list compute_AttachedDisk :=
  if (0 <? List.length (iq_Disks ireq))%nat then iq_Disks ireq
  else [BasicAttachedDisk].

Definition machineTypeOrDefault (ireq : InstanceRequest) : MachineType :=
  match iq_MachineType ireq with
  | None => basic1VCPUMachine
  | Some mt => mt
  end.

Definition toInstance (ireq : InstanceRequest) : compute_Instance :=
  mkInstance (iq_Name ireq) (disksOrDefault ireq) (iq_Metadata ireq)
    (iq_Description ireq)
    (partialURLByZone (machineTypeOrDefault ireq) (iq_Zone ireq))
    (iq_ServiceAccounts ireq)
    [iq_NetworkInterface ireq].

Definition validateBasic (ireq : option InstanceRequest)
  : Outcome (option Error) :=
  match or_else (is_nil ireq)
          (match field ireq iq_Project with
           | Returns p => Returns (String.eqb p "")
           | Panics m => Panics m
           end) with
  | Panics m => Panics m
  | Returns true => Returns (Some (pkgError errEmptyProject))
  | Returns false =>
      match field ireq iq_Zone with
      | Panics m => Panics m
      | Returns z =>
          if String.eqb z "" then Returns (Some (pkgError errEmptyZone))
          else
            match field ireq iq_Name with
            | Panics m => Panics m
            | Returns n =>
                if String.eqb n "" then Returns (Some (pkgError errBlankName))
                else Returns None
            end
      end
  end.

Definition validateForCreate (ireq : option InstanceRequest)
  : Outcome (option Error) :=
  match validateBasic ireq with
  | Panics m => Panics m
  | Returns (Some err) => Returns (Some err)
  | Returns None =>
      match field ireq iq_NetworkInterface with
      | Panics m => Panics m
      | Returns None => Returns (Some (pkgError errEmptyNetworkInterface))
      | Returns (Some _) =>
          match field ireq machineTypeOrDefault with
          | Panics m => Panics m
          | Returns mt => Returns (MachineType_Validate mt)
          end
      end
  end.

Definition validateForByName (ireq : option InstanceRequest)
  : Outcome (option Error) :=
  validateBasic ireq.

(* --------------------------------------------------------------------- *)
(** *** The client and the state it works on

    A [*Record] is an address in a heap of records ([None] is nil): Validate
    writes through it.  The client is the collection of the remote operations
    it reaches; each takes the state of the services and returns Do's two
    results.  Every remote call is appended to a log. *)

Record DNSRecord : Type := mkDNSRecord {
  r_DNSName : string;
  r_TTL : Z;
  r_Type : string;
  r_IPV4Addresses : list string;
  r_IPV6Addresses : list string;
  r_CanonicalName : string;
  r_NameServers : list string;
  r_CertificateAuthorityAuthorizations : list string;
  r_PreferenceAndMailServers : list string;
  r_SPFData : list string;
  r_SRVData : list string;
  r_TXTRecords : list string
}.

Definition RecordPtr : Type := option nat.

Inductive Call : Type :=
| CallInstancesGet (project zone name : string)
| CallInstancesInsert (project zone : string) (instance : compute_Instance)
| CallChangesCreate (project zone : string) (change : dns_Change)
| CallBucketsGet (bucket : string)
| CallBucketsInsert (project : string) (bucket : storage_Bucket)
    (predefinedDefaultObjectAcl : string)
| CallObjectsInsert (bucket : string) (object : storage_Object)
    (predefinedAcl : string) (media : string).

Record Client (World : Type) : Type := mkClient {
  instancesGetDo :
    World -> string -> string -> string ->
    (option compute_Instance * option Error) * World;
  instancesInsertDo :
    World -> string -> string -> compute_Instance ->
    (option compute_Operation * option Error) * World;
  changesCreateDo :
    World -> string -> string -> dns_Change ->
    (option dns_Change * option Error) * World;
  bucketsGetDo :
    World -> string -> (option storage_Bucket * option Error) * World;
  bucketsInsertDo :
    World -> string -> storage_Bucket -> string ->
    (option storage_Bucket * option Error) * World;
  objectsInsertDo :
    World -> string -> storage_Object -> string -> string ->
    (option storage_Object * option Error) * World
}.

Arguments instancesGetDo {World} c _ _ _ _.
Arguments instancesInsertDo {World} c _ _ _ _.
Arguments changesCreateDo {World} c _ _ _ _.
Arguments bucketsGetDo {World} c _ _.
Arguments bucketsInsertDo {World} c _ _ _ _.
Arguments objectsInsertDo {World} c _ _ _ _ _.

Record State (World : Type) : Type := mkState {
  st_heap : list DNSRecord;
  st_world : World;
  st_calls : list Call
}.

Arguments mkState {World} _ _ _.
Arguments st_heap {World} s.
Arguments st_world {World} s.
Arguments st_calls {World} s.

Definition P (World A : Type) : Type :=
  State World -> Outcome (A * State World).

Definition retP {World A} (a : A) : P World A := fun s => Returns (a, s).

Definition bindP {World A B} (m : P World A) (k : A -> P World B)
  : P World B :=
  fun s =>
    match m s with
    | Returns (a, s') => k a s'
    | Panics msg => Panics msg
    end.

Definition liftP {World A} (o : Outcome A) : P World A :=
  fun s =>
    match o with
    | Returns a => Returns (a, s)
    | Panics msg => Panics msg
    end.

Declare Scope prov_scope.
Delimit Scope prov_scope with prov.
Notation "x <- m ;; k" := (bindP m (fun x => k))
  (at level 61, m at next level, right associativity) : prov_scope.

(** One remote call: logged, answered by the service. *)
Definition remote {World A} (call : Call) (respond : World -> A * World)
  : P World A :=
  fun s =>
    let '(a, w) := respond (st_world s) in
    Returns (a, mkState (st_heap s) w (st_calls s ++ [call])).

(** Reading and writing a record through a pointer. *)
Definition load {World} (p : RecordPtr) : P World (nat * DNSRecord) :=
  fun s =>
    match p with
    | None => Panics "invalid memory address or nil pointer dereference"
    | Some a =>
        match nth_error (st_heap s) a with
        | Some r => Returns ((a, r), s)
        | None => Panics "invalid memory address or nil pointer dereference"
        end
    end.

Fixpoint update_nth {A} (n : nat) (x : A) (l : list A) : list A :=
  match l, n with
  | [], _ => []
  | _ :: l', O => x :: l'
  | y :: l', S n' => y :: update_nth n' x l'
  end.

Definition store {World} (a : nat) (r : DNSRecord) : P World unit :=
  fun s =>
    Returns (tt, mkState (update_nth a r (st_heap s)) (st_world s)
                   (st_calls s)).

(** [&Record{...}]: a fresh record. *)
Definition new_record {World} (r : DNSRecord) : P World RecordPtr :=
  fun s =>
    Returns (Some (List.length (st_heap s)),
             mkState (st_heap s ++ [r]) (st_world s) (st_calls s)).

(* --------------------------------------------------------------------- *)
(** *** FindInstance and CreateInstance *)

Definition FindInstance {World} (c : Client World)
  (ireq : option InstanceRequest)
  : P World (option compute_Instance * option Error) :=
  (verr <- liftP (validateForByName ireq) ;;
   match verr with
   | Some err => retP (None, Some err)
   | None =>
       project <- liftP (field ireq iq_Project) ;;
       zone <- liftP (field ireq iq_Zone) ;;
       name <- liftP (field ireq iq_Name) ;;
       remote (CallInstancesGet project zone name)
         (fun w => instancesGetDo c w project zone name)
   end)%prov.

(** The log.Printf of the operation is left out. *)
Definition CreateInstance {World} (c : Client World)
  (ireq : option InstanceRequest)
  : P World (option compute_Instance * option Error) :=
  (verr <- liftP (validateForCreate ireq) ;;
   match verr with
   | Some err => retP (None, Some err)
   | None =>
       project <- liftP (field ireq iq_Project) ;;
       zone <- liftP (field ireq iq_Zone) ;;
       instance <- liftP (field ireq toInstance) ;;
       res <- remote (CallInstancesInsert project zone instance)
                (fun w => instancesInsertDo c w project zone instance) ;;
       match snd res with
       | Some err => retP (None, Some err)
       | None =>
           opErr <- liftP (field (fst res) op_Error) ;;
           match opErr with
           | Some jsonBlob => retP (None, Some (errOperation jsonBlob))
           | None =>
               name <- liftP (field ireq iq_Name) ;;
               block <- liftP (field ireq iq_BlockUntilCompletion) ;;
               FindInstance c
                 (Some (mkInstanceRequest zone project "" name None false []
                          None None [] [] block))
           end
       end
   end)%prov.

(* --------------------------------------------------------------------- *)
(** *** DNS records *)

Definition RecordType : Type := string.
Definition AAAName : RecordType := "AAA".
Definition AName : RecordType := "A".
Definition CName : RecordType := "CNAME".
Definition CAA : RecordType := "CAA".
Definition MX : RecordType := "MX".
Definition NS : RecordType := "NS".
Definition SPF : RecordType := "SPF".
Definition SRV : RecordType := "SRV".
Definition TXT : RecordType := "TXT".

(** The map [seen] of dedup is read for the presence of a key only: it is
    kept as the list of its keys. *)
Definition known (item : string) (seen : list string) : bool :=
  existsb (String.eqb item) seen.

Fixpoint dedup_loop (items seen uniqRecords : list string) : list string :=
  match items with
  | [] => uniqRecords
  | item :: items' =>
      if known item seen then dedup_loop items' seen uniqRecords
      else
        let trimmedItem := TrimSpace item in
        if String.eqb trimmedItem "" then dedup_loop items' seen uniqRecords
        else
          dedup_loop items' (trimmedItem :: item :: seen)
            (uniqRecords ++ [trimmedItem])
  end.

Definition dedup (items : list string) : list string :=
  dedup_loop items [] [].

(** The validateFor methods: the error, and the record as the method leaves
    it. *)
Definition validateForAAAName (r : DNSRecord) : option Error * DNSRecord :=
  let uniqIPV6Addresses := dedup (r_IPV6Addresses r) in
  if (List.length uniqIPV6Addresses =? 0)%nat then
    (Some errEmptyIPV6Addresses, r)
  else
    (None,
     mkDNSRecord (r_DNSName r) (r_TTL r) (r_Type r) (r_IPV4Addresses r)
       uniqIPV6Addresses (r_CanonicalName r) (r_NameServers r)
       (r_CertificateAuthorityAuthorizations r)
       (r_PreferenceAndMailServers r) (r_SPFData r) (r_SRVData r)
       (r_TXTRecords r)).

Definition validateForSPF (r : DNSRecord) : option Error * DNSRecord :=
  let uniqs := dedup (r_SPFData r) in
  if (List.length uniqs =? 0)%nat then (Some errEmptySPFData, r)
  else
    (None,
     mkDNSRecord (r_DNSName r) (r_TTL r) (r_Type r) (r_IPV4Addresses r)
       (r_IPV6Addresses r) (r_CanonicalName r) (r_NameServers r)
       (r_CertificateAuthorityAuthorizations r)
       (r_PreferenceAndMailServers r) uniqs (r_SRVData r)
       (r_TXTRecords r)).

Definition validateForTXT (r : DNSRecord) : option Error * DNSRecord :=
  let uniqs := dedup (r_TXTRecords r) in
  if (List.length uniqs =? 0)%nat then (Some errEmptyTXTRecords, r)
  else
    (None,
     mkDNSRecord (r_DNSName r) (r_TTL r) (r_Type r) (r_IPV4Addresses r)
       (r_IPV6Addresses r) (r_CanonicalName r) (r_NameServers r)
       (r_CertificateAuthorityAuthorizations r)
       (r_PreferenceAndMailServers r) (r_SPFData r) (r_SRVData r)
       uniqs).

Definition validateForSRV (r : DNSRecord) : option Error * DNSRecord :=
  let uniqs := dedup (r_SRVData r) in
  if (List.length uniqs =? 0)%nat then (Some errEmptySPFData, r)
  else
    (None,
     mkDNSRecord (r_DNSName r) (r_TTL r) (r_Type r) (r_IPV4Addresses r)
       (r_IPV6Addresses r) (r_CanonicalName r) (r_NameServers r)
       (r_CertificateAuthorityAuthorizations r)
       (r_PreferenceAndMailServers r) (r_SPFData r) uniqs
       (r_TXTRecords r)).

Definition validateForNS (r : DNSRecord) : option Error * DNSRecord :=
  let uniqs := dedup (r_NameServers r) in
  if (List.length uniqs =? 0)%nat then (Some errEmptyNameServers, r)
  else
    (None,
     mkDNSRecord (r_DNSName r) (r_TTL r) (r_Type r) (r_IPV4Addresses r)
       (r_IPV6Addresses r) (r_CanonicalName r) uniqs
       (r_CertificateAuthorityAuthorizations r)
       (r_PreferenceAndMailServers r) (r_SPFData r) (r_SRVData r)
       (r_TXTRecords r)).

Definition validateForMX (r : DNSRecord) : option Error * DNSRecord :=
  let uniqs := dedup (r_PreferenceAndMailServers r) in
  if (List.length uniqs =? 0)%nat then
    (Some errEmptyPreferenceAndMailServers, r)
  else
    (None,
     mkDNSRecord (r_DNSName r) (r_TTL r) (r_Type r) (r_IPV4Addresses r)
       (r_IPV6Addresses r) (r_CanonicalName r) (r_NameServers r)
       (r_CertificateAuthorityAuthorizations r)
       uniqs (r_SPFData r) (r_SRVData r) (r_TXTRecords r)).

Definition validateForAName (r : DNSRecord) : option Error * DNSRecord :=
  let uniqIPV4Addresses := dedup (r_IPV4Addresses r) in
  if (List.length uniqIPV4Addresses =? 0)%nat then
    (Some errEmptyIPV4Addresses, r)
  else
    (None,
     mkDNSRecord (r_DNSName r) (r_TTL r) (r_Type r) uniqIPV4Addresses
       (r_IPV6Addresses r) (r_CanonicalName r) (r_NameServers r)
       (r_CertificateAuthorityAuthorizations r)
       (r_PreferenceAndMailServers r) (r_SPFData r) (r_SRVData r)
       (r_TXTRecords r)).

Definition validateForCName (r : DNSRecord) : option Error * DNSRecord :=
  if String.eqb (TrimSpace (r_CanonicalName r)) "" then
    (Some errBlankCanonicalName, r)
  else (None, r).

Definition validateForCAA (r : DNSRecord) : option Error * DNSRecord :=
  let uniqs := dedup (r_CertificateAuthorityAuthorizations r) in
  if (List.length uniqs =? 0)%nat then
    (Some errEmptyCertificateAuthorityAuthorizations, r)
  else
    (None,
     mkDNSRecord (r_DNSName r) (r_TTL r) (r_Type r) (r_IPV4Addresses r)
       (r_IPV6Addresses r) (r_CanonicalName r) (r_NameServers r)
       uniqs (r_PreferenceAndMailServers r) (r_SPFData r) (r_SRVData r)
       (r_TXTRecords r)).

(** The switch of Validate on the record's type. *)
Definition Record_Validate (r : DNSRecord) : option Error * DNSRecord :=
  if String.eqb (r_Type r) AAAName then validateForAAAName r
  else if String.eqb (r_Type r) AName then validateForAName r
  else if String.eqb (r_Type r) CAA then validateForCAA r
  else if String.eqb (r_Type r) CName then validateForCName r
  else if String.eqb (r_Type r) MX then validateForMX r
  else if String.eqb (r_Type r) NS then validateForNS r
  else if String.eqb (r_Type r) SPF then validateForSPF r
  else if String.eqb (r_Type r) SRV then validateForSRV r
  else if String.eqb (r_Type r) TXT then validateForTXT r
  else (Some (errUnknownRecordType (r_Type r)), r).

Definition toRecordSet (r : DNSRecord) : dns_ResourceRecordSet :=
  let Rrdatas : list string := [] in
  let Rrdatas :=
    if negb (String.eqb (r_CanonicalName r) "")
    then Rrdatas ++ [ensureHasTrailingDot (r_CanonicalName r)]
    else Rrdatas in
  let Rrdatas := Rrdatas ++ r_CertificateAuthorityAuthorizations r in
  let Rrdatas := Rrdatas ++ r_IPV4Addresses r in
  let Rrdatas := Rrdatas ++ r_IPV6Addresses r in
  let Rrdatas := Rrdatas ++ r_NameServers r in
  let Rrdatas := Rrdatas ++ r_PreferenceAndMailServers r in
  let Rrdatas := Rrdatas ++ r_SPFData r in
  let Rrdatas := Rrdatas ++ r_SRVData r in
  let Rrdatas := Rrdatas ++ r_TXTRecords r in
  mkResourceRecordSet (ensureHasTrailingDot (r_DNSName r)) (r_Type r)
    (r_TTL r) Rrdatas.

(** The loop of toRecordSets: each record is validated through its pointer,
    which may rewrite it, and then converted. *)
Fixpoint toRecordSets_loop {World} (records : list RecordPtr)
  (rrsets : list dns_ResourceRecordSet)
  : P World (list dns_ResourceRecordSet * option Error) :=
  match records with
  | [] => retP (rrsets, None)
  | rec :: records' =>
      (ar <- load rec ;;
       let '(err, r') := Record_Validate (snd ar) in
       _ <- store (fst ar) r' ;;
       match err with
       | Some e => retP ([], Some e)
       | None => toRecordSets_loop records' (rrsets ++ [toRecordSet r'])
       end)%prov
  end.

Definition toRecordSets {World} (records : list RecordPtr)
  : P World (list dns_ResourceRecordSet * option Error) :=
  toRecordSets_loop records [].

Record UpdateRequest : Type := mkUpdateRequest {
  ur_Zone : string;
  ur_Project : string;
  ur_Records : list RecordPtr;
  ur_Additions : list RecordPtr;
  ur_Deletions : list RecordPtr
}.

Definition UpdateRequest_validate (ureq : option UpdateRequest)
  : Outcome (option Error) :=
  match or_else (is_nil ureq)
          (match field ureq ur_Zone with
           | Returns z => Returns (String.eqb z "")
           | Panics m => Panics m
           end) with
  | Panics m => Panics m
  | Returns true => Returns (Some (pkgError errBlankZone))
  | Returns false =>
      match field ureq ur_Project with
      | Panics m => Panics m
      | Returns p =>
          if String.eqb p "" then Returns (Some (pkgError errBlankProject))
          else Returns None
      end
  end.

Definition UpdateRecordSets {World} (c : Client World)
  (ureq : option UpdateRequest)
  : P World (option dns_Change * option Error) :=
  (verr <- liftP (UpdateRequest_validate ureq) ;;
   match verr with
   | Some err => retP (None, Some err)
   | None =>
       dels <- liftP (field ureq ur_Deletions) ;;
       deletions <- toRecordSets dels ;;
       match snd deletions with
       | Some err => retP (None, Some err)
       | None =>
           adds <- liftP (field ureq ur_Additions) ;;
           additions <- toRecordSets adds ;;
           match snd additions with
           | Some err => retP (None, Some err)
           | None =>
               let change := mkChange (fst additions) (fst deletions) in
               project <- liftP (field ureq ur_Project) ;;
               zone <- liftP (field ureq ur_Zone) ;;
               remote (CallChangesCreate project zone change)
                 (fun w => changesCreateDo c w project zone change)
           end
       end
   end)%prov.

Definition AddRecordSets {World} (c : Client World)
  (areq : option UpdateRequest)
  : P World (option dns_Change * option Error) :=
  match areq with
  | None => retP (None, Some errBlankUpdateRequest)
  | Some a =>
      UpdateRecordSets c
        (Some (mkUpdateRequest (ur_Zone a) (ur_Project a) [] (ur_Records a)
                 []))
  end.

Definition DeleteRecordSets {World} (c : Client World)
  (dreq : option UpdateRequest)
  : P World (option dns_Change * option Error) :=
  match dreq with
  | None => retP (None, Some errBlankUpdateRequest)
  | Some d =>
      UpdateRecordSets c
        (Some (mkUpdateRequest (ur_Zone d) (ur_Project d) [] []
                 (ur_Records d)))
  end.

(* --------------------------------------------------------------------- *)
(** *** Storage *)

(** [up_Reader] is the function field Reader ([None] is nil), with what the
    reader it returns yields. *)
Record UploadParams : Type := mkUploadParams {
  up_Project : string;
  up_Public : bool;
  up_Bucket : string;
  up_Name : string;
  up_Reader : option string
}.

Definition UploadParams_Validate (params : option UploadParams)
  : Outcome (option Error) :=
  match or_else (is_nil params)
          (match field params up_Reader with
           | Returns rd => Returns (is_nil rd)
           | Panics m => Panics m
           end) with
  | Panics m => Panics m
  | Returns true => Returns (Some errBlankReaderFunc)
  | Returns false =>
      match field params up_Name with
      | Panics m => Panics m
      | Returns n =>
          if String.eqb n "" then Returns (Some errEmptyName)
          else
            match field params up_Bucket with
            | Panics m => Panics m
            | Returns b =>
                if String.eqb b "" then Returns (Some errEmptyBucket)
                else Returns None
            end
      end
  end.

Record BucketCheck : Type := mkBucketCheck {
  bc_Project : string;
  bc_Bucket : string;
  bc_Public : bool
}.

Definition EnsureBucketExists {World} (c : Client World)
  (bc : option BucketCheck)
  : P World (option storage_Bucket * option Error) :=
  (bucket <- liftP (field bc bc_Bucket) ;;
   found <- remote (CallBucketsGet bucket)
              (fun w => bucketsGetDo c w bucket) ;;
   match fst found with
   | Some foundBucket => retP (Some foundBucket, None)
   | None =>
       project <- liftP (field bc bc_Project) ;;
       public <- liftP (field bc bc_Public) ;;
       let acl := if public : bool then "publicRead" else "private" in
       remote (CallBucketsInsert project (mkBucket bucket) acl)
         (fun w => bucketsInsertDo c w project (mkBucket bucket) acl)
   end)%prov.

Definition UploadWithParams {World} (c : Client World)
  (params : option UploadParams)
  : P World (option storage_Object * option Error) :=
  (verr <- liftP (UploadParams_Validate params) ;;
   match verr with
   | Some err => retP (None, Some err)
   | None =>
       project <- liftP (field params up_Project) ;;
       bucketName <- liftP (field params up_Bucket) ;;
       res <- EnsureBucketExists c
                (Some (mkBucketCheck project bucketName false)) ;;
       match snd res with
       | Some err => retP (None, Some err)
       | None =>
           name <- liftP (field params up_Name) ;;
           bname <- liftP (field (fst res) bk_Name) ;;
           let obj := mkObject name bname in
           public <- liftP (field params up_Public) ;;
           let acl := if public : bool then "publicRead" else "private" in
           reader <- liftP (field params up_Reader) ;;
           media <- liftP (field reader (fun m => m)) ;;
           remote (CallObjectsInsert bucketName obj acl media)
             (fun w => objectsInsertDo c w bucketName obj acl media)
       end
   end)%prov.

(* --------------------------------------------------------------------- *)
(** *** The full setup: its validation and its helpers *)

Record Setup : Type := mkSetup {
  su_Project : string;
  su_Zone : string;
  su_ProjectDescription : string;
  su_MachineName : string;
  su_DomainName : string;
  su_IPV4Addresses : list string;
  su_Aliases : list string;
  su_ProxyAddress : string;
  su_Environ : list string;
  su_TargetGOOS : string
}.

Definition Setup_Validate (req : option Setup) : Outcome (option Error) :=
  match or_else (is_nil req)
          (match field req su_Project with
           | Returns p => Returns (String.eqb (TrimSpace p) "")
           | Panics m => Panics m
           end) with
  | Panics m => Panics m
  | Returns true => Returns (Some (pkgError errEmptyProject))
  | Returns false =>
      match field req su_Zone with
      | Panics m => Panics m
      | Returns z =>
          if String.eqb (TrimSpace z) "" then
            Returns (Some (pkgError errEmptyZone))
          else
            match field req su_DomainName with
            | Panics m => Panics m
            | Returns d =>
                if String.eqb d "" then Returns (Some errEmptyDomainName)
                else Returns None
            end
      end
  end.

Fixpoint ipv4Addresses_loop
  (netInterfaces : list (option compute_NetworkInterface))
  (ipv4Addresses : list string) : Outcome (list string) :=
  match netInterfaces with
  | [] => Returns ipv4Addresses
  | netInterface :: rest =>
      match field netInterface ni_NetworkIP with
      | Panics m => Panics m
      | Returns ip => ipv4Addresses_loop rest (ipv4Addresses ++ [ip])
      end
  end.

Definition ipv4AddressesFromInstance (instance : option compute_Instance)
  : Outcome (list string) :=
  match field instance ci_NetworkInterfaces with
  | Panics m => Panics m
  | Returns nis => ipv4Addresses_loop nis []
  end.

Definition generateMachine {World} (c : Client World) (req : option Setup)
  : P World (option compute_Instance * option Error) :=
  (description <- liftP (field req su_ProjectDescription) ;;
   project <- liftP (field req su_Project) ;;
   zone <- liftP (field req su_Zone) ;;
   name <- liftP (field req su_MachineName) ;;
   CreateInstance c
     (Some (mkInstanceRequest zone project description name None false []
              (Some BasicExternalNATNetworkInterface) None [] [] false)))%prov.

Definition generateMachineAndIPV4Addresses {World} (c : Client World)
  (req : option Setup) : P World (list string * option Error) :=
  (res <- generateMachine c req ;;
   match snd res with
   | Some err => retP ([], Some err)
   | None =>
       nis <- liftP (field (fst res) ci_NetworkInterfaces) ;;
       instance <-
         (if (List.length nis =? 0)%nat then
            project <- liftP (field req su_Project) ;;
            zone <- liftP (field req su_Zone) ;;
            name <- liftP (field req su_MachineName) ;;
            found <- FindInstance c
                       (Some (mkInstanceRequest zone project "" name None
                                false [] None None [] [] false)) ;;
            retP (fst found)
          else retP (fst res)) ;;
       addrs <- liftP (ipv4AddressesFromInstance instance) ;;
       retP (addrs, None)
   end)%prov.

(** The loop of generateRecordSets over the aliases. *)
Fixpoint aliases_loop {World} (aliases : list string) (domainName : string)
  (records : list RecordPtr) : P World (list RecordPtr) :=
  match aliases with
  | [] => retP records
  | alias :: aliases' =>
      (p <- new_record
              (mkDNSRecord alias 0 CName [] [] domainName [] [] [] [] [] []) ;;
       aliases_loop aliases' domainName (records ++ [p]))%prov
  end.

Definition generateRecordSets {World} (c : Client World) (req : option Setup)
  (ipv4Addresses : list string)
  : P World (option dns_Change * option Error) :=
  (project <- liftP (field req su_Project) ;;
   zone <- liftP (field req su_Zone) ;;
   domainName <- liftP (field req su_DomainName) ;;
   a <- new_record
          (mkDNSRecord domainName 0 AName ipv4Addresses [] "" [] [] [] [] []
             []) ;;
   aliases <- liftP (field req su_Aliases) ;;
   records <- aliases_loop aliases domainName [a] ;;
   AddRecordSets c (Some (mkUpdateRequest zone project records [] [])))%prov.

Definition recordSetsToDomainNames (recordSets : list dns_ResourceRecordSet)
  (fn : option (string -> string)) : list string :=
  fold_left
    (fun domainNames rset =>
       let stripped := stripTrailingDot (rs_Name rset) in
       let stripped :=
         match fn with
         | Some f => f stripped
         | None => stripped
         end in
       domainNames ++ [stripped])
    recordSets [].

(* --------------------------------------------------------------------- *)
(** *** Notions used to state the properties of the provisioning code *)

(** How often the address [a] occurs among [records]. *)
Fixpoint visits (a : nat) (records : list RecordPtr) : nat :=
  match records with
  | [] => O
  | Some b :: records' =>
      if Nat.eqb a b then S (visits a records') else visits a records'
  | None :: records' => visits a records'
  end.

(** A record after [n] runs of Validate. *)
Definition validated (n : nat) (r : DNSRecord) : DNSRecord :=
  Nat.iter n (fun r => snd (Record_Validate r)) r.

(** What makes a record set fit to be sent. *)
Definition well_formed_record_set (rrset : dns_ResourceRecordSet) : Prop :=
  rs_Rrdatas rrset <> [] /\ HasSuffix_dot (rs_Name rrset) = true.

(** What a remote call may be when it is made on behalf of an upload of
    [p]: a lookup of the bucket, the creation of the bucket with the private
    default ACL, or the insertion of the object under the ACL [p] asks
    for. *)
Definition upload_call (p : UploadParams) (call : Call) : Prop :=
  match call with
  | CallBucketsGet bucket => bucket = up_Bucket p
  | CallBucketsInsert project bucket acl =>
      project = up_Project p /\ bucket = mkBucket (up_Bucket p) /\
      acl = "private"
  | CallObjectsInsert bucket object acl media =>
      bucket = up_Bucket p /\ ob_Name object = up_Name p /\
      acl = (if up_Public p then "publicRead" else "private") /\
      up_Reader p = Some media
  | _ => False
  end.

(* --------------------------------------------------------------------- *)
(** *** Sample services and inputs *)

Definition sample_instance (name : string)
  (netInterfaces : list (option compute_NetworkInterface))
  : compute_Instance :=
  mkInstance name [BasicAttachedDisk] None "" "" [] netInterfaces.

(** Sample services; their state counts the calls answered.  The machine
    named bare is listed without a network interface by the lookup that
    follows its creation and is not found afterwards; any other machine is
    listed with one interface.  No bucket exists before it is created. *)
Definition sample_client : Client nat :=
  mkClient nat
    (fun w project zone name =>
       if String.eqb name "bare" then
         if (w =? 1)%nat then ((Some (sample_instance name []), None), S w)
         else ((None, Some (pkgError (apiError "notFound"))), S w)
       else
         ((Some (sample_instance name
                   [Some (mkNetworkInterface [] "10.128.0.2")]),
           None), S w))
    (fun w project zone instance => ((Some (mkOperation None), None), S w))
    (fun w project zone change => ((Some change, None), S w))
    (fun w bucket => ((None, Some (pkgError (apiError "notFound"))), S w))
    (fun w project bucket acl => ((Some bucket, None), S w))
    (fun w bucket object acl media => ((Some object, None), S w)).

Definition sample_custom_machine : MachineType := mkMachineType 2 512 "".

Definition sample_instance_request : InstanceRequest :=
  mkInstanceRequest "us-central1-c" "orijtech-161805" "Git server"
    "git-server" None false [] (Some BasicExternalNATNetworkInterface) None
    [] [] false.

Definition sample_a_record : DNSRecord :=
  mkDNSRecord "git.orijtech.com" 0 AName
    ["130.211.187.103"; " 130.211.187.103"] [] "" [] [] [] [] [] [].

Definition sample_cname_record : DNSRecord :=
  mkDNSRecord "www.git.orijtech.com." 0 CName [] [] "git.orijtech.com." []
    [] [] [] [] [].

(** A state with the two sample records in memory, at the addresses 0
    and 1. *)
Definition sample_state : State nat :=
  mkState [sample_a_record; sample_cname_record] 0%nat [].


Definition sample_upload : UploadParams :=
  mkUploadParams "orijtech-161805" true "frontender-binaries"
    "generated-binary" (Some "ELF").

Definition sample_setup (machineName : string) : Setup :=
  mkSetup "orijtech-161805" "us-central1-c" "full-setup" machineName
    "edison.orijtech.com" ["35.184.3.107"]
    ["www.edison.orijtech.com"; "el.orijtech.com"] "http://10.128.0.5/" []
    "".

Section Listing.

(** The item types of the remote API (compute.Instance, compute.Zone,
    dns.ResourceRecordSet) and the state of the remote service. *)
Variables Instance Zone ResourceRecordSet : Type.
Variable World : Type.

(* ------------------------------------------------------------------- *)
(** *** Call objects and responses of the API client *)

Record InstancesListCall : Type := mkInstancesListCall {
  ilc_project : string;
  ilc_zone : string;
  ilc_maxResults : option Z;
  ilc_filter : option string;
  ilc_orderBy : option string;
  ilc_pageToken : option string
}.

Definition InstancesService_List (project zone : string) : InstancesListCall :=
  mkInstancesListCall project zone None None None None.
Definition ilc_MaxResults (c : InstancesListCall) (n : Z) :=
  mkInstancesListCall (ilc_project c) (ilc_zone c) (Some n)
    (ilc_filter c) (ilc_orderBy c) (ilc_pageToken c).
Definition ilc_Filter (c : InstancesListCall) (f : string) :=
  mkInstancesListCall (ilc_project c) (ilc_zone c) (ilc_maxResults c)
    (Some f) (ilc_orderBy c) (ilc_pageToken c).
Definition ilc_OrderBy (c : InstancesListCall) (o : string) :=
  mkInstancesListCall (ilc_project c) (ilc_zone c) (ilc_maxResults c)
    (ilc_filter c) (Some o) (ilc_pageToken c).
Definition ilc_PageToken (c : InstancesListCall) (t : string) :=
  mkInstancesListCall (ilc_project c) (ilc_zone c) (ilc_maxResults c)
    (ilc_filter c) (ilc_orderBy c) (Some t).

Record InstanceList : Type := mkInstanceList {
  il_Items : list Instance;
  il_NextPageToken : string
}.

Record ZonesListCall : Type := mkZonesListCall {
  zlc_project : string;
  zlc_maxResults : option Z;
  zlc_filter : option string;
  zlc_orderBy : option string;
  zlc_pageToken : option string
}.

Definition ZonesService_List (project : string) : ZonesListCall :=
  mkZonesListCall project None None None None.
Definition zlc_MaxResults (c : ZonesListCall) (n : Z) :=
  mkZonesListCall (zlc_project c) (Some n)
    (zlc_filter c) (zlc_orderBy c) (zlc_pageToken c).
Definition zlc_Filter (c : ZonesListCall) (f : string) :=
  mkZonesListCall (zlc_project c) (zlc_maxResults c)
    (Some f) (zlc_orderBy c) (zlc_pageToken c).
Definition zlc_OrderBy (c : ZonesListCall) (o : string) :=
  mkZonesListCall (zlc_project c) (zlc_maxResults c)
    (zlc_filter c) (Some o) (zlc_pageToken c).
Definition zlc_PageToken (c : ZonesListCall) (t : string) :=
  mkZonesListCall (zlc_project c) (zlc_maxResults c)
    (zlc_filter c) (zlc_orderBy c) (Some t).

Record ZoneList : Type := mkZoneList {
  zl_Items : list Zone;
  zl_NextPageToken : string
}.

Record ResourceRecordSetsListCall : Type := mkResourceRecordSetsListCall {
  dlc_project : string;
  dlc_managedZone : string;
  dlc_maxResults : option Z;
  dlc_name : option string;
  dlc_pageToken : option string
}.

Definition ResourceRecordSetsService_List (project managedZone : string)
  : ResourceRecordSetsListCall :=
  mkResourceRecordSetsListCall project managedZone None None None.
Definition dlc_MaxResults (c : ResourceRecordSetsListCall) (n : Z) :=
  mkResourceRecordSetsListCall (dlc_project c) (dlc_managedZone c) (Some n)
    (dlc_name c) (dlc_pageToken c).
Definition dlc_Name (c : ResourceRecordSetsListCall) (n : string) :=
  mkResourceRecordSetsListCall (dlc_project c) (dlc_managedZone c)
    (dlc_maxResults c) (Some n) (dlc_pageToken c).
Definition dlc_PageToken (c : ResourceRecordSetsListCall) (t : string) :=
  mkResourceRecordSetsListCall (dlc_project c) (dlc_managedZone c)
    (dlc_maxResults c) (dlc_name c) (Some t).

Record ResourceRecordSetsListResponse : Type :=
  mkResourceRecordSetsListResponse {
  dl_Rrsets : list ResourceRecordSet;
  dl_NextPageToken : string
}.

(** The remote service: what [Do] of each call object returns, and how the
    service changes by it. *)
Variable instancesDo :
  World -> InstancesListCall -> (InstanceList + error) * World.
Variable zonesDo :
  World -> ZonesListCall -> (ZoneList + error) * World.
Variable recordSetsDo :
  World -> ResourceRecordSetsListCall ->
  (ResourceRecordSetsListResponse + error) * World.

(* ------------------------------------------------------------------- *)
(** *** Pages and responses of the package *)

Record InstancePage : Type := mkInstancePage {
  ip_Err : option error;
  ip_PageNumber : Z;
  ip_Instances : list Instance
}.

Record ZonePage : Type := mkZonePage {
  zp_Err : option error;
  zp_PageNumber : Z;
  zp_Zones : list Zone
}.

Record RecordSetPage : Type := mkRecordSetPage {
  rp_Err : option error;
  rp_PageNumber : Z;
  rp_RecordSets : list ResourceRecordSet
}.

(** What the function literal of each go statement captured.  The request
    is captured as a pointer and read by the goroutine; it is taken not to
    change after the listing call. *)
Record InstancesGoroutine : Type := mkInstancesGoroutine {
  ig_req : InstancesRequest;
  ig_maxPageNumber : Z;
  ig_maxResultsPerPage : Z
}.

Record ZonesGoroutine : Type := mkZonesGoroutine {
  zg_req : ZoneRequest;
  zg_maxPageNumber : Z;
  zg_maxResultsPerPage : Z
}.

Record RecordSetsGoroutine : Type := mkRecordSetsGoroutine {
  rg_req : RecordSetRequest;
  rg_maxPageNumber : Z;
  rg_maxResultsPerPage : Z
}.

(** A pages channel is identified with the goroutine that feeds it, and the
    cancel function with the state its closure captured. *)
Record InstancePagesResponse : Type := mkInstancePagesResponse {
  ipr_Pages : InstancesGoroutine;
  ipr_Cancel : Canceler
}.

Record ZonePagesResponse : Type := mkZonePagesResponse {
  zpr_Pages : ZonesGoroutine;
  zpr_Cancel : Canceler
}.

Record RecordSetPagesResponse : Type := mkRecordSetPagesResponse {
  rpr_Pages : RecordSetsGoroutine;
  rpr_Cancel : Canceler
}.

(** The go statement: the goroutine is started; the runtime counts it. *)
Definition go_start {G} (g : G) : M G :=
  fun rt =>
    Returns (g, mkRuntime (rt_channels rt) (S (rt_goroutines rt))).

(* ------------------------------------------------------------------- *)
(** *** ListInstances *)

(** The for loop of the goroutine, one unit of fuel per iteration.
    [pageToken] is the variable declared before the loop and passed to
    [ilc.PageToken] at the top of the body.  The statement
    [pageToken := ilr.NextPageToken] inside the body is a short variable
    declaration: it declares a second variable, here [pageToken'], whose
    scope is the rest of the body; the test [pageToken == ""] before the end
    of the body reads it, and the next iteration reads the first variable
    again. *)
Fixpoint ListInstances_loop (maxPageNumber : Z) (fuel : nat)
  (ilc : InstancesListCall) (pageToken : string) (pageNumber : Z)
  (w : World) (cn : Canceler) (consumer : list nat)
  : Run InstancesListCall InstanceList InstancePage :=
  match fuel with
  | O => ([], Running)
  | S fuel' =>
      let ilc := ilc_PageToken ilc pageToken in
      let ipage := mkInstancePage None pageNumber [] in
      let '(res, w) := instancesDo w ilc in
      match res with
      | inr err =>
          let ipage := mkInstancePage (Some err) (ip_PageNumber ipage)
                         (ip_Instances ipage) in
          ([EvDo ilc res; EvSend ipage], Closed)
      | inl ilr =>
          let ipage := mkInstancePage (ip_Err ipage) (ip_PageNumber ipage)
                         (il_Items ilr) in
          after [EvDo ilc res; EvSend ipage]
            (let pageNumber := int64_add pageNumber 1 in
             if pageExceedsMax maxPageNumber pageNumber then ([], Closed)
             else
               let pageToken' := il_NextPageToken ilr in
               match cancel_times (hd 0%nat consumer) cn with
               | Panics _ => ([], Crashed)
               | Returns cn =>
                   if cancel_ready cn then ([EvSelect true], Closed)
                   else
                     after [EvSelect false]
                       (if String.eqb pageToken' "" then ([], Closed)
                        else ListInstances_loop maxPageNumber fuel' ilc
                               pageToken pageNumber w cn (tl consumer))
               end)
      end
  end.

(** The body of the function literal, up to the loop. *)
Definition ListInstances_go (g : InstancesGoroutine) (cn : Canceler)
  (fuel : nat) (w : World) (consumer : list nat)
  : Run InstancesListCall InstanceList InstancePage :=
  let req := ig_req g in
  let ilc := InstancesService_List (ir_Project req) (ir_Zone req) in
  let ilc := ilc_MaxResults ilc (ig_maxResultsPerPage g) in
  let ilc := if negb (String.eqb (ir_Filter req) "")
             then ilc_Filter ilc (ir_Filter req) else ilc in
  let ilc := if negb (String.eqb (ir_OrderBy req) "")
             then ilc_OrderBy ilc (ir_OrderBy req) else ilc in
  let pageToken := "" in
  let pageNumber := 0 in
  ListInstances_loop (ig_maxPageNumber g) fuel ilc pageToken pageNumber
    w cn consumer.

Definition ListInstances (req : option InstancesRequest)
  : M (option InstancePagesResponse * option error) :=
  (verr <- lift (InstancesRequest_Validate req) ;;
   match verr with
   | Some err => ret (None, Some err)
   | None =>
       maxPageNumber <- lift (field req ir_MaxPages) ;;
       resultsPerPage <- lift (field req ir_ResultsPerPage) ;;
       let maxResultsPerPage :=
         if resultsPerPage >? 0 then resultsPerPage else 40 in
       cancelFn <- makeCanceler ;;
       _ <- make_chan 0 ;;
       r <- lift (field req (fun r => r)) ;;
       pagesChan <- go_start
         (mkInstancesGoroutine r maxPageNumber maxResultsPerPage) ;;
       ret (Some (mkInstancePagesResponse pagesChan cancelFn), None)
   end)%go.

(* ------------------------------------------------------------------- *)
(** *** ListZones *)

Fixpoint ListZones_loop (maxPageNumber : Z) (fuel : nat)
  (zlc : ZonesListCall) (pageToken : string) (pageNumber : Z)
  (w : World) (cn : Canceler) (consumer : list nat)
  : Run ZonesListCall ZoneList ZonePage :=
  match fuel with
  | O => ([], Running)
  | S fuel' =>
      let zlc := zlc_PageToken zlc pageToken in
      let zpage := mkZonePage None pageNumber [] in
      let '(res, w) := zonesDo w zlc in
      match res with
      | inr err =>
          let zpage := mkZonePage (Some err) (zp_PageNumber zpage)
                         (zp_Zones zpage) in
          ([EvDo zlc res; EvSend zpage], Closed)
      | inl zlr =>
          let zpage := mkZonePage (zp_Err zpage) (zp_PageNumber zpage)
                         (zl_Items zlr) in
          after [EvDo zlc res; EvSend zpage]
            (let pageNumber := int64_add pageNumber 1 in
             if pageExceedsMax maxPageNumber pageNumber then ([], Closed)
             else
               let pageToken' := zl_NextPageToken zlr in
               match cancel_times (hd 0%nat consumer) cn with
               | Panics _ => ([], Crashed)
               | Returns cn =>
                   if cancel_ready cn then ([EvSelect true], Closed)
                   else
                     after [EvSelect false]
                       (if String.eqb pageToken' "" then ([], Closed)
                        else ListZones_loop maxPageNumber fuel' zlc
                               pageToken pageNumber w cn (tl consumer))
               end)
      end
  end.

Definition ListZones_go (g : ZonesGoroutine) (cn : Canceler)
  (fuel : nat) (w : World) (consumer : list nat)
  : Run ZonesListCall ZoneList ZonePage :=
  let req := zg_req g in
  let zlc := ZonesService_List (zr_Project req) in
  let zlc := zlc_MaxResults zlc (zg_maxResultsPerPage g) in
  let zlc := if negb (String.eqb (zr_Filter req) "")
             then zlc_Filter zlc (zr_Filter req) else zlc in
  let zlc := if negb (String.eqb (zr_OrderBy req) "")
             then zlc_OrderBy zlc (zr_OrderBy req) else zlc in
  let pageToken := "" in
  let pageNumber := 0 in
  ListZones_loop (zg_maxPageNumber g) fuel zlc pageToken pageNumber
    w cn consumer.

Definition ListZones (req : option ZoneRequest)
  : M (option ZonePagesResponse * option error) :=
  (verr <- lift (ZoneRequest_Validate req) ;;
   match verr with
   | Some err => ret (None, Some err)
   | None =>
       maxPageNumber <- lift (field req zr_MaxPages) ;;
       resultsPerPage <- lift (field req zr_ResultsPerPage) ;;
       let maxResultsPerPage :=
         if resultsPerPage >? 0 then resultsPerPage else 40 in
       cancelFn <- makeCanceler ;;
       _ <- make_chan 0 ;;
       r <- lift (field req (fun r => r)) ;;
       pagesChan <- go_start
         (mkZonesGoroutine r maxPageNumber maxResultsPerPage) ;;
       ret (Some (mkZonePagesResponse pagesChan cancelFn), None)
   end)%go.

(* ------------------------------------------------------------------- *)
(** *** ListDNSRecordSets *)

Fixpoint ListDNSRecordSets_loop (maxPageNumber : Z) (fuel : nat)
  (dnsLc : ResourceRecordSetsListCall) (pageToken : string) (pageNumber : Z)
  (w : World) (cn : Canceler) (consumer : list nat)
  : Run ResourceRecordSetsListCall ResourceRecordSetsListResponse
      RecordSetPage :=
  match fuel with
  | O => ([], Running)
  | S fuel' =>
      let dnsLc := dlc_PageToken dnsLc pageToken in
      let dPage := mkRecordSetPage None pageNumber [] in
      let '(res, w) := recordSetsDo w dnsLc in
      match res with
      | inr err =>
          let dPage := mkRecordSetPage (Some err) (rp_PageNumber dPage)
                         (rp_RecordSets dPage) in
          ([EvDo dnsLc res; EvSend dPage], Closed)
      | inl dRes =>
          let dPage := mkRecordSetPage (rp_Err dPage) (rp_PageNumber dPage)
                         (dl_Rrsets dRes) in
          after [EvDo dnsLc res; EvSend dPage]
            (let pageNumber := int64_add pageNumber 1 in
             if pageExceedsMax maxPageNumber pageNumber then ([], Closed)
             else
               let pageToken' := dl_NextPageToken dRes in
               match cancel_times (hd 0%nat consumer) cn with
               | Panics _ => ([], Crashed)
               | Returns cn =>
                   if cancel_ready cn then ([EvSelect true], Closed)
                   else
                     after [EvSelect false]
                       (if String.eqb pageToken' "" then ([], Closed)
                        else ListDNSRecordSets_loop maxPageNumber fuel' dnsLc
                               pageToken pageNumber w cn (tl consumer))
               end)
      end
  end.

Definition ListDNSRecordSets_go (g : RecordSetsGoroutine) (cn : Canceler)
  (fuel : nat) (w : World) (consumer : list nat)
  : Run ResourceRecordSetsListCall ResourceRecordSetsListResponse
      RecordSetPage :=
  let rreq := rg_req g in
  let dnsLc := ResourceRecordSetsService_List (rr_Project rreq)
                 (rr_Zone rreq) in
  let dnsLc := dlc_MaxResults dnsLc (rg_maxResultsPerPage g) in
  let dnsLc := if negb (String.eqb (rr_DomainName rreq) "")
               then dlc_Name dnsLc (ensureHasTrailingDot (rr_DomainName rreq))
               else dnsLc in
  let pageToken := "" in
  let pageNumber := 0 in
  ListDNSRecordSets_loop (rg_maxPageNumber g) fuel dnsLc pageToken
    pageNumber w cn consumer.

Definition ListDNSRecordSets (rreq : option RecordSetRequest)
  : M (option RecordSetPagesResponse * option error) :=
  (verr <- lift (RecordSetRequest_Validate rreq) ;;
   match verr with
   | Some err => ret (None, Some err)
   | None =>
       maxPageNumber <- lift (field rreq rr_MaxPages) ;;
       resultsPerPage <- lift (field rreq rr_ResultsPerPage) ;;
       let maxResultsPerPage :=
         if resultsPerPage >? 0 then resultsPerPage else 40 in
       cancelFn <- makeCanceler ;;
       _ <- make_chan 0 ;;
       r <- lift (field rreq (fun r => r)) ;;
       pagesChan <- go_start
         (mkRecordSetsGoroutine r maxPageNumber maxResultsPerPage) ;;
       ret (Some (mkRecordSetPagesResponse pagesChan cancelFn), None)
   end)%go.

(* ------------------------------------------------------------------- *)
(** *** One view of the three operations

    To speak of "every stream" the three operations are put side by side:
    a request pointer of any of the three kinds, the response it yields,
    and the run of the goroutine behind a response, read through
    projections that forget which operation it came from. *)

Inductive Item : Type :=
| ItInstance (i : Instance)
| ItZone (z : Zone)
| ItRecordSet (r : ResourceRecordSet).

Record Page : Type := mkPage {
  pg_PageNumber : Z;
  pg_Err : option error;
  pg_Items : list Item
}.

(** The two parameters of a remote call that pagination is about. *)
Record CallView : Type := mkCallView {
  cv_pageToken : option string;
  cv_maxResults : option Z
}.

(** A fetched page: its items and the continuation token. *)
Definition Fetched : Type := (list Item * string)%type.

Definition PEvent : Type := Event CallView Fetched Page.
Definition PRun : Type := Run CallView Fetched Page.

Definition map_event {C R P C' R' P'} (fc : C -> C') (fr : R -> R')
  (fp : P -> P') (e : Event C R P) : Event C' R' P' :=
  match e with
  | EvDo c (inl r) => EvDo (fc c) (inl (fr r))
  | EvDo c (inr err) => EvDo (fc c) (inr err)
  | EvSend p => EvSend (fp p)
  | EvSelect b => EvSelect b
  end.

Definition map_run {C R P C' R' P'} (fc : C -> C') (fr : R -> R')
  (fp : P -> P') (r : Run C R P) : Run C' R' P' :=
  (map (map_event fc fr fp) (fst r), snd r).

Definition view_ilc (c : InstancesListCall) : CallView :=
  mkCallView (ilc_pageToken c) (ilc_maxResults c).
Definition view_il (r : InstanceList) : Fetched :=
  (map ItInstance (il_Items r), il_NextPageToken r).
Definition view_ip (p : InstancePage) : Page :=
  mkPage (ip_PageNumber p) (ip_Err p) (map ItInstance (ip_Instances p)).

Definition view_zlc (c : ZonesListCall) : CallView :=
  mkCallView (zlc_pageToken c) (zlc_maxResults c).
Definition view_zl (r : ZoneList) : Fetched :=
  (map ItZone (zl_Items r), zl_NextPageToken r).
Definition view_zp (p : ZonePage) : Page :=
  mkPage (zp_PageNumber p) (zp_Err p) (map ItZone (zp_Zones p)).

Definition view_dlc (c : ResourceRecordSetsListCall) : CallView :=
  mkCallView (dlc_pageToken c) (dlc_maxResults c).
Definition view_dl (r : ResourceRecordSetsListResponse) : Fetched :=
  (map ItRecordSet (dl_Rrsets r), dl_NextPageToken r).
Definition view_rp (p : RecordSetPage) : Page :=
  mkPage (rp_PageNumber p) (rp_Err p) (map ItRecordSet (rp_RecordSets p)).

Inductive RequestPtr : Type :=
| ZonesPtr (req : option ZoneRequest)
| InstancesPtr (req : option InstancesRequest)
| RecordSetsPtr (req : option RecordSetRequest).

Inductive Response : Type :=
| ZonesResponse (r : ZonePagesResponse)
| InstancesResponse (r : InstancePagesResponse)
| RecordSetsResponse (r : RecordSetPagesResponse).

Definition MaxPages_of (q : RequestPtr) : option Z :=
  match q with
  | ZonesPtr req => option_map zr_MaxPages req
  | InstancesPtr req => option_map ir_MaxPages req
  | RecordSetsPtr req => option_map rr_MaxPages req
  end.

Definition ResultsPerPage_of (q : RequestPtr) : option Z :=
  match q with
  | ZonesPtr req => option_map zr_ResultsPerPage req
  | InstancesPtr req => option_map ir_ResultsPerPage req
  | RecordSetsPtr req => option_map rr_ResultsPerPage req
  end.

Definition with_response {A} (f : A -> Response)
  (m : M (option A * option error)) : M (option Response * option error) :=
  (x <- m ;; ret (option_map f (fst x), snd x))%go.

(** The listing call that [q] is the argument of. *)
Definition ListPages (q : RequestPtr) : M (option Response * option error) :=
  match q with
  | ZonesPtr req => with_response ZonesResponse (ListZones req)
  | InstancesPtr req => with_response InstancesResponse (ListInstances req)
  | RecordSetsPtr req =>
      with_response RecordSetsResponse (ListDNSRecordSets req)
  end.

(** The state of the cancel function a response carries. *)
Definition Cancel_of (resp : Response) : Canceler :=
  match resp with
  | ZonesResponse r => zpr_Cancel r
  | InstancesResponse r => ipr_Cancel r
  | RecordSetsResponse r => rpr_Cancel r
  end.

(** The run of the goroutine behind a response: [fuel] iterations at most,
    against the remote service in state [w], with a consumer that invokes
    the cancel function [nth i consumer 0] times between the throttle wait
    [i - 1] (or the start) and the end of throttle wait [i]. *)
Definition stream (resp : Response) (fuel : nat) (w : World)
  (consumer : list nat) : PRun :=
  match resp with
  | ZonesResponse r =>
      map_run view_zlc view_zl view_zp
        (ListZones_go (zpr_Pages r) (zpr_Cancel r) fuel w consumer)
  | InstancesResponse r =>
      map_run view_ilc view_il view_ip
        (ListInstances_go (ipr_Pages r) (ipr_Cancel r) fuel w consumer)
  | RecordSetsResponse r =>
      map_run view_dlc view_dl view_rp
        (ListDNSRecordSets_go (rpr_Pages r) (rpr_Cancel r) fuel w consumer)
  end.

(** The pages a run handed to the consumer, in order. *)
Fixpoint pages_of {C R P} (evs : list (Event C R P)) : list P :=
  match evs with
  | [] => []
  | EvSend p :: evs' => p :: pages_of evs'
  | _ :: evs' => pages_of evs'
  end.

(** The remote calls a run made, in order. *)
Fixpoint calls_of {C R P} (evs : list (Event C R P)) : list C :=
  match evs with
  | [] => []
  | EvDo c _ :: evs' => c :: calls_of evs'
  | _ :: evs' => calls_of evs'
  end.

(* ------------------------------------------------------------------- *)
(** *** The common shape of the three loops

    The three loops are the same text up to the names of the call object,
    of the response and of the page.  [paginate] is that text once, over
    the projections; each loop is shown below to be an instance of it. *)

Fixpoint paginate (fetch : World -> string -> (Fetched + error) * World)
  (callOf : string -> CallView) (maxPageNumber : Z) (fuel : nat)
  (pageToken : string) (pageNumber : Z)
  (w : World) (cn : Canceler) (consumer : list nat) : PRun :=
  match fuel with
  | O => ([], Running)
  | S fuel' =>
      let c := callOf pageToken in
      let '(res, w) := fetch w pageToken in
      match res with
      | inr err =>
          ([EvDo c res; EvSend (mkPage pageNumber (Some err) [])], Closed)
      | inl got =>
          after [EvDo c res; EvSend (mkPage pageNumber None (fst got))]
            (let pageNumber := int64_add pageNumber 1 in
             if pageExceedsMax maxPageNumber pageNumber then ([], Closed)
             else
               let pageToken' := snd got in
               match cancel_times (hd 0%nat consumer) cn with
               | Panics _ => ([], Crashed)
               | Returns cn =>
                   if cancel_ready cn then ([EvSelect true], Closed)
                   else
                     after [EvSelect false]
                       (if String.eqb pageToken' "" then ([], Closed)
                        else paginate fetch callOf maxPageNumber fuel'
                               pageToken pageNumber w cn (tl consumer))
               end)
      end
  end.

Definition view_result {R} (f : R -> Fetched) (x : (R + error) * World)
  : (Fetched + error) * World :=
  (match fst x with inl r => inl (f r) | inr e => inr e end, snd x).

(** The run [paginate] makes for a response. *)
Definition fetch_of (resp : Response)
  : World -> string -> (Fetched + error) * World :=
  match resp with
  | ZonesResponse r =>
      let req := zg_req (zpr_Pages r) in
      let zlc := ZonesService_List (zr_Project req) in
      let zlc := zlc_MaxResults zlc (zg_maxResultsPerPage (zpr_Pages r)) in
      let zlc := if negb (String.eqb (zr_Filter req) "")
                 then zlc_Filter zlc (zr_Filter req) else zlc in
      let zlc := if negb (String.eqb (zr_OrderBy req) "")
                 then zlc_OrderBy zlc (zr_OrderBy req) else zlc in
      fun w t => view_result view_zl (zonesDo w (zlc_PageToken zlc t))
  | InstancesResponse r =>
      let req := ig_req (ipr_Pages r) in
      let ilc := InstancesService_List (ir_Project req) (ir_Zone req) in
      let ilc := ilc_MaxResults ilc (ig_maxResultsPerPage (ipr_Pages r)) in
      let ilc := if negb (String.eqb (ir_Filter req) "")
                 then ilc_Filter ilc (ir_Filter req) else ilc in
      let ilc := if negb (String.eqb (ir_OrderBy req) "")
                 then ilc_OrderBy ilc (ir_OrderBy req) else ilc in
      fun w t => view_result view_il (instancesDo w (ilc_PageToken ilc t))
  | RecordSetsResponse r =>
      let rreq := rg_req (rpr_Pages r) in
      let dnsLc := ResourceRecordSetsService_List (rr_Project rreq)
                     (rr_Zone rreq) in
      let dnsLc := dlc_MaxResults dnsLc
                     (rg_maxResultsPerPage (rpr_Pages r)) in
      let dnsLc := if negb (String.eqb (rr_DomainName rreq) "")
                   then dlc_Name dnsLc
                          (ensureHasTrailingDot (rr_DomainName rreq))
                   else dnsLc in
      fun w t => view_result view_dl (recordSetsDo w (dlc_PageToken dnsLc t))
  end.

Definition maxPageNumber_of (resp : Response) : Z :=
  match resp with
  | ZonesResponse r => zg_maxPageNumber (zpr_Pages r)
  | InstancesResponse r => ig_maxPageNumber (ipr_Pages r)
  | RecordSetsResponse r => rg_maxPageNumber (rpr_Pages r)
  end.

Definition maxResultsPerPage_of (resp : Response) : Z :=
  match resp with
  | ZonesResponse r => zg_maxResultsPerPage (zpr_Pages r)
  | InstancesResponse r => ig_maxResultsPerPage (ipr_Pages r)
  | RecordSetsResponse r => rg_maxResultsPerPage (rpr_Pages r)
  end.

Definition callOf_of (resp : Response) (t : string) : CallView :=
  mkCallView (Some t) (Some (maxResultsPerPage_of resp)).

(* ------------------------------------------------------------------- *)
(** *** Notions used to state the properties *)

(** The channel is closed exactly when the Once has fired. *)
Definition canceler_ok (c : Canceler) : Prop :=
  ch_closed (cancelChan c) = once_done (cancelOnce c).

(** The position of the first throttle wait before the end of which the
    consumer had invoked the cancel function. *)
Fixpoint first_cancel (consumer : list nat) : option nat :=
  match consumer with
  | [] => None
  | O :: consumer' => option_map S (first_cancel consumer')
  | S _ :: _ => Some O
  end.

Definition resolvedPageSize (resultsPerPage : Z) : Z :=
  if resultsPerPage >? 0 then resultsPerPage else 40.

Definition no_error (p : Page) : Prop := pg_Err p = None.


(* ------------------------------------------------------------------- *)
(** *** The shape of a run

    [shape n evs st]: [evs] is a run of the loop entered with page counter
    [n], ending in status [st].  One constructor per way out of the loop
    body. *)

Inductive shape : Z -> list PEvent -> Status -> Prop :=
| shape_fuel n :
    shape n [] Running
| shape_failed n c err :
    shape n [EvDo c (inr err); EvSend (mkPage n (Some err) [])] Closed
| shape_max n c got :
    shape n [EvDo c (inl got); EvSend (mkPage n None (fst got))] Closed
| shape_cancelled n c got :
    shape n [EvDo c (inl got); EvSend (mkPage n None (fst got));
             EvSelect true] Closed
| shape_exhausted n c got :
    snd got = "" ->
    shape n [EvDo c (inl got); EvSend (mkPage n None (fst got));
             EvSelect false] Closed
| shape_next n c got evs st :
    snd got <> "" ->
    shape (int64_add n 1) evs st ->
    shape n (EvDo c (inl got) :: EvSend (mkPage n None (fst got))
               :: EvSelect false :: evs) st.

(** The response is that of the operation the request belongs to. *)
Definition same_kind (q : RequestPtr) (resp : Response) : Prop :=
  match q, resp with
  | ZonesPtr _, ZonesResponse _ => True
  | InstancesPtr _, InstancesResponse _ => True
  | RecordSetsPtr _, RecordSetsResponse _ => True
  | _, _ => False
  end.

(** The Validate method that [q] is the receiver of. *)
Definition Validate_of (q : RequestPtr) : Outcome (option error) :=
  match q with
  | ZonesPtr req => ZoneRequest_Validate req
  | InstancesPtr req => InstancesRequest_Validate req
  | RecordSetsPtr req => RecordSetRequest_Validate req
  end.

(** A request that lacks a required identifying field; a nil request lacks
    all of them. *)
Definition malformed (q : RequestPtr) : Prop :=
  match q with
  | ZonesPtr (Some r) => zr_Project r = ""
  | InstancesPtr (Some r) => ir_Zone r = "" \/ ir_Project r = ""
  | RecordSetsPtr (Some r) => rr_Project r = "" \/ rr_Zone r = ""
  | _ => True
  end.

(** A consumer that never invokes the cancel function. *)
Definition never_cancels (consumer : list nat) : Prop :=
  Forall (fun n => n = 0%nat) consumer.

(** The state of the remote service after the calls recorded in [evs], each
    made with the page token it carries. *)
Fixpoint world_after (fetch : World -> string -> (Fetched + error) * World)
  (w : World) (evs : list PEvent) : World :=
  match evs with
  | [] => w
  | EvDo c _ :: evs' =>
      world_after fetch (snd (fetch w (token_or_empty (cv_pageToken c)))) evs'
  | _ :: evs' => world_after fetch w evs'
  end.

(** The state of the remote service after [i] fetches under the page token
    [tok]. *)
Definition refetched (fetch : World -> string -> (Fetched + error) * World)
  (tok : string) (i : nat) (w : World) : World :=
  Nat.iter i (fun w => snd (fetch w tok)) w.

(** The three remote operations over a collection of pages each; the state
    of the service does not change. *)
Definition collection_instancesDo (pages : list (list Instance)) (w : World)
  (c : InstancesListCall) : (InstanceList + error) * World :=
  (match collection_answer pages (token_or_empty (ilc_pageToken c)) with
   | inl got => inl (mkInstanceList (fst got) (snd got))
   | inr e => inr e
   end, w).

Definition collection_zonesDo (pages : list (list Zone)) (w : World)
  (c : ZonesListCall) : (ZoneList + error) * World :=
  (match collection_answer pages (token_or_empty (zlc_pageToken c)) with
   | inl got => inl (mkZoneList (fst got) (snd got))
   | inr e => inr e
   end, w).

Definition collection_recordSetsDo (pages : list (list ResourceRecordSet))
  (w : World) (c : ResourceRecordSetsListCall)
  : (ResourceRecordSetsListResponse + error) * World :=
  (match collection_answer pages (token_or_empty (dlc_pageToken c)) with
   | inl got => inl (mkResourceRecordSetsListResponse (fst got) (snd got))
   | inr e => inr e
   end, w).

(** A lister of zones that counts the calls it has answered: the call number
    [failAt] (from 0) fails, every other one is answered with [items] and a
    token for more. *)
Definition flaky_zonesDo (items : list Zone) (failAt : nat) (w : nat)
  (c : ZonesListCall) : (ZoneList + error) * nat :=
  (if (w =? failAt)%nat then inr (apiError "backendError")
   else inl (mkZoneList items "next"), S w).

(** The remote service behind [resp] serves the collection [pages]. *)
Definition remote_serves (resp : Response) (pages : list (list Item)) : Prop :=
  match resp with
  | ZonesResponse _ =>
      forall w c,
        view_result view_zl (zonesDo w c) =
        (collection_answer pages (token_or_empty (zlc_pageToken c)), w)
  | InstancesResponse _ =>
      forall w c,
        view_result view_il (instancesDo w c) =
        (collection_answer pages (token_or_empty (ilc_pageToken c)), w)
  | RecordSetsResponse _ =>
      forall w c,
        view_result view_dl (recordSetsDo w c) =
        (collection_answer pages (token_or_empty (dlc_pageToken c)), w)
  end.

(** Runs compared up to a reading [key] of the items, which are of a
    different type in each operation. *)
Definition key_fetched {K} (key : Item -> K) (got : Fetched)
  : list K * string :=
  (map key (fst got), snd got).

Definition key_page {K} (key : Item -> K) (p : Page)
  : Z * option error * list K :=
  (pg_PageNumber p, pg_Err p, map key (pg_Items p)).

Definition key_run {K} (key : Item -> K) (r : PRun)
  : Run CallView (list K * string) (Z * option error * list K) :=
  map_run (fun c => c) (key_fetched key) (key_page key) r.

Definition key_result {K} (key : Item -> K) (x : (Fetched + error) * World)
  : ((list K * string) + error) * World :=
  (match fst x with
   | inl got => inl (key_fetched key got)
   | inr e => inr e
   end, snd x).

(** The three remote services answer alike: calls with the same page token
    and page size get the same result, read through [key], and leave the
    service in the same state. *)
Definition remotes_agree {K} (key : Item -> K) : Prop :=
  (forall w cz ci,
      view_zlc cz = view_ilc ci ->
      key_result key (view_result view_zl (zonesDo w cz)) =
      key_result key (view_result view_il (instancesDo w ci))) /\
  (forall w ci cd,
      view_ilc ci = view_dlc cd ->
      key_result key (view_result view_il (instancesDo w ci)) =
      key_result key (view_result view_dl (recordSetsDo w cd))).

(* ===================================================================== *)
(** ** Properties *)

(* ------------------------------------------------------------------- *)
(** *** Each loop is an instance of the common shape *)

Lemma map_run_after {C R P C' R' P'} (fc : C -> C') (fr : R -> R')
  (fp : P -> P') (evs : list (Event C R P)) (r : Run C R P) :
  map_run fc fr fp (after evs r) =
  after (map (map_event fc fr fp) evs) (map_run fc fr fp r).
Proof.
  unfold map_run, after; simpl. now rewrite map_app.
Qed.

Lemma ListInstances_loop_paginate (mrp maxPageNumber : Z) (fuel : nat) :
  forall ilc pageToken pageNumber w cn consumer,
    ilc_maxResults ilc = Some mrp ->
    map_run view_ilc view_il view_ip
      (ListInstances_loop maxPageNumber fuel ilc pageToken pageNumber
         w cn consumer) =
    paginate
      (fun w t => view_result view_il (instancesDo w (ilc_PageToken ilc t)))
      (fun t => mkCallView (Some t) (Some mrp))
      maxPageNumber fuel pageToken pageNumber w cn consumer.
Proof.
  induction fuel as [|fuel IH]; intros ilc tok pn w cn cs Hmr; [reflexivity|].
  cbn [ListInstances_loop paginate].
  unfold view_result.
  destruct (instancesDo w (ilc_PageToken ilc tok)) as [[ilr|err] w'];
    cbn [fst snd].
  - rewrite map_run_after.
    cbn [map map_event]. f_equal;
      [unfold view_ilc, view_ip, view_il, ilc_PageToken; cbn; now rewrite Hmr|].
    unfold view_il; cbn [fst snd].
    destruct (pageExceedsMax maxPageNumber (int64_add pn 1)); [reflexivity|].
    destruct (cancel_times (hd 0%nat cs) cn) as [cn'|]; [|reflexivity].
    destruct (cancel_ready cn'); [reflexivity|].
    rewrite map_run_after. cbn [map map_event]. f_equal.
    destruct (String.eqb (il_NextPageToken ilr) ""); [reflexivity|].
    rewrite (IH (ilc_PageToken ilc tok) tok _ w' cn' (tl cs) Hmr).
    reflexivity.
  - unfold map_run, view_ilc, view_ip, ilc_PageToken; cbn. now rewrite Hmr.
Qed.

Lemma ListZones_loop_paginate (mrp maxPageNumber : Z) (fuel : nat) :
  forall zlc pageToken pageNumber w cn consumer,
    zlc_maxResults zlc = Some mrp ->
    map_run view_zlc view_zl view_zp
      (ListZones_loop maxPageNumber fuel zlc pageToken pageNumber
         w cn consumer) =
    paginate
      (fun w t => view_result view_zl (zonesDo w (zlc_PageToken zlc t)))
      (fun t => mkCallView (Some t) (Some mrp))
      maxPageNumber fuel pageToken pageNumber w cn consumer.
Proof.
  induction fuel as [|fuel IH]; intros zlc tok pn w cn cs Hmr; [reflexivity|].
  cbn [ListZones_loop paginate].
  unfold view_result.
  destruct (zonesDo w (zlc_PageToken zlc tok)) as [[zlr|err] w'];
    cbn [fst snd].
  - rewrite map_run_after.
    cbn [map map_event]. f_equal;
      [unfold view_zlc, view_zp, view_zl, zlc_PageToken; cbn; now rewrite Hmr|].
    unfold view_zl; cbn [fst snd].
    destruct (pageExceedsMax maxPageNumber (int64_add pn 1)); [reflexivity|].
    destruct (cancel_times (hd 0%nat cs) cn) as [cn'|]; [|reflexivity].
    destruct (cancel_ready cn'); [reflexivity|].
    rewrite map_run_after. cbn [map map_event]. f_equal.
    destruct (String.eqb (zl_NextPageToken zlr) ""); [reflexivity|].
    rewrite (IH (zlc_PageToken zlc tok) tok _ w' cn' (tl cs) Hmr).
    reflexivity.
  - unfold map_run, view_zlc, view_zp, zlc_PageToken; cbn. now rewrite Hmr.
Qed.

Lemma ListDNSRecordSets_loop_paginate (mrp maxPageNumber : Z) (fuel : nat) :
  forall dnsLc pageToken pageNumber w cn consumer,
    dlc_maxResults dnsLc = Some mrp ->
    map_run view_dlc view_dl view_rp
      (ListDNSRecordSets_loop maxPageNumber fuel dnsLc pageToken pageNumber
         w cn consumer) =
    paginate
      (fun w t =>
         view_result view_dl (recordSetsDo w (dlc_PageToken dnsLc t)))
      (fun t => mkCallView (Some t) (Some mrp))
      maxPageNumber fuel pageToken pageNumber w cn consumer.
Proof.
  induction fuel as [|fuel IH]; intros dlc tok pn w cn cs Hmr; [reflexivity|].
  cbn [ListDNSRecordSets_loop paginate].
  unfold view_result.
  destruct (recordSetsDo w (dlc_PageToken dlc tok)) as [[dRes|err] w'];
    cbn [fst snd].
  - rewrite map_run_after.
    cbn [map map_event]. f_equal;
      [unfold view_dlc, view_rp, view_dl, dlc_PageToken; cbn; now rewrite Hmr|].
    unfold view_dl; cbn [fst snd].
    destruct (pageExceedsMax maxPageNumber (int64_add pn 1)); [reflexivity|].
    destruct (cancel_times (hd 0%nat cs) cn) as [cn'|]; [|reflexivity].
    destruct (cancel_ready cn'); [reflexivity|].
    rewrite map_run_after. cbn [map map_event]. f_equal.
    destruct (String.eqb (dl_NextPageToken dRes) ""); [reflexivity|].
    rewrite (IH (dlc_PageToken dlc tok) tok _ w' cn' (tl cs) Hmr).
    reflexivity.
  - unfold map_run, view_dlc, view_rp, dlc_PageToken; cbn. now rewrite Hmr.
Qed.

(** The stream behind a response is the common loop, started with an empty
    page token and page number 0. *)
Lemma stream_paginate (resp : Response) (fuel : nat) (w : World)
  (consumer : list nat) :
  stream resp fuel w consumer =
  paginate (fetch_of resp) (callOf_of resp) (maxPageNumber_of resp) fuel
    "" 0 w (Cancel_of resp) consumer.
Proof.
  destruct resp as [[g cn]|[g cn]|[g cn]]; cbn [stream].
  - unfold ListZones_go. cbn zeta.
    erewrite ListZones_loop_paginate; [reflexivity|].
    cbn. now do 2 destruct (negb _).
  - unfold ListInstances_go. cbn zeta.
    erewrite ListInstances_loop_paginate; [reflexivity|].
    cbn. now do 2 destruct (negb _).
  - unfold ListDNSRecordSets_go. cbn zeta.
    erewrite ListDNSRecordSets_loop_paginate; [reflexivity|].
    cbn. now destruct (negb _).
Qed.

(* ------------------------------------------------------------------- *)
(** *** The cancel function *)

Lemma cancel_returns (c : Canceler) :
  canceler_ok c ->
  exists c', cancel c = Returns (None, c') /\
             canceler_ok c' /\ cancel_ready c' = true /\
             (cancel_ready c = true -> c' = c).
Proof.
  destruct c as [[d] [cap cl]]. unfold canceler_ok, cancel, Once_Do,
    close_chan, cancel_ready. cbn. intros ->.
  destruct d; cbn; eexists; repeat split; try reflexivity; discriminate.
Qed.

Lemma cancel_times_returns (n : nat) :
  forall c, canceler_ok c ->
    exists c', cancel_times n c = Returns c' /\ canceler_ok c' /\
               cancel_ready c' = (cancel_ready c || negb (Nat.eqb n 0))%bool.
Proof.
  induction n as [|n IH]; intros c Hok; cbn [cancel_times].
  - exists c. rewrite orb_false_r. auto.
  - destruct (cancel_returns c Hok) as (c1 & -> & Hok1 & Hr1 & _).
    destruct (IH c1 Hok1) as (c2 & -> & Hok2 & Hr2).
    exists c2. rewrite Hr2, Hr1. cbn. rewrite orb_true_r. auto.
Qed.

(** After the first invocation further ones change nothing. *)
Lemma cancel_times_once (n : nat) (c : Canceler) :
  canceler_ok c ->
  cancel_times (S n) c = cancel_times 1 c.
Proof.
  intros Hok. cbn [cancel_times].
  destruct (cancel_returns c Hok) as (c1 & -> & Hok1 & Hr1 & _).
  clear c Hok. induction n as [|n IH]; [reflexivity|].
  cbn [cancel_times].
  destruct (cancel_returns c1 Hok1) as (c2 & -> & _ & _ & Hsame).
  rewrite (Hsame Hr1). exact IH.
Qed.

Lemma first_cancel_step (cs1 cs2 : list nat) :
  first_cancel cs1 = first_cancel cs2 ->
  (hd 0%nat cs1 = 0%nat /\ hd 0%nat cs2 = 0%nat /\
   first_cancel (tl cs1) = first_cancel (tl cs2)) \/
  (exists a b, hd 0%nat cs1 = S a /\ hd 0%nat cs2 = S b).
Proof.
  destruct cs1 as [|[|a] cs1], cs2 as [|[|b] cs2]; cbn;
    try (destruct (first_cancel cs1); discriminate);
    try (destruct (first_cancel cs2); discriminate);
    intros H; try (left; repeat split; auto; fail);
    try (right; eauto; fail).
  - left. repeat split. destruct (first_cancel cs2); [discriminate|reflexivity].
  - left. repeat split. destruct (first_cancel cs1); [discriminate|reflexivity].
  - left. repeat split.
    destruct (first_cancel cs1), (first_cancel cs2); cbn in H;
      congruence.
Qed.

(* ------------------------------------------------------------------- *)
(** *** What a successful listing call returns *)

Lemma ListPages_started (q : RequestPtr) (rt rt' : Runtime)
  (resp : Response) (e : option error) :
  ListPages q rt = Returns ((Some resp, e), rt') ->
  e = None /\
  same_kind q resp /\
  Cancel_of resp = mkCanceler (mkOnce false) (mkChan 1 false) /\
  canceler_ok (Cancel_of resp) /\
  cancel_ready (Cancel_of resp) = false /\
  MaxPages_of q = Some (maxPageNumber_of resp) /\
  (exists rpp, ResultsPerPage_of q = Some rpp /\
               maxResultsPerPage_of resp = resolvedPageSize rpp) /\
  rt_channels rt' = (2 + rt_channels rt)%nat /\
  rt_goroutines rt' = (1 + rt_goroutines rt)%nat.
Proof.
  destruct q as [[r|]|[r|]|[r|]]; cbn;
    unfold with_response, ListZones, ListInstances, ListDNSRecordSets,
      bind, lift, ZoneRequest_Validate, InstancesRequest_Validate,
      RecordSetRequest_Validate; cbn;
    try discriminate.
  - destruct (String.eqb (zr_Project r) ""); cbn; [discriminate|].
    intros H; injection H as <- <- <-. cbn.
    repeat split; eauto.
  - destruct (String.eqb (ir_Zone r) ""); cbn; [discriminate|].
    destruct (String.eqb (ir_Project r) ""); cbn; [discriminate|].
    intros H; injection H as <- <- <-. cbn.
    repeat split; eauto.
  - destruct (String.eqb (rr_Project r) ""); cbn; [discriminate|].
    destruct (String.eqb (rr_Zone r) ""); cbn; [discriminate|].
    intros H; injection H as <- <- <-. cbn.
    repeat split; eauto.
Qed.

Lemma paginate_shape fetch callOf maxPageNumber (fuel : nat) :
  forall pageToken pageNumber w cn consumer,
    canceler_ok cn ->
    let r := paginate fetch callOf maxPageNumber fuel pageToken pageNumber
               w cn consumer in
    shape pageNumber (fst r) (snd r).
Proof.
  induction fuel as [|fuel IH]; intros tok pn w cn cs Hok;
    cbn [paginate]; [constructor|].
  destruct (fetch w tok) as [[got|err] w']; [|constructor].
  unfold after; cbn [fst snd app].
  destruct (pageExceedsMax maxPageNumber (int64_add pn 1));
    [constructor|].
  destruct (cancel_times_returns (hd 0%nat cs) cn Hok)
    as (cn' & -> & Hok' & _).
  destruct (cancel_ready cn'); [constructor|]. cbn [fst snd app].
  destruct (String.eqb_spec (snd got) "") as [Heq|Hne];
    [now constructor|].
  constructor; [assumption|]. now apply IH.
Qed.

(** No run crashes: the cancel function never panics. *)
Lemma shape_not_crashed n evs st : shape n evs st -> st <> Crashed.
Proof.
  induction 1; try discriminate; assumption.
Qed.

Lemma wrap64_add_l (a b : Z) : wrap64 (wrap64 a + b) = wrap64 (a + b).
Proof.
  unfold wrap64.
  replace ((a + 2 ^ 63) mod 2 ^ 64 - 2 ^ 63 + b + 2 ^ 63)
    with ((a + 2 ^ 63) mod 2 ^ 64 + b) by ring.
  rewrite Zplus_mod_idemp_l. f_equal. f_equal. ring.
Qed.

Lemma wrap64_small (z : Z) : in_int64 z -> wrap64 z = z.
Proof.
  unfold in_int64, wrap64. intros H.
  rewrite Z.mod_small; lia.
Qed.

Lemma int64_add_wrap (n k : Z) :
  wrap64 (int64_add n 1 + k) = wrap64 (n + (1 + k)).
Proof.
  unfold int64_add. rewrite wrap64_add_l. f_equal. ring.
Qed.

(** Splitting a run at one of its events. *)
Lemma cons_eq_app {A} (a : A) (l pre : list A) (x : A) (post : list A) :
  a :: l = pre ++ x :: post ->
  (pre = [] /\ a = x /\ l = post) \/
  (exists pre', pre = a :: pre' /\ l = pre' ++ x :: post).
Proof.
  destruct pre as [|b pre]; cbn; intros H; injection H as -> ->; eauto.
Qed.

Ltac split_run H :=
  repeat first
    [ apply cons_eq_app in H; destruct H as [(-> & ? & ?)|(? & -> & H)]
    | exfalso; apply app_cons_not_nil in H; exact H ];
  subst; try discriminate;
  repeat match goal with
         | E : EvDo _ _ = _ |- _ => inversion E; subst; clear E
         | E : EvSend _ = _ |- _ => inversion E; subst; clear E
         | E : EvSelect _ = _ |- _ => inversion E; subst; clear E
         end.

Lemma wrap64_range (z : Z) : in_int64 (wrap64 z).
Proof.
  unfold in_int64, wrap64.
  pose proof (Z.mod_pos_bound (z + 2 ^ 63) (2 ^ 64) ltac:(lia)). lia.
Qed.

(** The page numbers of a run are the successive values of the counter. *)
Lemma shape_numbers n evs st :
  shape n evs st ->
  in_int64 n ->
  forall i p, nth_error (pages_of evs) i = Some p ->
              pg_PageNumber p = wrap64 (n + Z.of_nat i).
Proof.
  assert (Hnil : forall i (p : Page),
             nth_error (@nil Page) i = Some p -> False)
    by (intros [|i] p; discriminate).
  induction 1 as [n|n c err|n c got|n c got|n c got Hg
                 |n c got evs st Hg Hs IH];
    cbn [pages_of]; intros Hn i p Hi;
    try (destruct i as [|i]; cbn [nth_error] in Hi;
         [injection Hi as <-; cbn [pg_PageNumber];
          rewrite Z.add_0_r; symmetry; now apply wrap64_small |]).
  all: try (exfalso; eapply Hnil; eassumption).
  apply IH in Hi; [|apply wrap64_range].
  rewrite Hi, int64_add_wrap. f_equal. lia.
Qed.

Lemma pages_of_app {C R P} (l1 l2 : list (Event C R P)) :
  pages_of (l1 ++ l2) = pages_of l1 ++ pages_of l2.
Proof.
  induction l1 as [|[c r|p|b] l1 IH]; cbn; congruence.
Qed.

Lemma wrap64_zero_r (n : Z) : in_int64 n -> wrap64 (n + Z.of_nat 0) = n.
Proof.
  intros H. cbn. rewrite Z.add_0_r. now apply wrap64_small.
Qed.

(** A failed fetch is followed by the page that reports it, and by nothing
    else. *)
Lemma shape_failure n evs st :
  shape n evs st ->
  in_int64 n ->
  forall pre c err post,
    evs = pre ++ EvDo c (inr err) :: post ->
    post = [EvSend (mkPage
                      (wrap64 (n + Z.of_nat (List.length (pages_of pre))))
                      (Some err) [])] /\
    st = Closed /\ Forall no_error (pages_of pre).
Proof.
  induction 1 as [n|n c0 err0|n c0 got|n c0 got|n c0 got Hg
                 |n c0 got evs st Hg Hs IH];
    intros Hn pre c err post H; split_run H.
  - cbn [pages_of List.length]. rewrite wrap64_zero_r by assumption.
    repeat split. constructor.
  - destruct (IH (wrap64_range _) _ _ _ _ eq_refl) as (-> & -> & Hall).
    cbn [pages_of List.length]. rewrite int64_add_wrap.
    repeat split.
    + do 4 f_equal. lia.
    + constructor; [reflexivity|assumption].
Qed.

(** A page that carries an error ends the run. *)
Lemma shape_error_page n evs st :
  shape n evs st ->
  forall pre p post,
    evs = pre ++ EvSend p :: post ->
    pg_Err p <> None ->
    post = [] /\ st = Closed.
Proof.
  induction 1 as [n|n c0 err0|n c0 got|n c0 got|n c0 got Hg
                 |n c0 got evs st Hg Hs IH];
    intros pre p post H Herr; split_run H;
    try (cbn in Herr; congruence); auto.
  eapply IH; eauto.
Qed.

(** Every select comes right after the delivery of the page fetched in the
    same iteration, and a select that saw the cancel channel closed ends
    the run. *)
Lemma shape_select n evs st :
  shape n evs st ->
  forall pre b post,
    evs = pre ++ EvSelect b :: post ->
    (exists pre' c got k,
        pre = pre' ++ [EvDo c (inl got); EvSend (mkPage k None (fst got))]) /\
    Forall no_error (pages_of pre) /\
    (b = true -> post = [] /\ st = Closed).
Proof.
  induction 1 as [n|n c0 err0|n c0 got|n c0 got|n c0 got Hg
                 |n c0 got evs st Hg Hs IH];
    intros pre b post H; split_run H.
  - split; [exists [], c0, got, n; reflexivity|].
    split; [repeat constructor|auto].
  - split; [exists [], c0, got, n; reflexivity|].
    split; [repeat constructor|discriminate].
  - split; [exists [], c0, got, n; reflexivity|].
    split; [repeat constructor|discriminate].
  - destruct (IH _ _ _ eq_refl) as ((pre' & c & g & k & ->) & Hall & Hb).
    split; [|split; [|exact Hb]].
    + exists (EvDo c0 (inl got) :: EvSend (mkPage n None (fst got))
                :: EvSelect false :: pre'), c, g, k. reflexivity.
    + cbn [pages_of]. constructor; [reflexivity|assumption].
Qed.

(** A run on at least one unit of fuel starts with a fetch and the delivery
    of its page, whatever the consumer did before. *)
Lemma paginate_first fetch callOf maxPageNumber (fuel : nat)
  pageToken pageNumber w cn consumer :
  exists res p rest,
    fst (paginate fetch callOf maxPageNumber (S fuel) pageToken pageNumber
           w cn consumer) =
    EvDo (callOf pageToken) res :: EvSend p :: rest /\
    fst (fetch w pageToken) = res /\
    pg_PageNumber p = pageNumber /\
    match res with
    | inl got => pg_Err p = None /\ pg_Items p = fst got
    | inr err => pg_Err p = Some err /\ rest = [] /\
                 snd (paginate fetch callOf maxPageNumber (S fuel) pageToken
                        pageNumber w cn consumer) = Closed
    end.
Proof.
  cbn [paginate]. destruct (fetch w pageToken) as [[got|err] w'];
    cbn [fst snd after app]; do 3 eexists; repeat split.
Qed.

(** Every remote call of a run carries the page token the loop was entered
    with. *)
Lemma paginate_calls fetch callOf maxPageNumber (fuel : nat) :
  forall pageToken pageNumber w cn consumer,
    Forall (fun c => c = callOf pageToken)
      (calls_of (fst (paginate fetch callOf maxPageNumber fuel pageToken
                        pageNumber w cn consumer))).
Proof.
  induction fuel as [|fuel IH]; intros tok pn w cn cs; cbn [paginate];
    [constructor|].
  destruct (fetch w tok) as [[got|err] w']; cbn [fst snd after app calls_of];
    [|repeat constructor].
  constructor; [reflexivity|].
  destruct (pageExceedsMax maxPageNumber (int64_add pn 1)); [constructor|].
  destruct (cancel_times (hd 0%nat cs) cn) as [cn'|]; [|constructor].
  destruct (cancel_ready cn'); [constructor|]. cbn [fst snd after app calls_of].
  destruct (String.eqb (snd got) ""); [constructor|]. apply IH.
Qed.

(* ------------------------------------------------------------------- *)
(** *** Runs against a lister whose first page is not the last *)

Lemma never_cancels_step (cs : list nat) :
  never_cancels cs -> hd 0%nat cs = 0%nat /\ never_cancels (tl cs).
Proof.
  destruct cs as [|n cs]; cbn; [split; [reflexivity|constructor]|].
  intros H. inversion H; subst. split; [reflexivity|assumption].
Qed.

Section Refetch.

Variable fetch : World -> string -> (Fetched + error) * World.
Variable callOf : string -> CallView.
Variable pageToken : string.
Variable items0 : list Item.

(** Under the page token the loop was entered with, the lister always
    answers with the same items and with a token for more. *)
Hypothesis fetch_more :
  forall w, exists got w',
    fetch w pageToken = (inl got, w') /\ fst got = items0 /\ snd got <> "".

(** Without a bound on the pages the loop fetches that page again and again:
    one page per unit of fuel, and it is still running after any number. *)
Lemma paginate_refetches (maxPageNumber : Z) (fuel : nat) :
  maxPageNumber <= 0 ->
  forall pageNumber w cn consumer,
    cancel_ready cn = false ->
    never_cancels consumer ->
    let r := paginate fetch callOf maxPageNumber fuel pageToken pageNumber
               w cn consumer in
    snd r = Running /\
    List.length (pages_of (fst r)) = fuel /\
    Forall (fun p => pg_Items p = items0 /\ pg_Err p = None)
      (pages_of (fst r)).
Proof.
  intros Hmax. induction fuel as [|fuel IH]; intros pn w cn cs Hr Hcs;
    cbn [paginate]; [repeat split; constructor|].
  destruct (fetch_more w) as (got & w' & -> & Hitems & Htok).
  destruct (never_cancels_step cs Hcs) as [-> Hcs'].
  unfold pageExceedsMax.
  destruct (Z.leb_spec maxPageNumber 0) as [_|Hlt]; [|lia].
  cbn [cancel_times]. rewrite Hr.
  destruct (String.eqb_spec (snd got) "") as [Heq|_]; [contradiction|].
  destruct (IH (int64_add pn 1) w' cn (tl cs) Hr Hcs') as (Hst & Hlen & Hall).
  cbn [after fst snd app pages_of List.length].
  repeat split; [assumption|now f_equal|].
  constructor; [split; [assumption|reflexivity]|assumption].
Qed.

(** With a bound [m] the loop stops once the counter, incremented after the
    page was sent, is greater than [m]: the pages numbered [pageNumber] to
    [m] are sent, one more than [m - pageNumber]. *)
Lemma paginate_truncates (m : Z) (fuel : nat) :
  0 < m < 2 ^ 63 - 1 ->
  forall pageNumber w cn consumer,
    0 <= pageNumber <= m ->
    (Z.to_nat (m - pageNumber) < fuel)%nat ->
    cancel_ready cn = false ->
    never_cancels consumer ->
    let r := paginate fetch callOf m fuel pageToken pageNumber
               w cn consumer in
    snd r = Closed /\
    Z.of_nat (List.length (pages_of (fst r))) = m - pageNumber + 1 /\
    Forall (fun p => pg_Items p = items0 /\ pg_Err p = None)
      (pages_of (fst r)).
Proof.
  intros Hm. induction fuel as [|fuel IH]; intros pn w cn cs Hpn Hfuel Hr Hcs;
    [lia|]. cbn [paginate].
  destruct (fetch_more w) as (got & w' & -> & Hitems & Htok).
  destruct (never_cancels_step cs Hcs) as [-> Hcs'].
  assert (Hadd : int64_add pn 1 = pn + 1)
    by (apply wrap64_small; unfold in_int64; lia).
  rewrite Hadd. unfold pageExceedsMax.
  destruct (Z.leb_spec m 0) as [Hle|_]; [lia|].
  destruct (Z.gtb_spec (pn + 1) m) as [Hgt|Hle].
  - cbn [after fst snd app pages_of List.length].
    repeat split; [lia|].
    constructor; [split; [assumption|reflexivity]|constructor].
  - cbn [cancel_times]. rewrite Hr.
    destruct (String.eqb_spec (snd got) "") as [Heq|_]; [contradiction|].
    destruct (IH (pn + 1) w' cn (tl cs)) as (Hst & Hlen & Hall);
      [lia|lia|assumption|assumption|].
    cbn [after fst snd app pages_of List.length].
    repeat split; [assumption|lia|].
    constructor; [split; [assumption|reflexivity]|assumption].
Qed.

End Refetch.

(** A collection of at least two pages answers the empty token with its
    first page and a token for the second. *)
Lemma remote_serves_more (resp : Response) (pages : list (list Item)) :
  remote_serves resp pages ->
  (2 <= List.length pages)%nat ->
  forall w, exists got w',
    fetch_of resp w "" = (inl got, w') /\
    fst got = nth 0 pages [] /\ snd got <> "".
Proof.
  intros Hserves Hlen w.
  destruct pages as [|p0 [|p1 pages]]; cbn in Hlen; try lia.
  exists (p0, token_of 1), w.
  destruct resp as [[g cn]|[g cn]|[g cn]]; cbn [remote_serves] in Hserves;
    cbn [fetch_of]; rewrite Hserves; cbn; (split; [reflexivity|]);
    (split; [reflexivity|discriminate]).
Qed.

(* ------------------------------------------------------------------- *)
(** *** Runs compared *)

(** Two listers that answer alike make the same run. *)
Lemma paginate_key {K} (key : Item -> K)
  (fetch1 fetch2 : World -> string -> (Fetched + error) * World)
  callOf maxPageNumber (fuel : nat) :
  (forall w t, key_result key (fetch1 w t) = key_result key (fetch2 w t)) ->
  forall pageToken pageNumber w cn consumer,
    key_run key (paginate fetch1 callOf maxPageNumber fuel pageToken
                   pageNumber w cn consumer) =
    key_run key (paginate fetch2 callOf maxPageNumber fuel pageToken
                   pageNumber w cn consumer).
Proof.
  intros Hagree.
  induction fuel as [|fuel IH]; intros tok pn w cn cs; [reflexivity|].
  cbn [paginate]. specialize (Hagree w tok). unfold key_result in Hagree.
  destruct (fetch1 w tok) as [[g1|e1] w1], (fetch2 w tok) as [[g2|e2] w2];
    cbn [fst snd] in Hagree; try discriminate.
  - unfold key_fetched in Hagree. injection Hagree as Hitems Htok ->.
    unfold key_run. rewrite !map_run_after. f_equal.
    + cbn. unfold key_fetched, key_page. cbn. now rewrite Hitems, Htok.
    + destruct (pageExceedsMax maxPageNumber (int64_add pn 1)); [reflexivity|].
      destruct (cancel_times (hd 0%nat cs) cn) as [cn'|]; [|reflexivity].
      destruct (cancel_ready cn'); [reflexivity|].
      rewrite !map_run_after. f_equal. rewrite Htok.
      destruct (String.eqb (snd g2) ""); [reflexivity|]. apply IH.
  - injection Hagree as -> ->. reflexivity.
Qed.

(** A run depends on the consumer only through the first throttle wait at
    which the cancel function had been invoked. *)
Lemma paginate_consumer fetch callOf maxPageNumber (fuel : nat) :
  forall pageToken pageNumber w cn cs1 cs2,
    canceler_ok cn ->
    cancel_ready cn = false ->
    first_cancel cs1 = first_cancel cs2 ->
    paginate fetch callOf maxPageNumber fuel pageToken pageNumber w cn cs1 =
    paginate fetch callOf maxPageNumber fuel pageToken pageNumber w cn cs2.
Proof.
  induction fuel as [|fuel IH]; intros tok pn w cn cs1 cs2 Hok Hr Hfc;
    [reflexivity|].
  cbn [paginate].
  destruct (fetch w tok) as [[got|err] w']; [|reflexivity]. f_equal.
  destruct (pageExceedsMax maxPageNumber (int64_add pn 1)); [reflexivity|].
  destruct (first_cancel_step cs1 cs2 Hfc)
    as [(-> & -> & Htl)|(a & b & -> & ->)].
  - cbn [cancel_times]. rewrite Hr. f_equal.
    destruct (String.eqb (snd got) ""); [reflexivity|]. now apply IH.
  - rewrite (cancel_times_once a cn Hok), (cancel_times_once b cn Hok).
    destruct (cancel_times_returns 1 cn Hok) as (cn' & -> & _ & ->).
    now rewrite orb_true_r.
Qed.

(* ------------------------------------------------------------------- *)
(** *** The collection listers, seen through the projections *)

Lemma collection_answer_map {A B} (f : A -> B) (pages : list (list A))
  (tok : string) :
  collection_answer (map (map f) pages) tok =
  match collection_answer pages tok with
  | inl got => inl (map f (fst got), snd got)
  | inr e => inr e
  end.
Proof.
  unfold collection_answer. rewrite nth_error_map, length_map.
  now destruct (nth_error pages (String.length tok)).
Qed.

Lemma collection_instances_view (pages : list (list Instance)) w c :
  view_result view_il (collection_instancesDo pages w c) =
  (collection_answer (map (map ItInstance) pages)
     (token_or_empty (ilc_pageToken c)), w).
Proof.
  unfold view_result, collection_instancesDo. cbn [fst snd].
  rewrite collection_answer_map.
  now destruct (collection_answer pages _).
Qed.

Lemma collection_zones_view (pages : list (list Zone)) w c :
  view_result view_zl (collection_zonesDo pages w c) =
  (collection_answer (map (map ItZone) pages)
     (token_or_empty (zlc_pageToken c)), w).
Proof.
  unfold view_result, collection_zonesDo. cbn [fst snd].
  rewrite collection_answer_map.
  now destruct (collection_answer pages _).
Qed.

Lemma collection_recordSets_view (pages : list (list ResourceRecordSet)) w c :
  view_result view_dl (collection_recordSetsDo pages w c) =
  (collection_answer (map (map ItRecordSet) pages)
     (token_or_empty (dlc_pageToken c)), w).
Proof.
  unfold view_result, collection_recordSetsDo. cbn [fst snd].
  rewrite collection_answer_map.
  now destruct (collection_answer pages _).
Qed.

(* ===================================================================== *)
(** ** The specified properties *)

(** C1 (what the code does instead).  With MaxPages = 0, a lister that serves
    a collection of two or more pages and a consumer that never cancels, the
    goroutine never leaves the loop: after any number [fuel] of iterations it
    has sent [fuel] pages and is still running, every remote call carried the
    empty page token, and every page sent holds the items of the first page
    of the collection.  The continuation token of a fetch is stored in a
    variable of the loop body and never reaches the next fetch. *)
Theorem C1_continuation_token_not_threaded
  (q : RequestPtr) (rt rt' : Runtime) (resp : Response)
  (pages : list (list Item)) :
  ListPages q rt = Returns ((Some resp, None), rt') ->
  MaxPages_of q = Some 0 ->
  remote_serves resp pages ->
  (2 <= List.length pages)%nat ->
  forall (fuel : nat) (w : World) (consumer : list nat),
    never_cancels consumer ->
    let r := stream resp fuel w consumer in
    snd r = Running /\
    List.length (pages_of (fst r)) = fuel /\
    Forall (fun c => cv_pageToken c = Some "") (calls_of (fst r)) /\
    Forall (fun p => pg_Items p = nth 0 pages [] /\ pg_Err p = None)
      (pages_of (fst r)).
Proof.
  intros Hlist Hmax Hserves Hlen fuel w cs Hcs r. subst r.
  destruct (ListPages_started _ _ _ _ _ Hlist)
    as (_ & _ & _ & _ & Hready & Hmp & _).
  rewrite Hmax in Hmp. injection Hmp as Hmp.
  rewrite stream_paginate.
  destruct (paginate_refetches (fetch_of resp) (callOf_of resp) ""
              (nth 0 pages []) (remote_serves_more resp pages Hserves Hlen)
              (maxPageNumber_of resp) fuel ltac:(lia) 0 w (Cancel_of resp) cs
              Hready Hcs) as (Hst & Hn & Hall).
  repeat split; try assumption.
  eapply Forall_impl; [|apply paginate_calls].
  intros c ->. reflexivity.
Qed.

(** C2 (what the code does instead).  With MaxPages = m > 0 (and m below the
    largest int64), a lister that serves a collection of more than m pages
    and a consumer that never cancels, the stream sends m + 1 pages, none of
    them with an error, and closes: the counter is compared with m after it
    was incremented, and with "greater than". *)
Theorem C2_max_pages_emits_one_more
  (q : RequestPtr) (rt rt' : Runtime) (resp : Response)
  (pages : list (list Item)) (m : Z) :
  ListPages q rt = Returns ((Some resp, None), rt') ->
  MaxPages_of q = Some m ->
  0 < m < 2 ^ 63 - 1 ->
  remote_serves resp pages ->
  m < Z.of_nat (List.length pages) ->
  forall (fuel : nat) (w : World) (consumer : list nat),
    never_cancels consumer ->
    (Z.to_nat m < fuel)%nat ->
    let r := stream resp fuel w consumer in
    snd r = Closed /\
    Z.of_nat (List.length (pages_of (fst r))) = m + 1 /\
    Forall no_error (pages_of (fst r)).
Proof.
  intros Hlist Hmax Hm Hserves Hlen fuel w cs Hcs Hfuel r. subst r.
  destruct (ListPages_started _ _ _ _ _ Hlist)
    as (_ & _ & _ & _ & Hready & Hmp & _).
  rewrite Hmax in Hmp. injection Hmp as Hmp.
  rewrite stream_paginate, <- Hmp.
  destruct (paginate_truncates (fetch_of resp) (callOf_of resp) ""
              (nth 0 pages [])
              (remote_serves_more resp pages Hserves ltac:(lia))
              m fuel Hm 0 w (Cancel_of resp) cs ltac:(lia)
              ltac:(rewrite Z.sub_0_r; exact Hfuel) Hready Hcs)
    as (Hst & Hn & Hall).
  repeat split; [assumption|lia|].
  eapply Forall_impl; [|exact Hall]. now intros p [_ H].
Qed.

(** Every fetch recorded in a run is the answer of the remote service in the
    state the calls before it left it in. *)
Lemma paginate_answers fetch callOf maxPageNumber (fuel : nat) :
  (forall t, cv_pageToken (callOf t) = Some t) ->
  forall pageToken pageNumber w cn consumer pre c res post,
    fst (paginate fetch callOf maxPageNumber fuel pageToken pageNumber
           w cn consumer) = pre ++ EvDo c res :: post ->
    res = fst (fetch (world_after fetch w pre)
                 (token_or_empty (cv_pageToken c))).
Proof.
  intros Hcall.
  induction fuel as [|fuel IH]; intros tok pn w cn cs pre c res post;
    cbn [paginate].
  - intros H. exfalso. cbn in H. now apply app_cons_not_nil in H.
  - destruct (fetch w tok) as [[got|err] w'] eqn:Hf.
    + unfold after; cbn [fst snd app]. intros H.
      apply cons_eq_app in H.
      destruct H as [(-> & [= <- <-] & _)|(pre1 & -> & H)].
      { cbn [world_after]. rewrite Hcall. cbn [token_or_empty].
        now rewrite Hf. }
      apply cons_eq_app in H.
      destruct H as [(_ & [=] & _)|(pre2 & -> & H)].
      cbn [world_after]. rewrite Hcall. cbn [token_or_empty].
      rewrite Hf. cbn [snd].
      destruct (pageExceedsMax maxPageNumber (int64_add pn 1)).
      { exfalso. cbn in H. now apply app_cons_not_nil in H. }
      destruct (cancel_times (hd 0%nat cs) cn) as [cn'|].
      2: { exfalso. cbn in H. now apply app_cons_not_nil in H. }
      destruct (cancel_ready cn').
      { cbn in H. apply cons_eq_app in H.
        destruct H as [(_ & [=] & _)|(pre3 & -> & H)].
        exfalso. now apply app_cons_not_nil in H. }
      cbn [fst snd app] in H. apply cons_eq_app in H.
      destruct H as [(_ & [=] & _)|(pre3 & -> & H)].
      cbn [world_after].
      destruct (String.eqb (snd got) "").
      { exfalso. cbn in H. now apply app_cons_not_nil in H. }
      exact (IH _ _ _ _ _ _ _ _ _ H).
    + cbn [fst]. intros H. apply cons_eq_app in H.
      destruct H as [(-> & [= <- <-] & _)|(pre1 & -> & H)].
      { cbn [world_after]. rewrite Hcall. cbn [token_or_empty].
        now rewrite Hf. }
      apply cons_eq_app in H.
      destruct H as [(_ & [=] & _)|(pre2 & -> & H)].
      exfalso. now apply app_cons_not_nil in H.
Qed.

(** When the first [k] fetches succeed with a token for more and fetch
    number [k] fails, a consumer that never cancels is sent [k] pages without
    an error and then the page numbered [pageNumber + k] with the error,
    whereupon the run is closed. *)
Lemma paginate_fails fetch callOf maxPageNumber pageToken err (k : nat) :
  forall (fuel : nat) pageNumber w cn consumer,
    (k < fuel)%nat ->
    0 <= pageNumber -> pageNumber + Z.of_nat k < 2 ^ 63 - 1 ->
    (maxPageNumber <= 0 \/ pageNumber + Z.of_nat k <= maxPageNumber) ->
    cancel_ready cn = false ->
    never_cancels consumer ->
    (forall i, (i < k)%nat ->
       exists got,
         fst (fetch (refetched fetch pageToken i w) pageToken) = inl got /\
         snd got <> "") ->
    fst (fetch (refetched fetch pageToken k w) pageToken) = inr err ->
    let r := paginate fetch callOf maxPageNumber fuel pageToken pageNumber
               w cn consumer in
    exists pre,
      fst r =
        pre ++ [EvDo (callOf pageToken) (inr err);
                EvSend (mkPage (pageNumber + Z.of_nat k) (Some err) [])] /\
      List.length (pages_of pre) = k /\
      Forall no_error (pages_of pre) /\
      snd r = Closed.
Proof.
  induction k as [|k IH]; intros fuel pn w cn cs Hfuel Hpn Hk Hmax Hr Hcs
    Hok Hfail; (destruct fuel as [|fuel]; [lia|]); cbn [paginate].
  - unfold refetched in Hfail. cbn in Hfail.
    destruct (fetch w pageToken) as [res w'] eqn:Hf. cbn [fst] in Hfail.
    subst res. exists []. cbn. rewrite Z.add_0_r.
    repeat split. constructor.
  - destruct (Hok 0%nat ltac:(lia)) as (got & Hgot & Htok).
    unfold refetched in Hgot. cbn in Hgot.
    destruct (fetch w pageToken) as [res w'] eqn:Hf. cbn [fst] in Hgot.
    subst res.
    assert (Hadd : int64_add pn 1 = pn + 1)
      by (apply wrap64_small; unfold in_int64; lia).
    rewrite Hadd.
    assert (Hex : pageExceedsMax maxPageNumber (pn + 1) = false).
    { unfold pageExceedsMax.
      destruct (Z.leb_spec maxPageNumber 0); [reflexivity|].
      destruct (Z.gtb_spec (pn + 1) maxPageNumber); [lia|reflexivity]. }
    rewrite Hex.
    destruct (never_cancels_step cs Hcs) as [-> Hcs'].
    cbn [cancel_times]. rewrite Hr.
    destruct (String.eqb_spec (snd got) "") as [|_]; [contradiction|].
    assert (Hw : forall i,
               refetched fetch pageToken i w' =
               refetched fetch pageToken (S i) w).
    { intros i. unfold refetched. rewrite Nat.iter_succ_r. now rewrite Hf. }
    destruct (IH fuel (pn + 1) w' cn (tl cs)) as (pre & Hrun & Hlen & Hall & Hst);
      try assumption; try lia.
    { intros i Hi. rewrite Hw. apply Hok. lia. }
    { now rewrite Hw. }
    exists (EvDo (callOf pageToken) (inl got)
              :: EvSend (mkPage pn None (fst got)) :: EvSelect false :: pre).
    unfold after; cbn [fst snd app pages_of List.length].
    rewrite Hrun.
    replace (pn + Z.of_nat (S k)) with (pn + 1 + Z.of_nat k) by lia.
    repeat split.
    + now rewrite Hlen.
    + constructor; [reflexivity|assumption].
    + assumption.
Qed.

(** C3.  Every fetch recorded in a stream is the answer of the lister, in
    the state the earlier fetches left it in.  If the first fetch fails, the
    stream is exactly one page, numbered 0, with the error, and is closed,
    whatever the consumer does.  More generally, if the first k fetches
    succeed with a token for more and fetch number k fails, a consumer that
    never cancels is sent k pages without an error and then the page numbered
    k with the error, after which the stream is closed (k within the bound on
    the pages, if there is one).  In every stream, a failed fetch is followed
    by exactly one more event, the sending of a page that carries the error
    and the value of the page counter (the number of pages sent before it, as
    an int64), after which the stream is closed; the pages before it carry no
    error.  Any page that carries an error is the last event of the run. *)
Theorem C3_fetch_failure_ends_stream
  (q : RequestPtr) (rt rt' : Runtime) (resp : Response)
  (fuel : nat) (w : World) (consumer : list nat) :
  ListPages q rt = Returns ((Some resp, None), rt') ->
  let r := stream resp fuel w consumer in
  let fetch := fetch_of resp in
  (forall pre c res post,
      fst r = pre ++ EvDo c res :: post ->
      res = fst (fetch (world_after fetch w pre)
                   (token_or_empty (cv_pageToken c)))) /\
  (forall err,
      (0 < fuel)%nat ->
      fst (fetch w "") = inr err ->
      fst r = [EvDo (callOf_of resp "") (inr err);
               EvSend (mkPage 0 (Some err) [])] /\
      pages_of (fst r) = [mkPage 0 (Some err) []] /\
      snd r = Closed) /\
  (forall (k : nat) err m,
      (k < fuel)%nat ->
      never_cancels consumer ->
      MaxPages_of q = Some m ->
      m <= 0 \/ Z.of_nat k <= m ->
      Z.of_nat k < 2 ^ 63 - 1 ->
      (forall i, (i < k)%nat ->
         exists got,
           fst (fetch (refetched fetch "" i w) "") = inl got /\
           snd got <> "") ->
      fst (fetch (refetched fetch "" k w) "") = inr err ->
      exists pre,
        fst r = pre ++ [EvDo (callOf_of resp "") (inr err);
                        EvSend (mkPage (Z.of_nat k) (Some err) [])] /\
        List.length (pages_of pre) = k /\
        Forall no_error (pages_of pre) /\
        snd r = Closed) /\
  (forall pre c err post,
      fst r = pre ++ EvDo c (inr err) :: post ->
      post = [EvSend (mkPage (wrap64 (Z.of_nat (List.length (pages_of pre))))
                        (Some err) [])] /\
      snd r = Closed /\ Forall no_error (pages_of pre)) /\
  (forall c err post,
      fst r = EvDo c (inr err) :: post ->
      pages_of (fst r) = [mkPage 0 (Some err) []] /\ snd r = Closed) /\
  (forall pre p post,
      fst r = pre ++ EvSend p :: post -> pg_Err p <> None ->
      post = [] /\ snd r = Closed).
Proof.
  intros Hlist r fetch.
  destruct (ListPages_started _ _ _ _ _ Hlist)
    as (_ & _ & _ & Hok & Hready & Hmp & _).
  assert (Hshape : shape 0 (fst r) (snd r))
    by (subst r; rewrite stream_paginate; now apply paginate_shape).
  assert (H0 : in_int64 0) by (unfold in_int64; lia).
  split; [|split; [|split; [|split; [|split]]]].
  - intros pre c res post H. subst r fetch. rewrite stream_paginate in H.
    exact (paginate_answers (fetch_of resp) (callOf_of resp) _ _
             (fun t => eq_refl) _ _ _ _ _ _ _ _ _ H).
  - intros err Hfuel Hfail. subst r fetch. rewrite stream_paginate.
    destruct fuel as [|fuel]; [lia|]. cbn [paginate].
    destruct (fetch_of resp w "") as [res w']. cbn [fst] in Hfail.
    subst res. repeat split.
  - intros k err m Hfuel Hcs Hm Hmax Hk Hsucc Hfail. subst r fetch.
    rewrite Hm in Hmp. injection Hmp as ->.
    rewrite stream_paginate.
    assert (Hk' : 0 + Z.of_nat k < 2 ^ 63 - 1) by lia.
    assert (Hmax' : maxPageNumber_of resp <= 0 \/
                    0 + Z.of_nat k <= maxPageNumber_of resp) by lia.
    exact (paginate_fails (fetch_of resp) (callOf_of resp) _ "" err k fuel 0
             w (Cancel_of resp) consumer Hfuel (Z.le_refl 0) Hk' Hmax'
             Hready Hcs Hsucc Hfail).
  - intros pre c err post H.
    exact (shape_failure _ _ _ Hshape H0 pre c err post H).
  - intros c err post H.
    destruct (shape_failure _ _ _ Hshape H0 [] c err post H) as (-> & Hst & _).
    rewrite H. split; [reflexivity|assumption].
  - intros pre p post H Herr.
    exact (shape_error_page _ _ _ Hshape pre p post H Herr).
Qed.

(** C4.  In every stream, each select on the cancel channel comes right
    after the page fetched in the same iteration was handed to the consumer;
    a run on at least one unit of fuel starts with a fetch and the delivery
    of its page whatever the consumer did before; and when a select sees the
    cancel channel closed it is the last event of the run: the stream is
    closed, no page follows, and no page of the run carries an error. *)
Theorem C4_cancellation_at_throttle_checkpoint
  (q : RequestPtr) (rt rt' : Runtime) (resp : Response)
  (fuel : nat) (w : World) (consumer : list nat) :
  ListPages q rt = Returns ((Some resp, None), rt') ->
  let r := stream resp fuel w consumer in
  (forall pre b post,
      fst r = pre ++ EvSelect b :: post ->
      exists pre' c got k,
        pre = pre' ++ [EvDo c (inl got); EvSend (mkPage k None (fst got))]) /\
  (forall pre post,
      fst r = pre ++ EvSelect true :: post ->
      post = [] /\ snd r = Closed /\ Forall no_error (pages_of (fst r))) /\
  (forall fuel', fuel = S fuel' ->
      exists c res p rest, fst r = EvDo c res :: EvSend p :: rest).
Proof.
  intros Hlist r.
  destruct (ListPages_started _ _ _ _ _ Hlist) as (_ & _ & _ & Hok & _).
  assert (Hshape : shape 0 (fst r) (snd r))
    by (subst r; rewrite stream_paginate; now apply paginate_shape).
  split; [|split].
  - intros pre b post H.
    exact (proj1 (shape_select _ _ _ Hshape pre b post H)).
  - intros pre post H.
    destruct (shape_select _ _ _ Hshape pre true post H) as (_ & Hall & Hb).
    destruct (Hb eq_refl) as [-> Hst].
    repeat split; [assumption|].
    rewrite H, pages_of_app. cbn [pages_of]. now rewrite app_nil_r.
  - intros fuel' ->. subst r. rewrite stream_paginate.
    destruct (paginate_first (fetch_of resp) (callOf_of resp)
                (maxPageNumber_of resp) fuel' "" 0 w (Cancel_of resp) consumer)
      as (res & p & rest & H & _).
    eauto.
Qed.

(** C5.  In every stream the pages are numbered in the order they are sent:
    the first is numbered 0, each next one carries its predecessor's number
    plus 1 (the int64 addition of the code), and so the page at position [i]
    is numbered [i], for every position an int64 can count. *)
Theorem C5_page_numbers_consecutive
  (q : RequestPtr) (rt rt' : Runtime) (resp : Response)
  (fuel : nat) (w : World) (consumer : list nat) :
  ListPages q rt = Returns ((Some resp, None), rt') ->
  let ps := pages_of (fst (stream resp fuel w consumer)) in
  (forall p, nth_error ps 0 = Some p -> pg_PageNumber p = 0) /\
  (forall i p p',
      nth_error ps i = Some p -> nth_error ps (S i) = Some p' ->
      pg_PageNumber p' = int64_add (pg_PageNumber p) 1) /\
  (forall i p,
      nth_error ps i = Some p -> Z.of_nat i < 2 ^ 63 ->
      pg_PageNumber p = Z.of_nat i).
Proof.
  intros Hlist ps.
  destruct (ListPages_started _ _ _ _ _ Hlist) as (_ & _ & _ & Hok & _).
  assert (Hshape : shape 0 (fst (stream resp fuel w consumer))
                     (snd (stream resp fuel w consumer)))
    by (rewrite stream_paginate; now apply paginate_shape).
  assert (H0 : in_int64 0) by (unfold in_int64; lia).
  pose proof (shape_numbers _ _ _ Hshape H0) as Hnum. fold ps in Hnum.
  split; [|split].
  - intros p Hp. rewrite (Hnum _ _ Hp). reflexivity.
  - intros i p p' Hp Hp'. rewrite (Hnum _ _ Hp), (Hnum _ _ Hp').
    unfold int64_add. rewrite wrap64_add_l. f_equal. lia.
  - intros i p Hp Hi. rewrite (Hnum _ _ Hp). cbn [Z.add].
    apply wrap64_small. unfold in_int64. lia.
Qed.

(** C6.  The three listing operations run one pagination algorithm: for
    requests with the same MaxPages and ResultsPerPage, against remote
    services that answer alike, and with the same consumer, the goroutines of
    ListZones, ListInstances and ListDNSRecordSets make the same run, event
    for event (the remote calls with their page token and page size, the
    pages with their numbers, items and errors, the selects) and end in the
    same status. *)
Theorem C6_three_listings_one_algorithm {K} (key : Item -> K)
  (zreq : ZoneRequest) (ireq : InstancesRequest) (rreq : RecordSetRequest)
  (rt rtz rti rtr : Runtime) (zresp iresp rresp : Response) :
  remotes_agree key ->
  ListPages (ZonesPtr (Some zreq)) rt = Returns ((Some zresp, None), rtz) ->
  ListPages (InstancesPtr (Some ireq)) rt = Returns ((Some iresp, None), rti) ->
  ListPages (RecordSetsPtr (Some rreq)) rt = Returns ((Some rresp, None), rtr) ->
  zr_MaxPages zreq = ir_MaxPages ireq ->
  ir_MaxPages ireq = rr_MaxPages rreq ->
  zr_ResultsPerPage zreq = ir_ResultsPerPage ireq ->
  ir_ResultsPerPage ireq = rr_ResultsPerPage rreq ->
  forall (fuel : nat) (w : World) (consumer : list nat),
    key_run key (stream zresp fuel w consumer) =
    key_run key (stream iresp fuel w consumer) /\
    key_run key (stream iresp fuel w consumer) =
    key_run key (stream rresp fuel w consumer).
Proof.
  intros Hagree Hz Hi Hr Hm1 Hm2 Hp1 Hp2 fuel w cs.
  destruct (ListPages_started _ _ _ _ _ Hz)
    as (_ & Hkz & Hcz & _ & _ & Hmz & (pz & Hpz & Hrz) & _).
  destruct (ListPages_started _ _ _ _ _ Hi)
    as (_ & Hki & Hci & _ & _ & Hmi & (pi & Hpi & Hri) & _).
  destruct (ListPages_started _ _ _ _ _ Hr)
    as (_ & Hkr & Hcr & _ & _ & Hmr & (pr & Hpr & Hrr) & _).
  cbn in Hmz, Hmi, Hmr, Hpz, Hpi, Hpr.
  injection Hmz as Hmz; injection Hmi as Hmi; injection Hmr as Hmr.
  injection Hpz as Hpz; injection Hpi as Hpi; injection Hpr as Hpr.
  assert (Hs1 : maxResultsPerPage_of zresp = maxResultsPerPage_of iresp)
    by congruence.
  assert (Hs2 : maxResultsPerPage_of iresp = maxResultsPerPage_of rresp)
    by congruence.
  rewrite !stream_paginate.
  unfold callOf_of.
  rewrite Hcz, Hci, Hcr, <- Hmz, <- Hmi, <- Hmr, Hs1, Hs2, Hm1, Hm2.
  clear Hz Hi Hr.
  destruct zresp as [[gz cz]|?|?]; try contradiction.
  destruct iresp as [?|[gi ci]|?]; try contradiction.
  destruct rresp as [?|?|[gr cr]]; try contradiction.
  cbn [maxResultsPerPage_of zpr_Pages ipr_Pages rpr_Pages] in Hs1, Hs2.
  destruct Hagree as [Hzi Hid].
  split; apply paginate_key; intros w0 t; cbn [fetch_of].
  - apply Hzi. unfold view_ilc, view_zlc. cbn. rewrite Hs1.
    now do 4 destruct (negb _).
  - apply Hid. unfold view_ilc, view_dlc. cbn. rewrite Hs2.
    now do 3 destruct (negb _).
Qed.

(** C7.  The cancel function of a listing call is idempotent.  Fresh from the
    call, the cancel channel is open; invoking the function any number of
    times returns (a nil error) without a panic; the first invocation closes
    the cancel channel, and every further one leaves the state as the first
    left it; no number of invocations crashes the goroutine; and the stream
    is the same whatever the number of invocations, as long as the first one
    falls before the same throttle wait. *)
Theorem C7_cancel_idempotent
  (q : RequestPtr) (rt rt' : Runtime) (resp : Response) :
  ListPages q rt = Returns ((Some resp, None), rt') ->
  let c0 := Cancel_of resp in
  cancel_ready c0 = false /\
  cancel_times 0 c0 = Returns c0 /\
  exists c1,
    cancel c0 = Returns (None, c1) /\
    cancel_ready c1 = true /\
    cancel c1 = Returns (None, c1) /\
    (forall n, cancel_times (S n) c0 = Returns c1) /\
    (forall fuel w cs, snd (stream resp fuel w cs) <> Crashed) /\
    (forall fuel w cs1 cs2,
        first_cancel cs1 = first_cancel cs2 ->
        stream resp fuel w cs1 = stream resp fuel w cs2).
Proof.
  intros Hlist c0.
  destruct (ListPages_started _ _ _ _ _ Hlist)
    as (_ & _ & _ & Hok & Hready & _).
  fold c0 in Hok, Hready.
  destruct (cancel_returns c0 Hok) as (c1 & Hc1 & Hok1 & Hr1 & _).
  destruct (cancel_returns c1 Hok1) as (c2 & Hc2 & _ & _ & Hsame).
  rewrite (Hsame Hr1) in Hc2.
  split; [assumption|]. split; [reflexivity|].
  exists c1. repeat split; try assumption.
  - intros n. rewrite (cancel_times_once n c0 Hok).
    cbn [cancel_times]. now rewrite Hc1.
  - intros fuel w cs. rewrite stream_paginate.
    eapply shape_not_crashed. now apply paginate_shape.
  - intros fuel w cs1 cs2 Hfc. rewrite !stream_paginate.
    now apply paginate_consumer.
Qed.

(** C8.  A listing call on a malformed request (a nil request, a blank
    project for zones, a blank zone or project for instances and for record
    sets) returns the error of the request's Validate method and a nil
    response, and leaves the runtime as it was: no channel was made and no
    goroutine started. *)
Theorem C8_malformed_request_rejected (q : RequestPtr) (rt : Runtime) :
  malformed q ->
  exists err,
    Validate_of q = Returns (Some err) /\
    ListPages q rt = Returns ((None, Some err), rt).
Proof.
  destruct q as [[r|]|[r|]|[r|]]; cbn [malformed];
    unfold ListPages, with_response, ListZones, ListInstances,
      ListDNSRecordSets, bind, lift, Validate_of, ZoneRequest_Validate,
      InstancesRequest_Validate, RecordSetRequest_Validate; cbn.
  - intros ->. cbn. eauto.
  - eauto.
  - intros [-> | ->]; cbn; [eauto|].
    destruct (String.eqb (ir_Zone r) ""); cbn; eauto.
  - eauto.
  - intros [-> | ->]; cbn; [eauto|].
    destruct (String.eqb (rr_Project r) ""); cbn; eauto.
  - eauto.
Qed.

(** C9.  For every listing request that yields a stream, the page size is
    resolved by the listing call itself, to the request's ResultsPerPage when
    that is greater than 0 and to 40 otherwise; the goroutine captures the
    resolved value, and every remote call of the stream carries it. *)
Theorem C9_page_size_resolved_once
  (q : RequestPtr) (rt rt' : Runtime) (resp : Response) :
  ListPages q rt = Returns ((Some resp, None), rt') ->
  exists resultsPerPage,
    ResultsPerPage_of q = Some resultsPerPage /\
    maxResultsPerPage_of resp =
      (if resultsPerPage >? 0 then resultsPerPage else 40) /\
    forall fuel w consumer c,
      In c (calls_of (fst (stream resp fuel w consumer))) ->
      cv_maxResults c =
        Some (if resultsPerPage >? 0 then resultsPerPage else 40).
Proof.
  intros Hlist.
  destruct (ListPages_started _ _ _ _ _ Hlist)
    as (_ & _ & _ & _ & _ & _ & (rpp & Hrpp & Hres) & _).
  exists rpp. split; [assumption|]. split; [assumption|].
  intros fuel w cs c Hin. rewrite stream_paginate in Hin.
  pose proof (paginate_calls (fetch_of resp) (callOf_of resp)
                (maxPageNumber_of resp) fuel "" 0 w (Cancel_of resp) cs)
    as Hall.
  rewrite Forall_forall in Hall. rewrite (Hall c Hin).
  cbn. now rewrite Hres.
Qed.

(** C10.  Each of the three listing operations, called with a nil request,
    returns the validation error of its request type (a nil response with
    it, and the runtime untouched) and does not panic: each Validate method
    tests its receiver for nil before it reads a field. *)
Theorem C10_nil_request_validation_error (rt : Runtime) :
  (ZoneRequest_Validate None = Returns (Some errBlankProject) /\
   InstancesRequest_Validate None = Returns (Some errBlankZone) /\
   RecordSetRequest_Validate None = Returns (Some errEmptyProject)) /\
  ListZones None rt = Returns ((None, Some errBlankProject), rt) /\
  ListInstances None rt = Returns ((None, Some errBlankZone), rt) /\
  ListDNSRecordSets None rt = Returns ((None, Some errEmptyProject), rt).
Proof.
  repeat split.
Qed.

End Listing.

Arguments stream {Instance Zone ResourceRecordSet World}
  instancesDo zonesDo recordSetsDo resp fuel w consumer.
Arguments remote_serves {Instance Zone ResourceRecordSet World}
  instancesDo zonesDo recordSetsDo resp pages.
Arguments remotes_agree {Instance Zone ResourceRecordSet World}
  instancesDo zonesDo recordSetsDo {K} key.
Arguments collection_instancesDo {Instance World} pages w c.
Arguments collection_zonesDo {Zone World} pages w c.
Arguments collection_recordSetsDo {ResourceRecordSet World} pages w c.
Arguments flaky_zonesDo {Zone} items failAt w c.
Arguments ItInstance {Instance Zone ResourceRecordSet} i.
Arguments ItZone {Instance Zone ResourceRecordSet} z.
Arguments ItRecordSet {Instance Zone ResourceRecordSet} r.
Arguments mkPage {Instance Zone ResourceRecordSet} _ _ _.
Arguments pg_PageNumber {Instance Zone ResourceRecordSet} p.
Arguments pg_Err {Instance Zone ResourceRecordSet} p.
Arguments pg_Items {Instance Zone ResourceRecordSet} p.
Arguments no_error {Instance Zone ResourceRecordSet} p.
Arguments key_run {Instance Zone ResourceRecordSet K} key r.

(* ===================================================================== *)
(** ** The properties on sample inputs

    All three operations list the same collection of strings; the remote
    service has no state. *)

Local Abbreviation sample_stream pages :=
  (stream (World := unit)
     (collection_instancesDo pages) (collection_zonesDo pages)
     (collection_recordSetsDo pages)).

Local Abbreviation sample_serves pages :=
  (remote_serves (World := unit)
     (collection_instancesDo pages) (collection_zonesDo pages)
     (collection_recordSetsDo pages)).

Local Abbreviation item_name :=
  (fun it : Item string string string =>
     match it with
     | ItInstance s => s
     | ItZone s => s
     | ItRecordSet s => s
     end).

Lemma sample_serves_instances (pages : list (list string)) r :
  sample_serves pages (InstancesResponse r) (map (map ItInstance) pages).
Proof.
  intros w c. apply collection_instances_view.
Qed.

Lemma sample_serves_zones (pages : list (list string)) r :
  sample_serves pages (ZonesResponse r) (map (map ItZone) pages).
Proof.
  intros w c. apply collection_zones_view.
Qed.

Lemma sample_serves_recordSets (pages : list (list string)) r :
  sample_serves pages (RecordSetsResponse r) (map (map ItRecordSet) pages).
Proof.
  intros w c. apply collection_recordSets_view.
Qed.

(** ListInstances with MaxPages = 0 over the three-page collection: after
    seven iterations seven pages were sent, all of them the first page, and
    the goroutine is still in the loop. *)
Lemma C1_witness :
  exists resp rt',
    ListPages (InstancesPtr (Some (sample_instances 0 0))) rt0 =
      Returns ((Some resp, None), rt') /\
    let r := sample_stream sample_pages resp 7 tt [] in
    snd r = Running /\
    List.length (pages_of (fst r)) = 7%nat /\
    Forall (fun c => cv_pageToken c = Some "") (calls_of (fst r)) /\
    Forall (fun p => pg_Items p = [ItInstance "a"; ItInstance "b"] /\
                     pg_Err p = None)
      (pages_of (fst r)).
Proof.
  do 2 eexists. split; [reflexivity|].
  refine (C1_continuation_token_not_threaded _ _ _ _ _ _ _
            (InstancesPtr (Some (sample_instances 0 0))) rt0 _ _
            (map (map ItInstance) sample_pages)
            eq_refl eq_refl (sample_serves_instances _ _) _ 7%nat tt [] _).
  - cbn. lia.
  - constructor.
Defined.

(** ListZones with MaxPages = 2 over the three-page collection: three pages
    are sent before the stream closes. *)
Lemma C2_witness :
  exists resp rt',
    ListPages (ZonesPtr (Some (sample_zones 2 0))) rt0 =
      Returns ((Some resp, None), rt') /\
    let r := sample_stream sample_pages resp 5 tt [] in
    snd r = Closed /\
    Z.of_nat (List.length (pages_of (fst r))) = 2 + 1 /\
    Forall no_error (pages_of (fst r)).
Proof.
  do 2 eexists. split; [reflexivity|].
  refine (C2_max_pages_emits_one_more _ _ _ _ _ _ _
            (ZonesPtr (Some (sample_zones 2 0))) rt0 _ _
            (map (map ItZone) sample_pages) 2
            eq_refl eq_refl _ (sample_serves_zones _ _) _ 5%nat tt [] _ _).
  - lia.
  - cbn. lia.
  - constructor.
  - cbn. lia.
Defined.

(** ListZones against a lister that answers its first call with one zone and
    a token for more, and fails on its second call: one page without an error
    is sent, then the page numbered 1 with the error, and the stream is
    closed. *)
Lemma C3_witness :
  exists resp rt',
    ListPages (ZonesPtr (Some (sample_zones 0 0))) rt0 =
      Returns ((Some resp, None), rt') /\
    let r :=
      stream (World := nat)
        (collection_instancesDo (@nil (list string)))
        (flaky_zonesDo ["a"] 1)
        (collection_recordSetsDo (@nil (list string))) resp 4 0%nat []
    in
    exists pre,
      fst r =
        pre ++ [EvDo (callOf_of resp "") (inr (apiError "backendError"));
                EvSend (mkPage 1 (Some (apiError "backendError")) [])] /\
      List.length (pages_of pre) = 1%nat /\
      Forall no_error (pages_of pre) /\
      snd r = Closed.
Proof.
  do 2 eexists. split; [reflexivity|].
  refine (proj1 (proj2 (proj2
            (C3_fetch_failure_ends_stream string string string nat
               (collection_instancesDo (@nil (list string))) (flaky_zonesDo ["a"] 1)
               (collection_recordSetsDo (@nil (list string)))
               (ZonesPtr (Some (sample_zones 0 0))) rt0 _ _
               4%nat 0%nat [] eq_refl)))
            1%nat (apiError "backendError") 0 _ _ eq_refl _ _ _ eq_refl).
  - lia.
  - constructor.
  - left. lia.
  - lia.
  - intros i Hi. exists ([ItZone "a"], "next").
    destruct i as [|i]; [|lia]. split; [reflexivity|discriminate].
Defined.

(** ListInstances with a consumer that cancels during the second throttle
    wait: the second page is delivered, the select sees the closed channel,
    and nothing follows. *)
Lemma C4_witness :
  exists resp rt' pre post,
    ListPages (InstancesPtr (Some (sample_instances 0 0))) rt0 =
      Returns ((Some resp, None), rt') /\
    let r := sample_stream sample_pages resp 9 tt [0; 3]%nat in
    fst r = pre ++ EvSelect true :: post /\
    List.length (pages_of pre) = 2%nat /\
    post = [] /\ snd r = Closed /\ Forall no_error (pages_of (fst r)).
Proof.
  pose (pre := [EvDo (mkCallView (Some "") (Some 40))
                  (inl ([ItInstance "a"; ItInstance "b"], "p"));
                EvSend (mkPage 0 None [ItInstance "a"; ItInstance "b"]);
                EvSelect false;
                EvDo (mkCallView (Some "") (Some 40))
                  (inl ([ItInstance "a"; ItInstance "b"], "p"));
                EvSend (mkPage 1 None [ItInstance "a"; ItInstance "b"])]
               : list (PEvent string string string)).
  eexists. eexists. exists pre, [].
  split; [reflexivity|]. split; [reflexivity|]. split; [reflexivity|].
  exact (proj1 (proj2
           (C4_cancellation_at_throttle_checkpoint string string string unit
              (collection_instancesDo sample_pages)
              (collection_zonesDo sample_pages)
              (collection_recordSetsDo sample_pages)
              (InstancesPtr (Some (sample_instances 0 0))) rt0 _ _
              9%nat tt [0; 3]%nat eq_refl)) pre [] eq_refl).
Defined.

(** ListZones with MaxPages = 3: the four pages sent are numbered 0 to 3. *)
Lemma C5_witness :
  exists resp rt',
    ListPages (ZonesPtr (Some (sample_zones 3 0))) rt0 =
      Returns ((Some resp, None), rt') /\
    let ps := pages_of (fst (sample_stream sample_pages resp 9 tt [])) in
    map pg_PageNumber ps = [0; 1; 2; 3] /\
    (forall p, nth_error ps 0 = Some p -> pg_PageNumber p = 0) /\
    (forall i p p',
        nth_error ps i = Some p -> nth_error ps (S i) = Some p' ->
        pg_PageNumber p' = int64_add (pg_PageNumber p) 1) /\
    (forall i p,
        nth_error ps i = Some p -> Z.of_nat i < 2 ^ 63 ->
        pg_PageNumber p = Z.of_nat i).
Proof.
  do 2 eexists. split; [reflexivity|]. split; [reflexivity|].
  exact (C5_page_numbers_consecutive string string string unit
           (collection_instancesDo sample_pages)
           (collection_zonesDo sample_pages)
           (collection_recordSetsDo sample_pages)
           (ZonesPtr (Some (sample_zones 3 0))) rt0 _ _
           9%nat tt [] eq_refl).
Defined.

(** The three collection listers over the same pages answer alike. *)
Lemma sample_remotes_agree (pages : list (list string)) :
  remotes_agree (World := unit)
    (collection_instancesDo pages) (collection_zonesDo pages)
    (collection_recordSetsDo pages) item_name.
Proof.
  split.
  - intros w cz ci Hview. unfold key_result.
    rewrite collection_zones_view, collection_instances_view.
    injection Hview as -> _. cbn [fst snd].
    rewrite !collection_answer_map.
    destruct (collection_answer pages _) as [[items next]|e];
      [|reflexivity].
    unfold key_fetched. cbn [fst snd]. now rewrite !map_map.
  - intros w ci cd Hview. unfold key_result.
    rewrite collection_instances_view, collection_recordSets_view.
    injection Hview as -> _. cbn [fst snd].
    rewrite !collection_answer_map.
    destruct (collection_answer pages _) as [[items next]|e];
      [|reflexivity].
    unfold key_fetched. cbn [fst snd]. now rewrite !map_map.
Qed.

(** The three operations with MaxPages = 2 and ResultsPerPage = 5 over the
    same collection, the consumer cancelling during the third throttle wait:
    the three runs are the same. *)
Lemma C6_witness :
  exists zresp iresp rresp rtz rti rtr,
    ListPages (ZonesPtr (Some (sample_zones 2 5))) rt0 =
      Returns ((Some zresp, None), rtz) /\
    ListPages (InstancesPtr (Some (sample_instances 2 5))) rt0 =
      Returns ((Some iresp, None), rti) /\
    ListPages (RecordSetsPtr (Some (sample_recordSets 2 5))) rt0 =
      Returns ((Some rresp, None), rtr) /\
    key_run item_name (sample_stream sample_pages zresp 9 tt [0; 0; 1]%nat) =
    key_run item_name (sample_stream sample_pages iresp 9 tt [0; 0; 1]%nat) /\
    key_run item_name (sample_stream sample_pages iresp 9 tt [0; 0; 1]%nat) =
    key_run item_name (sample_stream sample_pages rresp 9 tt [0; 0; 1]%nat).
Proof.
  do 6 eexists. split; [reflexivity|]. split; [reflexivity|].
  split; [reflexivity|].
  exact (C6_three_listings_one_algorithm string string string unit
           (collection_instancesDo sample_pages)
           (collection_zonesDo sample_pages)
           (collection_recordSetsDo sample_pages) item_name
           (sample_zones 2 5) (sample_instances 2 5) (sample_recordSets 2 5)
           rt0 _ _ _ _ _ _ (sample_remotes_agree sample_pages)
           eq_refl eq_refl eq_refl eq_refl eq_refl eq_refl eq_refl
           9%nat tt [0; 0; 1]%nat).
Defined.

(** The cancel function of a ListZones call. *)
Lemma C7_witness :
  exists resp rt',
    ListPages (ZonesPtr (Some (sample_zones 0 0))) rt0 =
      Returns ((Some resp, None), rt') /\
    let c0 := Cancel_of resp in
    cancel_ready c0 = false /\
    cancel_times 0 c0 = Returns c0 /\
    exists c1,
      cancel c0 = Returns (None, c1) /\
      cancel_ready c1 = true /\
      cancel c1 = Returns (None, c1) /\
      (forall n, cancel_times (S n) c0 = Returns c1) /\
      (forall fuel w cs,
          snd (sample_stream sample_pages resp fuel w cs) <> Crashed) /\
      (forall fuel w cs1 cs2,
          first_cancel cs1 = first_cancel cs2 ->
          sample_stream sample_pages resp fuel w cs1 =
          sample_stream sample_pages resp fuel w cs2).
Proof.
  do 2 eexists. split; [reflexivity|].
  exact (C7_cancel_idempotent string string string unit
           (collection_instancesDo sample_pages)
           (collection_zonesDo sample_pages)
           (collection_recordSetsDo sample_pages)
           (ZonesPtr (Some (sample_zones 0 0))) rt0 _ _ eq_refl).
Defined.

(** ListInstances on a request with a project and no zone. *)
Lemma C8_witness :
  malformed (InstancesPtr (Some (mkInstancesRequest "p" "" "" 0 0 ""))) /\
  exists err,
    Validate_of (InstancesPtr (Some (mkInstancesRequest "p" "" "" 0 0 ""))) =
      Returns (Some err) /\
    ListPages (InstancesPtr (Some (mkInstancesRequest "p" "" "" 0 0 ""))) rt0 =
      Returns ((None, Some err), rt0).
Proof.
  split; [left; reflexivity|].
  exact (C8_malformed_request_rejected
           (InstancesPtr (Some (mkInstancesRequest "p" "" "" 0 0 ""))) rt0
           (or_introl eq_refl)).
Defined.

(** ListDNSRecordSets with ResultsPerPage = 25: every call asks for 25. *)
Lemma C9_witness :
  exists resp rt',
    ListPages (RecordSetsPtr (Some (sample_recordSets 0 25))) rt0 =
      Returns ((Some resp, None), rt') /\
    exists resultsPerPage,
      ResultsPerPage_of (RecordSetsPtr (Some (sample_recordSets 0 25))) =
        Some resultsPerPage /\
      maxResultsPerPage_of resp =
        (if resultsPerPage >? 0 then resultsPerPage else 40) /\
      forall fuel w consumer c,
        In c (calls_of (fst (sample_stream sample_pages resp fuel w
                               consumer))) ->
        cv_maxResults c =
          Some (if resultsPerPage >? 0 then resultsPerPage else 40).
Proof.
  do 2 eexists. split; [reflexivity|].
  exact (C9_page_size_resolved_once string string string unit
           (collection_instancesDo sample_pages)
           (collection_zonesDo sample_pages)
           (collection_recordSetsDo sample_pages)
           (RecordSetsPtr (Some (sample_recordSets 0 25))) rt0 _ _ eq_refl).
Defined.

(* ===================================================================== *)
(** ** Properties of the provisioning code *)

(* --------------------------------------------------------------------- *)
(** *** Strings *)

Lemma strip_prefix_app (p s : string) :
  strip_prefix p (p ++ s)%string = Some s.
Proof.
  induction p as [|a p IH]; cbn; [reflexivity|].
  now rewrite Ascii.eqb_refl.
Qed.

Lemma strip_prefix_inv (p s rest : string) :
  strip_prefix p s = Some rest -> s = (p ++ rest)%string.
Proof.
  revert s. induction p as [|a p IH]; intros s; cbn.
  - now intros [= ->].
  - destruct s as [|b s]; [discriminate|].
    destruct (Ascii.eqb_spec a b) as [->|]; [|discriminate].
    intros H. now rewrite (IH _ H).
Qed.

Lemma HasSuffix_dot_app (s : string) : HasSuffix_dot (s ++ ".")%string = true.
Proof.
  induction s as [|c s IH]; [reflexivity|].
  cbn [append HasSuffix_dot]. destruct (s ++ ".")%string eqn:E.
  - destruct s; discriminate.
  - exact IH.
Qed.

Lemma stripTrailingDot_app (s : string) :
  stripTrailingDot (s ++ ".")%string = s.
Proof.
  induction s as [|c s IH]; [reflexivity|].
  cbn [append stripTrailingDot]. destruct (s ++ ".")%string eqn:E.
  - destruct s; discriminate.
  - now rewrite IH.
Qed.

Lemma stripTrailingDot_no_dot (s : string) :
  HasSuffix_dot s = false -> stripTrailingDot s = s.
Proof.
  induction s as [|c s IH]; [reflexivity|].
  cbn [HasSuffix_dot stripTrailingDot]. destruct s as [|d s].
  - now intros ->.
  - intros H. now rewrite (IH H).
Qed.

Lemma ensureHasTrailingDot_suffix (s : string) :
  HasSuffix_dot (ensureHasTrailingDot s) = true.
Proof.
  unfold ensureHasTrailingDot.
  destruct (HasSuffix_dot s) eqn:E; cbn [negb]; [exact E|].
  apply HasSuffix_dot_app.
Qed.

Lemma stripTrailingDot_ensure (s : string) :
  stripTrailingDot (ensureHasTrailingDot s) = stripTrailingDot s.
Proof.
  unfold ensureHasTrailingDot.
  destruct (HasSuffix_dot s) eqn:E; cbn [negb]; [reflexivity|].
  now rewrite stripTrailingDot_app, (stripTrailingDot_no_dot s E).
Qed.

(** X1: ensureHasTrailingDot and stripTrailingDot.  The name a record set
    gets ends in a dot; a second application changes nothing; and stripping
    the dot again gives what stripping the original name gives, that is the
    original name when it had no trailing dot. *)
Theorem trailing_dot_round_trip (s : string) :
  HasSuffix_dot (ensureHasTrailingDot s) = true /\
  ensureHasTrailingDot (ensureHasTrailingDot s) = ensureHasTrailingDot s /\
  stripTrailingDot (ensureHasTrailingDot s) = stripTrailingDot s /\
  (HasSuffix_dot s = false -> stripTrailingDot (ensureHasTrailingDot s) = s).
Proof.
  unfold ensureHasTrailingDot.
  destruct (HasSuffix_dot s) eqn:E; cbn [negb].
  - rewrite E. cbn [negb]. repeat split; auto. discriminate.
  - rewrite HasSuffix_dot_app. cbn [negb].
    rewrite stripTrailingDot_app, (stripTrailingDot_no_dot s E).
    repeat split.
Qed.

Lemma httpsify_prefix (s : string) :
  HasPrefix (httpsify s) "https://" = true.
Proof.
  unfold httpsify. destruct (HasPrefix s "https://") eqn:E; [exact E|].
  unfold HasPrefix. now rewrite strip_prefix_app.
Qed.

(** X2: httpsify.  The result always starts with https://, a URL that starts
    with it is returned as it is, one leading http:// is replaced, and a
    second application changes nothing. *)
Theorem httpsify_https (s : string) :
  HasPrefix (httpsify s) "https://" = true /\
  httpsify (httpsify s) = httpsify s /\
  (HasPrefix s "https://" = true -> httpsify s = s) /\
  httpsify ("http://" ++ s)%string = ("https://" ++ s)%string.
Proof.
  pose proof (httpsify_prefix s) as H1.
  split; [exact H1|]. split; [|split].
  - unfold httpsify at 1. now rewrite H1.
  - intros H. unfold httpsify. now rewrite H.
  - reflexivity.
Qed.

(* --------------------------------------------------------------------- *)
(** *** Machine types *)

Lemma quot_mul_256 (m : Z) :
  Z.quot m 256 * 256 = m <-> (256 | m).
Proof.
  split.
  - intros H. exists (Z.quot m 256). lia.
  - intros [k ->]. rewrite Z.quot_mul by lia. reflexivity.
Qed.

Lemma land_1_even (c : Z) : (Z.land 1 c =? 0) = Z.even c.
Proof.
  rewrite Z.land_comm.
  change 1 with (Z.ones 1). rewrite Z.land_ones by lia.
  change (2 ^ 1) with 2. rewrite Zmod_even.
  now destruct (Z.even c).
Qed.

(** X3: validateAsCustomMachine.  A custom machine is accepted exactly when
    its CPU count is 1 or an even number from 2 to 32 and its memory is a
    multiple of 256, zero and the negative multiples included. *)
Theorem validateAsCustomMachine_accepts (mt : MachineType) :
  in_int64 (mt_MemoryMBs mt) ->
  (validateAsCustomMachine mt = None <->
   (mt_CPUCount mt = 1 \/
    (2 <= mt_CPUCount mt <= 32 /\ Z.even (mt_CPUCount mt) = true)) /\
   (256 | mt_MemoryMBs mt)).
Proof.
  intros Hm. unfold validateAsCustomMachine.
  assert (Hw : wrap64 (Z.quot (mt_MemoryMBs mt) 256 * 256) =
               Z.quot (mt_MemoryMBs mt) 256 * 256).
  { apply wrap64_small. unfold in_int64 in *.
    pose proof (Z.quot_rem' (mt_MemoryMBs mt) 256).
    pose proof (Z.rem_bound_abs (mt_MemoryMBs mt) 256 ltac:(lia)).
    assert (0 <= mt_MemoryMBs mt \/ mt_MemoryMBs mt <= 0) as [Hp|Hn] by lia.
    - pose proof (Z.rem_nonneg (mt_MemoryMBs mt) 256 ltac:(lia) Hp). lia.
    - pose proof (Z.rem_nonpos (mt_MemoryMBs mt) 256 ltac:(lia) Hn). lia. }
  rewrite Hw, land_1_even.
  destruct (Z.leb_spec (mt_CPUCount mt) 0) as [H0|H0]; cbn [orb].
  - split; [discriminate|]. intros [[H|[H _]] _]; lia.
  - destruct (Z.gtb_spec (mt_CPUCount mt) 32) as [H32|H32].
    + split; [discriminate|]. intros [[H|[H _]] _]; lia.
    + destruct (Z.eqb_spec (mt_CPUCount mt) 1) as [H1|H1]; cbn [orb negb].
      * destruct (Z.eqb_spec (Z.quot (mt_MemoryMBs mt) 256 * 256)
                    (mt_MemoryMBs mt)) as [Hq|Hq]; cbn [negb].
        -- split; [|reflexivity]. intros _. split; [now left|].
           now apply quot_mul_256.
        -- split; [discriminate|]. intros [_ Hd].
           now apply quot_mul_256 in Hd.
      * destruct (Z.even (mt_CPUCount mt)) eqn:Hev; cbn [negb].
        -- destruct (Z.eqb_spec (Z.quot (mt_MemoryMBs mt) 256 * 256)
                       (mt_MemoryMBs mt)) as [Hq|Hq]; cbn [negb].
           ++ split; [|reflexivity]. intros _. split.
              ** right. split; [lia|reflexivity].
              ** now apply quot_mul_256.
           ++ split; [discriminate|]. intros [_ Hd].
              now apply quot_mul_256 in Hd.
        -- split; [discriminate|]. intros [[H|[_ H]] _]; congruence.
Qed.

Lemma MachineType_Validate_eq (mt : MachineType) :
  MachineType_Validate mt =
    (if canMakeCustomMachine mt || negb (String.eqb (mt_Type mt) "")
     then None else Some errEmptyType).
Proof.
  unfold MachineType_Validate, canMakeCustomMachine,
    validateAsStandardMachine. cbn [run_validators].
  destruct (validateAsCustomMachine mt); cbn [orb];
    now destruct (String.eqb (mt_Type mt) "").
Qed.

(** X4: MachineType.Validate.  A machine type is accepted exactly when it can
    be made as a custom machine or names a standard type; when it is
    rejected the error is always that of the last validator, errEmptyType:
    the errors of the custom validation are never reported. *)
Theorem MachineType_Validate_reports (mt : MachineType) :
  MachineType_Validate mt =
    (if canMakeCustomMachine mt || negb (String.eqb (mt_Type mt) "")
     then None else Some errEmptyType) /\
  MachineType_Validate mt <> Some errInvalidZeroCount /\
  MachineType_Validate mt <> Some errMemoryMultipleOf256.
Proof.
  rewrite MachineType_Validate_eq.
  destruct (canMakeCustomMachine mt || negb (String.eqb (mt_Type mt) ""));
    repeat split; discriminate.
Qed.

(** X5: route.  When the CPU count and the memory make a valid custom machine
    the URL is that of the custom machine, whatever standard type the
    machine type names. *)
Theorem custom_route_shadows_type (mt : MachineType) (t zone : string) :
  validateAsCustomMachine mt = None ->
  partialURLByZone (mkMachineType (mt_CPUCount mt) (mt_MemoryMBs mt) t) zone =
  ("/zones/" ++ zone ++ "/machineTypes/custom-" ++ format_d (mt_CPUCount mt)
     ++ "-" ++ format_d (mt_MemoryMBs mt))%string.
Proof.
  intros H. unfold partialURLByZone, route, canMakeCustomMachine.
  unfold validateAsCustomMachine in *. cbn [mt_CPUCount mt_MemoryMBs].
  now rewrite H.
Qed.

(* --------------------------------------------------------------------- *)
(** *** Instance requests *)

Lemma validateBasic_returns (ireq : option InstanceRequest) :
  validateBasic ireq =
  Returns
    match ireq with
    | None => Some (pkgError errEmptyProject)
    | Some r =>
        if String.eqb (iq_Project r) "" then Some (pkgError errEmptyProject)
        else if String.eqb (iq_Zone r) "" then Some (pkgError errEmptyZone)
        else if String.eqb (iq_Name r) "" then Some (pkgError errBlankName)
        else None
    end.
Proof.
  destruct ireq as [r|]; [|reflexivity].
  unfold validateBasic. cbn.
  destruct (String.eqb (iq_Project r) ""); cbn; [reflexivity|].
  destruct (String.eqb (iq_Zone r) ""); cbn; [reflexivity|].
  now destruct (String.eqb (iq_Name r) "").
Qed.

Lemma eqb_empty_false (s : string) : String.eqb s "" = false <-> s <> "".
Proof.
  destruct (String.eqb_spec s ""); split; congruence.
Qed.

Lemma validateForCreate_returns (ireq : option InstanceRequest) :
  (exists e, validateForCreate ireq = Returns e) /\
  (validateForCreate ireq = Returns None <->
   exists r,
     ireq = Some r /\ iq_Project r <> "" /\ iq_Zone r <> "" /\
     iq_Name r <> "" /\ iq_NetworkInterface r <> None /\
     MachineType_Validate (machineTypeOrDefault r) = None).
Proof.
  unfold validateForCreate. rewrite validateBasic_returns.
  split.
  - destruct ireq as [r|]; [|eauto].
    destruct (String.eqb (iq_Project r) ""); [eauto|].
    destruct (String.eqb (iq_Zone r) ""); [eauto|].
    destruct (String.eqb (iq_Name r) ""); [eauto|]. cbn.
    destruct (iq_NetworkInterface r); eauto.
  - destruct ireq as [r|].
    + destruct (String.eqb_spec (iq_Project r) "") as [Hp|Hp];
        [split; [discriminate|]; intros (r' & [= <-] & H & _); contradiction|].
      destruct (String.eqb_spec (iq_Zone r) "") as [Hz|Hz];
        [split; [discriminate|];
         intros (r' & [= <-] & _ & H & _); contradiction|].
      destruct (String.eqb_spec (iq_Name r) "") as [Hn|Hn];
        [split; [discriminate|];
         intros (r' & [= <-] & _ & _ & H & _); contradiction|].
      cbn. destruct (iq_NetworkInterface r) as [ni|] eqn:Hni.
      * split.
        -- intros [= Hv]. exists r. repeat split; auto.
           rewrite Hni. discriminate.
        -- intros (r' & [= <-] & _ & _ & _ & _ & Hv). now rewrite Hv.
      * split; [discriminate|].
        intros (r' & [= <-] & _ & _ & _ & H & _). rewrite Hni in H.
        contradiction.
    + split; [discriminate|]. intros (r' & [=] & _).
Qed.

(** X6: validateForCreate.  It never panics and tests in this order: a nil
    request or an empty Project gives errEmptyProject, an empty Zone
    errEmptyZone, an empty Name errBlankName, a nil NetworkInterface
    errEmptyNetworkInterface, and otherwise the answer is that of Validate on
    the machine type, the request's or else the default.  So it accepts
    exactly the requests with a project, a zone, a name, a network interface
    and a machine type that validates; and the default machine type, taken
    when the request names none, always validates. *)
Theorem validateForCreate_accepts (ireq : option InstanceRequest) :
  validateForCreate ireq =
    Returns
      match ireq with
      | None => Some (pkgError errEmptyProject)
      | Some r =>
          if String.eqb (iq_Project r) "" then Some (pkgError errEmptyProject)
          else if String.eqb (iq_Zone r) "" then Some (pkgError errEmptyZone)
          else if String.eqb (iq_Name r) "" then Some (pkgError errBlankName)
          else
            match iq_NetworkInterface r, iq_MachineType r with
            | None, _ => Some (pkgError errEmptyNetworkInterface)
            | Some _, None => MachineType_Validate basic1VCPUMachine
            | Some _, Some mt => MachineType_Validate mt
            end
      end /\
  (validateForCreate ireq = Returns None <->
   exists r,
     ireq = Some r /\ iq_Project r <> "" /\ iq_Zone r <> "" /\
     iq_Name r <> "" /\ iq_NetworkInterface r <> None /\
     MachineType_Validate (machineTypeOrDefault r) = None) /\
  (forall r,
      ireq = Some r -> iq_MachineType r = None ->
      MachineType_Validate (machineTypeOrDefault r) = None).
Proof.
  destruct (validateForCreate_returns ireq) as [Hret Hacc].
  split; [|split; [exact Hacc|]].
  - unfold validateForCreate. rewrite validateBasic_returns.
    destruct ireq as [r|]; [|reflexivity].
    destruct (String.eqb (iq_Project r) ""); [reflexivity|].
    destruct (String.eqb (iq_Zone r) ""); [reflexivity|].
    destruct (String.eqb (iq_Name r) ""); [reflexivity|].
    cbn [field]. destruct (iq_NetworkInterface r); [|reflexivity].
    unfold machineTypeOrDefault. now destruct (iq_MachineType r).
  - intros r _ Hmt. unfold machineTypeOrDefault. now rewrite Hmt.
Qed.

(** X7: the instance sent for creation.  For a request that validateForCreate
    accepts, the instance built by toInstance takes its name, description,
    metadata and service accounts from the request; its disks are the
    request's, or BasicAttachedDisk alone when the request has none; its one
    network interface is the request's, which is not nil; and its machine
    type is the URL /zones/ZONE/machineTypes/SEGMENT, the segment being
    n1-standard-1 when the request names no machine type, custom-CPUS-MEMORY
    when the machine type named makes a custom machine, and its Type
    otherwise; the segment is never empty. *)
Theorem toInstance_of_valid_request (r : InstanceRequest) :
  validateForCreate (Some r) = Returns None ->
  let instance := toInstance r in
  ci_Name instance = iq_Name r /\
  ci_Description instance = iq_Description r /\
  ci_Metadata instance = iq_Metadata r /\
  ci_ServiceAccounts instance = iq_ServiceAccounts r /\
  ci_Disks instance =
    match iq_Disks r with
    | [] => [BasicAttachedDisk]
    | _ :: _ => iq_Disks r
    end /\
  ci_Disks instance <> [] /\
  (exists ni,
      iq_NetworkInterface r = Some ni /\
      ci_NetworkInterfaces instance = [Some ni]) /\
  exists segment,
    segment <> "" /\
    ci_MachineType instance =
      ("/zones/" ++ iq_Zone r ++ "/machineTypes/" ++ segment)%string /\
    segment =
      match iq_MachineType r with
      | None => N1Standard1
      | Some mt =>
          if canMakeCustomMachine mt then
            ("custom-" ++ format_d (mt_CPUCount mt) ++ "-"
               ++ format_d (mt_MemoryMBs mt))%string
          else mt_Type mt
      end.
Proof.
  intros Hv instance. subst instance.
  destruct (proj1 (proj2 (validateForCreate_returns (Some r))) Hv)
    as (r' & [= <-] & _ & _ & _ & Hni & Hmt).
  cbn [toInstance ci_Name ci_Description ci_Metadata ci_ServiceAccounts
         ci_Disks ci_NetworkInterfaces ci_MachineType].
  do 4 (split; [reflexivity|]).
  split; [unfold disksOrDefault; now destruct (iq_Disks r)|].
  split; [unfold disksOrDefault; destruct (iq_Disks r); cbn; discriminate|].
  split.
  { destruct (iq_NetworkInterface r) as [ni|]; [eauto|contradiction]. }
  unfold partialURLByZone, route.
  pose proof (MachineType_Validate_eq (machineTypeOrDefault r)) as H.
  rewrite Hmt in H. unfold machineTypeOrDefault in *.
  destruct (iq_MachineType r) as [mt|].
  - destruct (canMakeCustomMachine mt).
    + eexists. split; [|split; reflexivity]. discriminate.
    + exists (mt_Type mt). split; [|split; reflexivity].
      cbn [orb] in H.
      destruct (String.eqb_spec (mt_Type mt) ""); [discriminate|assumption].
  - exists N1Standard1. split; [discriminate|]. split; reflexivity.
Qed.

(** X8: CreateInstance.  On a request that validateForCreate rejects it
    returns the validation error and makes no remote call.  Otherwise it
    first inserts toInstance's instance in the request's project and zone,
    and what follows depends on the answer.  If the insertion returns an
    error, that error is returned with a nil instance and no other call is
    made; if its operation carries an error, that one is returned, again
    with no other call; only if neither is the case, one lookup of the same
    project, zone and name follows, whose answer is the result.  (When the
    insertion returns a nil operation with a nil error, the call does not
    return: the operation is dereferenced.)  The heap of records is not
    touched. *)
Theorem CreateInstance_calls {World} (c : Client World)
  (ireq : option InstanceRequest) (s s' : State World)
  (res : option compute_Instance * option Error) :
  CreateInstance c ireq s = Returns (res, s') ->
  (exists e,
      validateForCreate ireq = Returns (Some e) /\
      res = (None, Some e) /\ s' = s) \/
  (exists r,
      ireq = Some r /\ validateForCreate ireq = Returns None /\
      st_heap s' = st_heap s /\
      let insert :=
        CallInstancesInsert (iq_Project r) (iq_Zone r) (toInstance r) in
      let inserted :=
        instancesInsertDo c (st_world s) (iq_Project r) (iq_Zone r)
          (toInstance r) in
      match snd (fst inserted), fst (fst inserted) with
      | Some err, _ =>
          res = (None, Some err) /\
          st_calls s' = st_calls s ++ [insert] /\
          st_world s' = snd inserted
      | None, Some operation =>
          match op_Error operation with
          | Some jsonBlob =>
              res = (None, Some (errOperation jsonBlob)) /\
              st_calls s' = st_calls s ++ [insert] /\
              st_world s' = snd inserted
          | None =>
              st_calls s' =
                st_calls s ++
                [insert;
                 CallInstancesGet (iq_Project r) (iq_Zone r) (iq_Name r)] /\
              (res, st_world s') =
                instancesGetDo c (snd inserted) (iq_Project r) (iq_Zone r)
                  (iq_Name r)
          end
      | None, None => False
      end).
Proof.
  unfold CreateInstance, bindP, liftP.
  destruct (validateForCreate_returns ireq) as ([e He] & Hacc).
  rewrite He. destruct e as [e|].
  - intros [= <- <-]. left. eauto.
  - destruct (proj1 Hacc He) as (r & -> & Hp & Hz & Hn & _).
    cbn [field retP]. unfold remote.
    destruct (instancesInsertDo c (st_world s) (iq_Project r) (iq_Zone r)
                (toInstance r)) as [[op err] w1] eqn:Hins.
    cbn [fst snd]. intros H. right. exists r.
    split; [reflexivity|]. split; [reflexivity|].
    cbn zeta. rewrite Hins. cbn [fst snd].
    destruct err as [err|].
    + injection H as <- <-. cbn. repeat split.
    + destruct op as [op|]; cbn [field] in H; [|discriminate].
      destruct (op_Error op) as [blob|].
      * injection H as <- <-. cbn. repeat split.
      * unfold FindInstance, validateForByName, bindP, liftP in H.
        rewrite validateBasic_returns in H. cbn in H.
        apply eqb_empty_false in Hp, Hz, Hn. rewrite Hp, Hz, Hn in H.
        cbn in H. unfold remote in H. cbn in H.
        destruct (instancesGetDo c w1 (iq_Project r) (iq_Zone r) (iq_Name r))
          as [found w2].
        injection H as <- <-. cbn. split; [reflexivity|].
        split; [|reflexivity]. now rewrite <- app_assoc.
Qed.

(* --------------------------------------------------------------------- *)
(** *** dedup *)

Lemma dedup_loop_acc (items : list string) :
  forall seen uniq,
    dedup_loop items seen uniq = uniq ++ dedup_loop items seen [].
Proof.
  induction items as [|item items IH]; intros seen uniq; cbn [dedup_loop].
  - now rewrite app_nil_r.
  - destruct (known item seen); [apply IH|].
    destruct (String.eqb (TrimSpace item) ""); [apply IH|].
    rewrite IH, (IH _ ([] ++ _)). now rewrite <- app_assoc.
Qed.

Lemma dedup_loop_cons (item : string) (items seen : list string) :
  dedup_loop (item :: items) seen [] =
  if known item seen then dedup_loop items seen []
  else if String.eqb (TrimSpace item) "" then dedup_loop items seen []
  else TrimSpace item
         :: dedup_loop items (TrimSpace item :: item :: seen) [].
Proof.
  cbn [dedup_loop].
  destruct (known item seen); [reflexivity|].
  destruct (String.eqb (TrimSpace item) ""); [reflexivity|].
  now rewrite dedup_loop_acc.
Qed.

Lemma dedup_loop_sound (items : list string) :
  forall seen,
    Forall (fun x => x <> "" /\ exists item, In item items /\ x = TrimSpace item)
      (dedup_loop items seen []).
Proof.
  induction items as [|item items IH]; intros seen; [constructor|].
  rewrite dedup_loop_cons.
  assert (Hweak : forall sn,
             Forall (fun x => x <> "" /\
                              exists i, In i (item :: items) /\ x = TrimSpace i)
               (dedup_loop items sn [])).
  { intros sn. eapply Forall_impl; [|apply IH].
    intros x (Hx & i & Hi & ->). split; [assumption|].
    exists i. split; [now right|reflexivity]. }
  destruct (known item seen); [apply Hweak|].
  destruct (String.eqb_spec (TrimSpace item) "") as [|Hne]; [apply Hweak|].
  constructor; [|apply Hweak].
  split; [assumption|]. exists item. split; [now left|reflexivity].
Qed.

(** X9: dedup, what it returns.  Every string of the result is the trimmed
    form of one of the items and is not empty. *)
Theorem dedup_trimmed_nonblank (items : list string) :
  Forall (fun x => x <> "" /\ exists item, In item items /\ x = TrimSpace item)
    (dedup items).
Proof.
  apply dedup_loop_sound.
Qed.

Lemma dedup_loop_nil (items : list string) :
  forall seen,
    dedup_loop items seen [] = [] <->
    Forall (fun i => known i seen = true \/ TrimSpace i = "") items.
Proof.
  induction items as [|item items IH]; intros seen.
  - split; [constructor|reflexivity].
  - rewrite dedup_loop_cons. destruct (known item seen) eqn:Hk.
    + rewrite IH. split; [constructor; auto|]. now inversion 1.
    + destruct (String.eqb_spec (TrimSpace item) "") as [Hb|Hb].
      * rewrite IH. split; [constructor; auto|]. now inversion 1.
      * split; [discriminate|]. inversion 1 as [|? ? [H1|H1] ?]; subst;
          congruence.
Qed.

Lemma dedup_all_blank (items : list string) :
  Forall (fun i => TrimSpace i = "") items -> dedup items = [].
Proof.
  intros H. unfold dedup. apply dedup_loop_nil.
  eapply Forall_impl; [|exact H]. auto.
Qed.

(** X10: dedup, when it returns nothing.  The result is empty exactly when
    every item is blank (empty once trimmed); with it the validateFor
    methods report "expecting at least one ..." exactly for such data. *)
Theorem dedup_empty_iff_all_blank (items : list string) :
  dedup items = [] <-> Forall (fun i => TrimSpace i = "") items.
Proof.
  split; [|apply dedup_all_blank].
  unfold dedup. rewrite dedup_loop_nil. intros H.
  eapply Forall_impl; [|exact H]. intros i [Hk|Hb]; [discriminate|assumption].
Qed.

Lemma known_cons2 (x a b : string) (seen : list string) :
  known x (a :: b :: seen) = (String.eqb x a || (String.eqb x b || known x seen))%bool.
Proof. reflexivity. Qed.

Lemma dedup_loop_trimmed (items : list string) :
  Forall (fun i => TrimSpace i = i) items ->
  forall seen,
    NoDup (dedup_loop items seen []) /\
    forall x, In x (dedup_loop items seen []) <->
              In x items /\ x <> "" /\ known x seen = false.
Proof.
  induction 1 as [|item items Hitem Hitems IH]; intros seen.
  - split; [constructor|]. intros x. cbn. tauto.
  - rewrite dedup_loop_cons, Hitem.
    destruct (known item seen) eqn:Hk.
    + destruct (IH seen) as [Hnd Hin]. split; [assumption|].
      intros x. rewrite Hin. cbn [In]. split; [tauto|].
      intros ([<-|Hx] & Hne & Hkx); [congruence|tauto].
    + destruct (String.eqb_spec item "") as [Hb|Hb].
      * destruct (IH seen) as [Hnd Hin]. split; [assumption|].
        intros x. rewrite Hin. cbn [In]. split; [tauto|].
        intros ([<-|Hx] & Hne & Hkx); [congruence|tauto].
      * destruct (IH (item :: item :: seen)) as [Hnd Hin]. split.
        -- constructor; [|assumption]. rewrite Hin, known_cons2.
           rewrite String.eqb_refl. cbn. intros (_ & _ & H). discriminate.
        -- intros x. cbn [In]. rewrite Hin, known_cons2.
           destruct (String.eqb_spec x item) as [->|Hxi]; cbn [orb].
           ++ split; [intros [_|(_ & _ & H)]; [auto|discriminate]|].
              intros _. now left.
           ++ split.
              ** intros [H|(H1 & H2 & H3)]; [congruence|auto].
              ** intros ([H|H1] & H2 & H3); [congruence|auto].
Qed.

(** X11: dedup, on trimmed items.  When no item has white space around it the
    result has no repetition and holds exactly the items that are not
    empty. *)
Theorem dedup_of_trimmed_items (items : list string) :
  Forall (fun i => TrimSpace i = i) items ->
  NoDup (dedup items) /\
  forall x, In x (dedup items) <-> In x items /\ x <> "".
Proof.
  intros H. destruct (dedup_loop_trimmed items H []) as [Hnd Hin].
  split; [assumption|]. intros x. unfold dedup. rewrite Hin. cbn. tauto.
Qed.

(** X12: dedup, on items that differ by white space.  Two different items
    with the same trimmed form, the second not already trimmed, both
    survive: the result holds the trimmed form twice. *)
Theorem dedup_keeps_white_space_variants (x y t : string) :
  TrimSpace x = t -> TrimSpace y = t -> t <> "" -> y <> x -> y <> t ->
  dedup [x; y] = [t; t].
Proof.
  intros Hx Hy Ht Hyx Hyt. unfold dedup. rewrite dedup_loop_cons.
  cbn [known existsb]. rewrite Hx.
  apply eqb_empty_false in Ht. rewrite Ht.
  rewrite dedup_loop_cons, known_cons2. cbn [known existsb].
  apply String.eqb_neq in Hyx, Hyt. rewrite Hyx, Hyt. cbn [orb].
  rewrite Hy, Ht. reflexivity.
Qed.

(* --------------------------------------------------------------------- *)
(** *** Records and record sets *)

Lemma Rrdatas_length (r : DNSRecord) :
  List.length (rs_Rrdatas (toRecordSet r)) =
  ((if String.eqb (r_CanonicalName r) "" then 0 else 1)
   + List.length (r_CertificateAuthorityAuthorizations r)
   + List.length (r_IPV4Addresses r) + List.length (r_IPV6Addresses r)
   + List.length (r_NameServers r)
   + List.length (r_PreferenceAndMailServers r)
   + List.length (r_SPFData r) + List.length (r_SRVData r)
   + List.length (r_TXTRecords r))%nat.
Proof.
  unfold toRecordSet. cbn [rs_Rrdatas].
  destruct (String.eqb (r_CanonicalName r) ""); cbn [negb];
    rewrite !length_app; cbn [List.length]; lia.
Qed.

Ltac validate_cases r :=
  unfold Record_Validate;
  repeat match goal with
         | |- context [String.eqb (r_Type r) ?t] =>
             let E := fresh "Htype" in
             destruct (String.eqb_spec (r_Type r) t) as [E|E]
         end.

Ltac dedup_case :=
  match goal with
  | |- context [(List.length (dedup ?l) =? 0)%nat] =>
      let E := fresh "Hlen" in
      destruct (Nat.eqb_spec (List.length (dedup l)) 0) as [E|E]
  end.

(** X13: the errors of Record.Validate.  Validate never returns
    errEmptySRVData: a record of type SRV whose data are all blank is
    reported with errEmptySPFData, the error of the SPF records. *)
Theorem Record_Validate_SRV_error :
  (forall r e, fst (Record_Validate r) = Some e -> e <> errEmptySRVData) /\
  (forall r,
      r_Type r = SRV -> Forall (fun i => TrimSpace i = "") (r_SRVData r) ->
      Record_Validate r = (Some errEmptySPFData, r)).
Proof.
  split.
  - intros r e.
    validate_cases r;
      unfold validateForAAAName, validateForAName, validateForCAA,
        validateForCName, validateForMX, validateForNS, validateForSPF,
        validateForSRV, validateForTXT;
      try dedup_case; cbn [fst];
      try destruct (String.eqb (TrimSpace (r_CanonicalName r)) "");
      cbn [fst]; intros [= <-]; discriminate.
  - intros r Htype Hblank. unfold Record_Validate. rewrite Htype.
    cbn. unfold validateForSRV.
    apply dedup_all_blank in Hblank. now rewrite Hblank.
Qed.

(** X14: the record type of IPv6 addresses.  The package's constant for it is
    AAA: a record of the DNS type AAAA is rejected as of unknown type and is
    left as it was. *)
Theorem Record_Validate_AAAA (r : DNSRecord) :
  r_Type r = "AAAA" ->
  Record_Validate r = (Some (errUnknownRecordType "AAAA"), r).
Proof.
  intros H. unfold Record_Validate. now rewrite H.
Qed.

Lemma toRecordSet_of_validated (r : DNSRecord) :
  fst (Record_Validate r) = None ->
  let rrset := toRecordSet (snd (Record_Validate r)) in
  List.length (rs_Rrdatas rrset) <> 0%nat /\
  rs_Type rrset = r_Type r /\
  rs_Name rrset = ensureHasTrailingDot (r_DNSName r).
Proof.
  intros Hok rrset. subst rrset. rewrite Rrdatas_length. revert Hok.
  validate_cases r;
    unfold validateForAAAName, validateForAName, validateForCAA,
      validateForCName, validateForMX, validateForNS, validateForSPF,
      validateForSRV, validateForTXT;
    try dedup_case; cbn [fst snd]; try discriminate;
    try (intros _; cbn; repeat split; lia).
  destruct (String.eqb_spec (TrimSpace (r_CanonicalName r)) "")
    as [Hb|Hb]; cbn [fst snd]; [discriminate|]. intros _.
  destruct (String.eqb_spec (r_CanonicalName r) "") as [He|He];
    [rewrite He in Hb; now contradiction Hb|].
  repeat split; lia.
Qed.

Lemma well_formed_of_validated (r : DNSRecord) :
  fst (Record_Validate r) = None ->
  well_formed_record_set (toRecordSet (snd (Record_Validate r))).
Proof.
  intros Hok. destruct (toRecordSet_of_validated r Hok) as (Hl & _ & Hn).
  split.
  - intros E. now rewrite E in Hl.
  - rewrite Hn. apply ensureHasTrailingDot_suffix.
Qed.

(** X15: a validated record and its record set.  When Validate accepts a
    record, the record set made of the record as Validate left it has at
    least one datum, the record's type, and a name that ends in a dot. *)
Theorem validated_record_set (r : DNSRecord) :
  fst (Record_Validate r) = None ->
  let rrset := toRecordSet (snd (Record_Validate r)) in
  rs_Rrdatas rrset <> [] /\
  rs_Type rrset = r_Type r /\
  rs_Name rrset = ensureHasTrailingDot (r_DNSName r) /\
  HasSuffix_dot (rs_Name rrset) = true.
Proof.
  intros Hok rrset.
  destruct (toRecordSet_of_validated r Hok) as (Hl & Ht & Hn).
  fold rrset in Hl, Ht, Hn. repeat split; try assumption.
  - intros E. now rewrite E in Hl.
  - rewrite Hn. apply ensureHasTrailingDot_suffix.
Qed.

(* --------------------------------------------------------------------- *)
(** *** toRecordSets *)

Lemma update_nth_length {A} (n : nat) (x : A) (l : list A) :
  List.length (update_nth n x l) = List.length l.
Proof.
  revert n. induction l as [|y l IH]; intros [|n]; cbn; auto.
Qed.

Lemma nth_error_update_nth {A} (n m : nat) (x y : A) (l : list A) :
  nth_error l m = Some y ->
  nth_error (update_nth n x l) m = Some (if Nat.eqb m n then x else y).
Proof.
  revert n m. induction l as [|z l IH]; intros n m; [destruct m; discriminate|].
  destruct n as [|n], m as [|m]; cbn; auto.
Qed.

Lemma toRecordSets_loop_spec {World} (records : list RecordPtr) :
  forall rrsets (s s' : State World) res,
    toRecordSets_loop records rrsets s = Returns (res, s') ->
    st_world s' = st_world s /\ st_calls s' = st_calls s /\
    List.length (st_heap s') = List.length (st_heap s) /\
    (snd res <> None -> fst res = []) /\
    (snd res = None ->
     (exists new,
         fst res = rrsets ++ new /\
         List.length new = List.length records /\
         Forall well_formed_record_set new) /\
     forall a r,
       nth_error (st_heap s) a = Some r ->
       nth_error (st_heap s') a = Some (validated (visits a records) r)).
Proof.
  induction records as [|rec records IH]; intros rrsets s s' res;
    cbn [toRecordSets_loop].
  - intros [= <- <-]. cbn. repeat split; try congruence.
    exists []. rewrite app_nil_r. repeat split. constructor.
  - unfold bindP at 1. unfold load.
    destruct rec as [a0|]; [|discriminate].
    destruct (nth_error (st_heap s) a0) as [r0|] eqn:Hr0; [|discriminate].
    cbn [fst snd].
    destruct (Record_Validate r0) as [err r0'] eqn:Hv.
    unfold bindP, store. cbn [st_heap st_world st_calls].
    destruct err as [e|].
    + intros [= <- <-]. cbn. rewrite update_nth_length.
      repeat split; congruence.
    + intros H. apply IH in H. cbn [st_heap st_world st_calls] in H.
      rewrite update_nth_length in H.
      destruct H as (Hw & Hc & Hl & Herr & Hok).
      repeat split; try assumption.
      * destruct (Hok H) as ((new & Hnew & Hlen & Hwf) & _).
        exists (toRecordSet r0' :: new). rewrite Hnew, <- app_assoc.
        repeat split; [cbn; now rewrite Hlen|].
        constructor; [|assumption].
        pose proof (well_formed_of_validated r0) as Hvr. rewrite Hv in Hvr.
        exact (Hvr eq_refl).
      * intros a r Ha. destruct (Hok H) as (_ & Hheap).
        rewrite (Hheap a (if Nat.eqb a a0 then r0' else r)
                   (nth_error_update_nth a0 a r0' r _ Ha)).
        cbn [visits]. destruct (Nat.eqb_spec a a0) as [->|Hne];
          [|reflexivity].
        unfold validated. rewrite Nat.iter_succ_r.
        rewrite Hr0 in Ha. injection Ha as <-. now rewrite Hv.
Qed.

Lemma nth_error_update_nth_inv {A} (n m : nat) (x y : A) (l : list A) :
  nth_error (update_nth n x l) m = Some y ->
  exists y0,
    nth_error l m = Some y0 /\ y = if Nat.eqb m n then x else y0.
Proof.
  revert n m. induction l as [|z l IH]; intros n m;
    [destruct n, m; discriminate|].
  destruct n as [|n], m as [|m]; cbn.
  - intros [= <-]. eauto.
  - eauto.
  - intros [= <-]. eauto.
  - apply IH.
Qed.

Lemma validated_zero (r : DNSRecord) : validated 0 r = r.
Proof. reflexivity. Qed.

Lemma validated_succ (n : nat) (r : DNSRecord) :
  validated (S n) r = validated n (snd (Record_Validate r)).
Proof.
  unfold validated. now rewrite Nat.iter_succ_r.
Qed.

(** The record sets of the loop, one by one: the record set at a position is
    made of the record its pointer leads to, as the run of Validate at that
    position left it; and an error is that of Validate on the first record
    it rejects. *)
Lemma toRecordSets_loop_order {World} (records : list RecordPtr) :
  forall rrsets (s s' : State World) res,
    toRecordSets_loop records rrsets s = Returns (res, s') ->
    match snd res with
    | None =>
        exists new,
          fst res = rrsets ++ new /\
          forall i a r,
            nth_error records i = Some (Some a) ->
            nth_error (st_heap s) a = Some r ->
            nth_error new i =
              Some (toRecordSet
                      (validated (S (visits a (firstn i records))) r))
    | Some e =>
        exists i a r,
          nth_error records i = Some (Some a) /\
          nth_error (st_heap s) a = Some r /\
          fst (Record_Validate (validated (visits a (firstn i records)) r)) =
            Some e /\
          forall j b r',
            (j < i)%nat ->
            nth_error records j = Some (Some b) ->
            nth_error (st_heap s) b = Some r' ->
            fst (Record_Validate
                   (validated (visits b (firstn j records)) r')) = None
    end.
Proof.
  induction records as [|rec records IH]; intros rrsets s s' res;
    cbn [toRecordSets_loop].
  - intros [= <- <-]. cbn [snd fst]. exists []. rewrite app_nil_r.
    split; [reflexivity|]. intros [|i] a r; discriminate.
  - unfold bindP at 1. unfold load.
    destruct rec as [a0|]; [|discriminate].
    destruct (nth_error (st_heap s) a0) as [r0|] eqn:Hr0; [|discriminate].
    cbn [fst snd].
    destruct (Record_Validate r0) as [err r0'] eqn:Hv.
    unfold bindP, store. cbn [st_heap st_world st_calls].
    assert (Hshift : forall a r v,
               nth_error (st_heap s) a = Some r ->
               validated (if Nat.eqb a a0 then S v else v) r =
               validated v (if Nat.eqb a a0 then r0' else r)).
    { intros a r v Ha. destruct (Nat.eqb_spec a a0) as [->|_]; [|reflexivity].
      rewrite Hr0 in Ha. injection Ha as <-.
      now rewrite validated_succ, Hv. }
    destruct err as [e|].
    + intros [= <- <-]. cbn [snd]. exists 0%nat, a0, r0.
      cbn [nth_error firstn visits]. rewrite validated_zero, Hv.
      split; [reflexivity|]. split; [assumption|]. split; [reflexivity|].
      intros j b r' Hj. lia.
    + intros H. apply IH in H. cbn [st_heap] in H.
      destruct (snd res) as [e|].
      * destruct H as (i & a & r'' & Hi & Ha & He & Hbefore).
        destruct (nth_error_update_nth_inv _ _ _ _ _ Ha) as (r & Hr & ->).
        exists (S i), a, r. cbn [nth_error firstn visits].
        split; [assumption|]. split; [assumption|].
        split; [now rewrite (Hshift a r _ Hr)|].
        intros [|j] b r' Hj Hb Hr'.
        -- cbn [nth_error] in Hb. injection Hb as <-.
           rewrite Hr0 in Hr'. injection Hr' as <-.
           cbn [firstn visits]. now rewrite validated_zero, Hv.
        -- cbn [nth_error] in Hb. cbn [firstn visits].
           rewrite (Hshift b r' _ Hr').
           apply (Hbefore j b); [lia|assumption|].
           now apply nth_error_update_nth.
      * destruct H as (new & Hnew & Hall).
        exists (toRecordSet r0' :: new). rewrite Hnew, <- app_assoc.
        split; [reflexivity|].
        intros [|i] a r Hi Ha.
        -- cbn [nth_error] in Hi. injection Hi as <-.
           rewrite Hr0 in Ha. injection Ha as <-.
           cbn [nth_error firstn visits].
           now rewrite validated_succ, validated_zero, Hv.
        -- cbn [nth_error] in Hi. cbn [nth_error firstn visits].
           rewrite (Hall i a (if Nat.eqb a a0 then r0' else r) Hi
                      (nth_error_update_nth a0 a r0' r _ Ha)).
           destruct (Nat.eqb_spec a a0) as [->|_]; [|reflexivity].
           rewrite Hr0 in Ha. injection Ha as <-.
           now rewrite (validated_succ (S _)), Hv.
Qed.

(** X16: toRecordSets, all or nothing.  It makes no remote call and keeps the
    number of records in memory.  When a record is rejected the result is a
    nil slice with the error, which is that of Validate on the first record
    rejected, all records before it having been accepted.  Otherwise there
    is one record set per record, in the order of the records: the record set
    at a position is toRecordSet of the record its pointer leads to, as the
    run of Validate at that position left it (a record pointed to before has
    been through Validate once for every earlier occurrence as well); each
    has at least one datum and a name that ends in a dot. *)
Theorem toRecordSets_all_or_nothing {World} (records : list RecordPtr)
  (s s' : State World) (rrsets : list dns_ResourceRecordSet)
  (err : option Error) :
  toRecordSets records s = Returns ((rrsets, err), s') ->
  st_world s' = st_world s /\ st_calls s' = st_calls s /\
  List.length (st_heap s') = List.length (st_heap s) /\
  (err <> None -> rrsets = []) /\
  (err = None ->
   List.length rrsets = List.length records /\
   Forall well_formed_record_set rrsets) /\
  (err = None ->
   forall i a r,
     nth_error records i = Some (Some a) ->
     nth_error (st_heap s) a = Some r ->
     nth_error rrsets i =
       Some (toRecordSet (validated (S (visits a (firstn i records))) r))) /\
  (forall e,
      err = Some e ->
      exists i a r,
        nth_error records i = Some (Some a) /\
        nth_error (st_heap s) a = Some r /\
        fst (Record_Validate (validated (visits a (firstn i records)) r)) =
          Some e /\
        forall j b r',
          (j < i)%nat ->
          nth_error records j = Some (Some b) ->
          nth_error (st_heap s) b = Some r' ->
          fst (Record_Validate
                 (validated (visits b (firstn j records)) r')) = None).
Proof.
  intros H. pose proof (toRecordSets_loop_order _ _ _ _ _ H) as Horder.
  apply toRecordSets_loop_spec in H.
  destruct H as (Hw & Hc & Hl & Herr & Hok). cbn [fst snd] in *.
  split; [assumption|]. split; [assumption|]. split; [assumption|].
  split; [assumption|]. split; [|split].
  - intros E. destruct (Hok E) as ((new & Hnew & Hlen & Hwf) & _).
    cbn in Hnew. subst new. now split.
  - intros ->. destruct Horder as (new & Hnew & Hall). cbn in Hnew.
    now subst new.
  - intros e ->. exact Horder.
Qed.

(** X17: toRecordSets writes through its pointers.  When every record is
    accepted, each record in memory has gone through Validate once for
    every occurrence of its address among the pointers: a record that is not
    pointed to is as it was, one that is pointed to once is as Validate left
    it, and one that is pointed to twice was validated a second time in its
    rewritten form. *)
Theorem toRecordSets_rewrites_records {World} (records : list RecordPtr)
  (s s' : State World) (rrsets : list dns_ResourceRecordSet) :
  toRecordSets records s = Returns ((rrsets, None), s') ->
  forall a r,
    nth_error (st_heap s) a = Some r ->
    nth_error (st_heap s') a = Some (validated (visits a records) r).
Proof.
  intros H. apply toRecordSets_loop_spec in H.
  destruct H as (_ & _ & _ & _ & Hok). exact (proj2 (Hok eq_refl)).
Qed.

(* --------------------------------------------------------------------- *)
(** *** UpdateRecordSets, AddRecordSets and DeleteRecordSets *)

Lemma toRecordSets_returns {World} (records : list RecordPtr)
  (s s' : State World) (rrsets : list dns_ResourceRecordSet)
  (err : option Error) :
  toRecordSets records s = Returns ((rrsets, err), s') ->
  st_world s' = st_world s /\ st_calls s' = st_calls s /\
  (err = None ->
   List.length rrsets = List.length records /\
   Forall well_formed_record_set rrsets).
Proof.
  intros H. apply toRecordSets_loop_spec in H.
  destruct H as (Hw & Hc & _ & _ & Hok). cbn [fst snd] in *.
  split; [assumption|]. split; [assumption|].
  intros E. destruct (Hok E) as ((new & Hnew & Hlen & Hwf) & _).
  cbn in Hnew. subst new. now split.
Qed.

Lemma UpdateRecordSets_run {World} (c : Client World)
  (ureq : option UpdateRequest) (s s' : State World)
  (res : option dns_Change * option Error) :
  UpdateRecordSets c ureq s = Returns (res, s') ->
  (st_calls s' = st_calls s /\ st_world s' = st_world s /\
   fst res = None /\ snd res <> None) \/
  (exists u additions deletions,
      ureq = Some u /\ ur_Zone u <> "" /\ ur_Project u <> "" /\
      List.length additions = List.length (ur_Additions u) /\
      List.length deletions = List.length (ur_Deletions u) /\
      Forall well_formed_record_set (additions ++ deletions) /\
      let change := mkChange additions deletions in
      st_calls s' =
        st_calls s ++
        [CallChangesCreate (ur_Project u) (ur_Zone u) change] /\
      (res, st_world s') =
        changesCreateDo c (st_world s) (ur_Project u) (ur_Zone u) change).
Proof.
  unfold UpdateRecordSets, UpdateRequest_validate, bindP at 1, liftP.
  destruct ureq as [u|]; cbn [is_nil or_else field].
  2: { intros [= <- <-]. left. repeat split. discriminate. }
  destruct (String.eqb_spec (ur_Zone u) "") as [Hz|Hz].
  { intros [= <- <-]. left. repeat split. discriminate. }
  destruct (String.eqb_spec (ur_Project u) "") as [Hp|Hp].
  { intros [= <- <-]. left. repeat split. discriminate. }
  unfold bindP, retP.
  destruct (toRecordSets (ur_Deletions u) s) as [[[dels derr] s1]|] eqn:Hd;
    [|discriminate].
  apply toRecordSets_returns in Hd.
  destruct Hd as (Hw1 & Hc1 & Hok1). cbn [fst snd].
  destruct derr as [e|].
  { intros [= <- <-]. left. repeat split; auto. discriminate. }
  destruct (toRecordSets (ur_Additions u) s1) as [[[adds aerr] s2]|] eqn:Ha;
    [|discriminate].
  apply toRecordSets_returns in Ha.
  destruct Ha as (Hw2 & Hc2 & Hok2). cbn [fst snd].
  destruct aerr as [e|].
  { intros [= <- <-]. left. repeat split; try congruence. discriminate. }
  unfold remote.
  destruct (changesCreateDo c (st_world s2) (ur_Project u) (ur_Zone u)
              (mkChange adds dels)) as [r w] eqn:Hdo.
  intros [= <- <-]. right. exists u, adds, dels.
  destruct (Hok1 eq_refl) as [Hl1 Hf1]. destruct (Hok2 eq_refl) as [Hl2 Hf2].
  repeat split; try assumption.
  - apply Forall_app. now split.
  - cbn. congruence.
  - cbn. rewrite <- Hw1, <- Hw2. now rewrite Hdo.
Qed.


(** X19: AddRecordSets and DeleteRecordSets.  On a nil request each returns
    errBlankUpdateRequest and does nothing.  Otherwise AddRecordSets sends
    at most one change, which has no deletion and one addition per record
    of the request, and DeleteRecordSets at most one change with no addition
    and one deletion per record; the Additions and Deletions of the request
    itself are not read. *)
Theorem Add_and_Delete_RecordSets {World} (c : Client World)
  (s : State World) :
  AddRecordSets c None s = Returns ((None, Some errBlankUpdateRequest), s) /\
  DeleteRecordSets c None s =
    Returns ((None, Some errBlankUpdateRequest), s) /\
  (forall req res s',
      AddRecordSets c (Some req) s = Returns (res, s') ->
      st_calls s' = st_calls s \/
      exists additions,
        List.length additions = List.length (ur_Records req) /\
        st_calls s' =
          st_calls s ++
          [CallChangesCreate (ur_Project req) (ur_Zone req)
             (mkChange additions [])]) /\
  (forall req res s',
      DeleteRecordSets c (Some req) s = Returns (res, s') ->
      st_calls s' = st_calls s \/
      exists deletions,
        List.length deletions = List.length (ur_Records req) /\
        st_calls s' =
          st_calls s ++
          [CallChangesCreate (ur_Project req) (ur_Zone req)
             (mkChange [] deletions)]).
Proof.
  split; [reflexivity|]. split; [reflexivity|]. split.
  - intros req res s' H. unfold AddRecordSets in H.
    apply UpdateRecordSets_run in H.
    destruct H as [(Hc & _)|(u & adds & dels & [= <-] & _ & _ & Ha & Hd & _ & Hcalls & _)];
      [now left|].
    right. cbn in *. destruct dels; [|discriminate]. eauto.
  - intros req res s' H. unfold DeleteRecordSets in H.
    apply UpdateRecordSets_run in H.
    destruct H as [(Hc & _)|(u & adds & dels & [= <-] & _ & _ & Ha & Hd & _ & Hcalls & _)];
      [now left|].
    right. cbn in *. destruct adds; [|discriminate]. eauto.
Qed.

(* --------------------------------------------------------------------- *)
(** *** generateRecordSets *)

Local Abbreviation cname_record domainName alias :=
  (mkDNSRecord alias 0 CName [] [] domainName [] [] [] [] [] []).

Local Abbreviation a_record domainName ipv4Addresses :=
  (mkDNSRecord domainName 0 AName ipv4Addresses [] "" [] [] [] [] [] []).

Lemma aliases_loop_spec {World} (domainName : string) (aliases : list string) :
  forall records (s : State World),
    aliases_loop aliases domainName records s =
    Returns
      (records ++
         map Some (seq (List.length (st_heap s)) (List.length aliases)),
       mkState (st_heap s ++ map (fun a => cname_record domainName a) aliases)
         (st_world s) (st_calls s)).
Proof.
  induction aliases as [|alias aliases IH]; intros records s;
    cbn [aliases_loop].
  - unfold retP. cbn. rewrite !app_nil_r. now destruct s.
  - unfold bindP, new_record. rewrite IH. cbn [st_heap st_world st_calls].
    rewrite length_app. cbn [List.length map seq].
    rewrite Nat.add_1_r, <- !app_assoc. reflexivity.
Qed.

Lemma update_nth_app {A} (pre : list A) (x y : A) (l : list A) :
  update_nth (List.length pre) x (pre ++ y :: l) = pre ++ x :: l.
Proof.
  induction pre as [|z pre IH]; cbn; [reflexivity|]. now rewrite IH.
Qed.

Lemma toRecordSets_loop_fresh {World} (w : World) (calls : list Call)
  (rs : list DNSRecord) :
  Forall (fun r => fst (Record_Validate r) = None) rs ->
  forall pre rrsets,
    toRecordSets_loop (map Some (seq (List.length pre) (List.length rs)))
      rrsets (mkState (pre ++ rs) w calls) =
    Returns
      ((rrsets ++ map (fun r => toRecordSet (snd (Record_Validate r))) rs,
        None),
       mkState (pre ++ map (fun r => snd (Record_Validate r)) rs) w calls).
Proof.
  induction 1 as [|r rs Hr Hrs IH]; intros pre rrsets.
  - cbn. now rewrite !app_nil_r.
  - cbn [List.length seq map toRecordSets_loop].
    unfold bindP at 1. unfold load. cbn [st_heap].
    rewrite nth_error_app2, Nat.sub_diag by lia. cbn [nth_error fst snd].
    destruct (Record_Validate r) as [err r'] eqn:Hv. cbn [fst snd] in *.
    subst err. unfold bindP, store. cbn [st_heap st_world st_calls].
    rewrite update_nth_app.
    replace (pre ++ r' :: rs) with ((pre ++ [r']) ++ rs)
      by now rewrite <- app_assoc.
    replace (S (List.length pre)) with (List.length (pre ++ [r']))
      by (rewrite length_app; cbn; lia).
    rewrite IH, <- !app_assoc. reflexivity.
Qed.

Lemma TrimSpace_empty : TrimSpace "" = "".
Proof. reflexivity. Qed.

(** X20: generateRecordSets.  For a setup with a project and a zone, addresses
    that are not all blank and, when there are aliases, a domain name that
    is not blank, exactly one remote call is made: the creation of a change
    with no deletion and, as additions, an A record set for the domain name
    with the deduplicated addresses, followed by one CNAME record set per
    alias that points to the domain name.  All names and the CNAME target
    get their trailing dot, and every TTL is 0. *)
Theorem generateRecordSets_change {World} (c : Client World) (req : Setup)
  (ipv4Addresses : list string) (s : State World) :
  su_Zone req <> "" -> su_Project req <> "" ->
  dedup ipv4Addresses <> [] ->
  (su_Aliases req = [] \/ TrimSpace (su_DomainName req) <> "") ->
  let change :=
    mkChange
      (mkResourceRecordSet (ensureHasTrailingDot (su_DomainName req)) AName 0
         (dedup ipv4Addresses)
       :: map (fun alias =>
                 mkResourceRecordSet (ensureHasTrailingDot alias) CName 0
                   [ensureHasTrailingDot (su_DomainName req)])
            (su_Aliases req))
      [] in
  exists res s',
    generateRecordSets c (Some req) ipv4Addresses s = Returns (res, s') /\
    st_calls s' =
      st_calls s ++ [CallChangesCreate (su_Project req) (su_Zone req) change] /\
    (res, st_world s') =
      changesCreateDo c (st_world s) (su_Project req) (su_Zone req) change.
Proof.
  intros Hz Hp Hips Hdom change.
  unfold generateRecordSets, bindP at 1, liftP. cbn [field].
  unfold bindP at 1. cbn [field]. unfold bindP at 1. cbn [field].
  unfold bindP at 1, new_record. unfold bindP at 1. cbn [field].
  unfold bindP at 1. rewrite aliases_loop_spec.
  cbn [st_heap st_world st_calls].
  unfold AddRecordSets, UpdateRecordSets, UpdateRequest_validate.
  cbn [is_nil or_else field ur_Zone ur_Project ur_Deletions ur_Additions
         ur_Records].
  apply eqb_empty_false in Hz, Hp. rewrite Hz, Hp.
  unfold bindP at 1, liftP. unfold bindP at 1. unfold bindP at 1.
  cbn [toRecordSets toRecordSets_loop retP fst snd].
  unfold bindP at 1. unfold bindP at 1.
  rewrite length_app. cbn [List.length app map].
  replace (map Some (seq (List.length (st_heap s) + 1)
                       (List.length (su_Aliases req))))
    with (map Some (seq (S (List.length (st_heap s)))
                      (List.length (su_Aliases req))))
    by (now rewrite Nat.add_1_r).
  change (Some (List.length (st_heap s))
            :: map Some (seq (S (List.length (st_heap s)))
                           (List.length (su_Aliases req))))
    with (map Some (seq (List.length (st_heap s))
                      (S (List.length (su_Aliases req))))).
  rewrite <- app_assoc. cbn [app].
  set (rs := a_record (su_DomainName req) ipv4Addresses
               :: map (fun a => cname_record (su_DomainName req) a)
                    (su_Aliases req)).
  replace (S (List.length (su_Aliases req))) with (List.length rs)
    by (subst rs; cbn; now rewrite length_map).
  assert (Ha : Record_Validate (a_record (su_DomainName req) ipv4Addresses) =
               (None,
                mkDNSRecord (su_DomainName req) 0 AName (dedup ipv4Addresses)
                  [] "" [] [] [] [] [] [])).
  { assert (Hlen : (List.length (dedup ipv4Addresses) =? 0)%nat = false)
      by (destruct (dedup ipv4Addresses); [contradiction|reflexivity]).
    unfold Record_Validate. cbn -[dedup]. unfold validateForAName.
    cbn -[dedup]. now rewrite Hlen. }
  assert (Hc : forall alias, In alias (su_Aliases req) ->
               Record_Validate (cname_record (su_DomainName req) alias) =
               (None, cname_record (su_DomainName req) alias) /\
               su_DomainName req <> "").
  { intros alias Hin. destruct Hdom as [E|Hd];
      [rewrite E in Hin; contradiction|].
    split.
    - unfold Record_Validate. cbn -[TrimSpace]. unfold validateForCName.
      cbn -[TrimSpace]. apply eqb_empty_false in Hd. now rewrite Hd.
    - intros E. rewrite E in Hd. now apply Hd. }
  unfold toRecordSets. rewrite toRecordSets_loop_fresh.
  2: { subst rs. constructor; [now rewrite Ha|].
       apply Forall_forall. intros r Hr. apply in_map_iff in Hr.
       destruct Hr as (alias & <- & Hin). now rewrite (proj1 (Hc alias Hin)). }
  cbn [fst snd app]. unfold bindP at 1. unfold bindP at 1. unfold remote.
  cbn [st_world st_calls st_heap].
  assert (Hch : map (fun r => toRecordSet (snd (Record_Validate r))) rs =
                ch_Additions change).
  { subst rs change. cbn [map ch_Additions]. rewrite Ha. f_equal.
    - unfold toRecordSet. cbn -[ensureHasTrailingDot dedup].
      now rewrite !app_nil_r.
    - rewrite map_map. apply map_ext_in. intros alias Hin.
      destruct (Hc alias Hin) as [-> Hne]. cbn [snd].
      unfold toRecordSet. cbn -[ensureHasTrailingDot].
      apply eqb_empty_false in Hne. now rewrite Hne. }
  rewrite Hch.
  destruct (changesCreateDo c (st_world s) (su_Project req) (su_Zone req)
              (mkChange (ch_Additions change) [])) as [r w] eqn:Hdo.
  exists r. eexists. split; [reflexivity|]. cbn [st_calls st_world].
  split; [reflexivity|]. subst change. cbn [ch_Additions] in *.
  now rewrite Hdo.
Qed.

(* --------------------------------------------------------------------- *)
(** *** Domain names *)

Lemma recordSetsToDomainNames_map (recordSets : list dns_ResourceRecordSet)
  (fn : option (string -> string)) :
  recordSetsToDomainNames recordSets fn =
  map (fun rset =>
         match fn with
         | Some f => f (stripTrailingDot (rs_Name rset))
         | None => stripTrailingDot (rs_Name rset)
         end) recordSets.
Proof.
  unfold recordSetsToDomainNames.
  assert (H : forall acc,
             fold_left
               (fun domainNames rset =>
                  domainNames ++
                  [match fn with
                   | Some f => f (stripTrailingDot (rs_Name rset))
                   | None => stripTrailingDot (rs_Name rset)
                   end]) recordSets acc =
             acc ++
             map (fun rset =>
                    match fn with
                    | Some f => f (stripTrailingDot (rs_Name rset))
                    | None => stripTrailingDot (rs_Name rset)
                    end) recordSets).
  { induction recordSets as [|rset rsets IH]; intros acc; cbn.
    - now rewrite app_nil_r.
    - now rewrite IH, <- app_assoc. }
  exact (H []).
Qed.

(** X21: domain names through record sets.  The names read back from the
    record sets of a list of records are the records' names with one
    trailing dot removed (the dot toRecordSet adds is taken off again), in
    the same order, each passed through the function given; with httpsify
    every one of them starts with https://. *)
Theorem domain_names_of_record_sets (rs : list DNSRecord) :
  recordSetsToDomainNames (map toRecordSet rs) None =
    map (fun r => stripTrailingDot (r_DNSName r)) rs /\
  recordSetsToDomainNames (map toRecordSet rs) (Some httpsify) =
    map (fun r => httpsify (stripTrailingDot (r_DNSName r))) rs /\
  Forall (fun d => HasPrefix d "https://" = true)
    (recordSetsToDomainNames (map toRecordSet rs) (Some httpsify)).
Proof.
  rewrite !recordSetsToDomainNames_map, !map_map.
  assert (Hname : forall r,
             stripTrailingDot (rs_Name (toRecordSet r)) =
             stripTrailingDot (r_DNSName r)).
  { intros r. cbn [toRecordSet rs_Name]. apply stripTrailingDot_ensure. }
  split; [|split].
  - apply map_ext. intros r. apply Hname.
  - apply map_ext. intros r. now rewrite Hname.
  - apply Forall_forall. intros d Hd. apply in_map_iff in Hd.
    destruct Hd as (r & <- & _). apply httpsify_prefix.
Qed.

(* --------------------------------------------------------------------- *)
(** *** Storage *)

Lemma EnsureBucketExists_run {World} (c : Client World)
  (bc : BucketCheck) (s s' : State World)
  (res : option storage_Bucket * option Error) :
  EnsureBucketExists c (Some bc) s = Returns (res, s') ->
  let lookup := bucketsGetDo c (st_world s) (bc_Bucket bc) in
  match fst (fst lookup) with
  | Some bucket =>
      res = (Some bucket, None) /\
      st_calls s' = st_calls s ++ [CallBucketsGet (bc_Bucket bc)] /\
      st_world s' = snd lookup
  | None =>
      let acl := if bc_Public bc then "publicRead" else "private" in
      st_calls s' =
        st_calls s ++
        [CallBucketsGet (bc_Bucket bc);
         CallBucketsInsert (bc_Project bc) (mkBucket (bc_Bucket bc)) acl] /\
      (res, st_world s') =
        bucketsInsertDo c (snd lookup) (bc_Project bc)
          (mkBucket (bc_Bucket bc)) acl
  end.
Proof.
  unfold EnsureBucketExists, bindP, liftP, remote, retP. cbn [field].
  destruct (bucketsGetDo c (st_world s) (bc_Bucket bc)) as [[found ferr] w1].
  cbn.
  destruct found as [bucket|].
  - intros [= <- <-]. cbn. auto.
  - cbn. destruct (bucketsInsertDo c w1 _ _ _) as [r w2].
    intros H. injection H. intros <- <-. cbn. split; [|reflexivity].
    now rewrite <- app_assoc.
Qed.

(** X22: EnsureBucketExists.  It first looks the bucket up.  If the lookup
    yields a bucket, that bucket is returned with a nil error and nothing
    else is called, whatever error came with it.  Otherwise the bucket is
    created in the project, with the default object ACL publicRead when the
    check asks for a public bucket and private when not, and the answer of
    the creation is returned: the error of the lookup is never returned. *)
Theorem EnsureBucketExists_calls {World} (c : Client World)
  (bc : BucketCheck) (s s' : State World)
  (res : option storage_Bucket * option Error) :
  EnsureBucketExists c (Some bc) s = Returns (res, s') ->
  let lookup := bucketsGetDo c (st_world s) (bc_Bucket bc) in
  match fst (fst lookup) with
  | Some bucket =>
      res = (Some bucket, None) /\
      st_calls s' = st_calls s ++ [CallBucketsGet (bc_Bucket bc)] /\
      st_world s' = snd lookup
  | None =>
      let acl := if bc_Public bc then "publicRead" else "private" in
      st_calls s' =
        st_calls s ++
        [CallBucketsGet (bc_Bucket bc);
         CallBucketsInsert (bc_Project bc) (mkBucket (bc_Bucket bc)) acl] /\
      (res, st_world s') =
        bucketsInsertDo c (snd lookup) (bc_Project bc)
          (mkBucket (bc_Bucket bc)) acl
  end.
Proof.
  apply EnsureBucketExists_run.
Qed.

(** X23: UploadWithParams.  On parameters that Validate rejects it returns
    the error and makes no remote call.  Otherwise every remote call it
    makes is a lookup of the parameters' bucket, the creation of that bucket
    with the private default ACL (also when the upload is public), or the
    insertion of the named object into the bucket with the ACL publicRead
    for a public upload and private otherwise. *)
Theorem UploadWithParams_calls {World} (c : Client World)
  (params : option UploadParams) (s s' : State World)
  (res : option storage_Object * option Error) :
  UploadWithParams c params s = Returns (res, s') ->
  (exists e,
      UploadParams_Validate params = Returns (Some e) /\
      res = (None, Some e) /\ s' = s) \/
  (exists p new,
      params = Some p /\ UploadParams_Validate params = Returns None /\
      st_calls s' = st_calls s ++ new /\ Forall (upload_call p) new).
Proof.
  unfold UploadWithParams, bindP at 1, liftP.
  destruct params as [p|].
  2: { intros [= <- <-]. left. eexists. split; [reflexivity|]. split; reflexivity. }
  unfold UploadParams_Validate. cbn [is_nil or_else field].
  destruct (up_Reader p) as [media|] eqn:Hrd; cbn [is_nil].
  2: { intros [= <- <-]. left. eexists. split; [reflexivity|]. split; reflexivity. }
  destruct (String.eqb (up_Name p) "").
  { intros [= <- <-]. left. eexists. split; [reflexivity|]. split; reflexivity. }
  destruct (String.eqb (up_Bucket p) "").
  { intros [= <- <-]. left. eexists. split; [reflexivity|]. split; reflexivity. }
  unfold bindP at 1. cbn [field]. unfold bindP at 1. cbn [field].
  unfold bindP at 1.
  destruct (EnsureBucketExists c
              (Some (mkBucketCheck (up_Project p) (up_Bucket p) false)) s)
    as [[[bk berr] s1]|] eqn:He; [|discriminate].
  apply EnsureBucketExists_run in He.
  cbn [bc_Bucket bc_Project bc_Public] in He.
  intros H. right. exists p.
  assert (Hs1 : exists new1,
             st_calls s1 = st_calls s ++ new1 /\ Forall (upload_call p) new1).
  { destruct (fst (fst (bucketsGetDo c (st_world s) (up_Bucket p)))).
    - destruct He as (_ & Hc & _). eexists. split; [exact Hc|].
      constructor; [reflexivity|constructor].
    - destruct He as (Hc & _). eexists. split; [exact Hc|].
      constructor; [reflexivity|]. constructor; [|constructor].
      cbn. auto. }
  destruct Hs1 as (new1 & Hc1 & Hf1). cbn [fst snd] in H.
  destruct berr as [e|].
  - injection H as <- <-. exists new1. auto.
  - unfold bindP, liftP, retP in H. cbn [field] in H.
    destruct bk as [bk|]; cbn [field] in H; [|discriminate].
    cbn [field] in H. unfold remote in H.
    destruct (objectsInsertDo c (st_world s1) (up_Bucket p)
                (mkObject (up_Name p) (bk_Name bk))
                (if up_Public p then "publicRead" else "private") media)
      as [r w2].
    injection H as <- <-. cbn [st_calls].
    exists (new1 ++ [CallObjectsInsert (up_Bucket p)
                       (mkObject (up_Name p) (bk_Name bk))
                       (if up_Public p then "publicRead" else "private")
                       media]).
    split; [reflexivity|]. split; [reflexivity|].
    split; [rewrite Hc1; now rewrite app_assoc|].
    apply Forall_app. split; [assumption|].
    constructor; [|constructor]. cbn. auto.
Qed.

(* --------------------------------------------------------------------- *)
(** *** The machine of the full setup *)

(** X24: generateMachineAndIPV4Addresses on a failed second lookup.  When the
    machine is created, the instance found after creation lists no network
    interface, and the lookup made to fetch the interfaces yields no
    instance, the error of that lookup is dropped and the nil instance is
    dereferenced: the function panics. *)
Theorem generateMachineAndIPV4Addresses_panics {World} (c : Client World)
  (req : Setup) (s : State World) (created : compute_Instance)
  (w1 w2 w3 : World) (err : option Error) :
  su_Project req <> "" -> su_Zone req <> "" -> su_MachineName req <> "" ->
  instancesInsertDo c (st_world s) (su_Project req) (su_Zone req)
    (toInstance
       (mkInstanceRequest (su_Zone req) (su_Project req)
          (su_ProjectDescription req) (su_MachineName req) None false []
          (Some BasicExternalNATNetworkInterface) None [] [] false)) =
    ((Some (mkOperation None), None), w1) ->
  instancesGetDo c w1 (su_Project req) (su_Zone req) (su_MachineName req) =
    ((Some created, None), w2) ->
  ci_NetworkInterfaces created = [] ->
  instancesGetDo c w2 (su_Project req) (su_Zone req) (su_MachineName req) =
    ((None, err), w3) ->
  generateMachineAndIPV4Addresses c (Some req) s =
  Panics "invalid memory address or nil pointer dereference".
Proof.
  intros Hp Hz Hn Hins Hget1 Hnis Hget2.
  apply eqb_empty_false in Hp, Hz, Hn.
  unfold generateMachineAndIPV4Addresses, generateMachine, CreateInstance,
    validateForCreate, FindInstance, validateForByName, bindP, liftP, retP,
    remote.
  cbn -[toInstance validateBasic String.eqb].
  rewrite validateBasic_returns.
  cbn -[toInstance validateBasic String.eqb]. rewrite Hp, Hz, Hn.
  change (validateAsStandardMachine basic1VCPUMachine) with (@None Error).
  cbn -[toInstance validateBasic String.eqb]. rewrite Hins.
  cbn -[toInstance validateBasic String.eqb].
  rewrite validateBasic_returns.
  cbn -[toInstance validateBasic String.eqb]. rewrite Hp, Hz, Hn.
  cbn -[toInstance validateBasic String.eqb]. rewrite Hget1.
  cbn -[toInstance validateBasic String.eqb]. rewrite Hnis.
  cbn -[toInstance validateBasic String.eqb].
  cbn -[toInstance validateBasic String.eqb]. rewrite Hget2.
  reflexivity.
Qed.

Lemma ipv4Addresses_loop_spec
  (netInterfaces : list (option compute_NetworkInterface)) :
  forall ipv4Addresses addrs,
    ipv4Addresses_loop netInterfaces ipv4Addresses = Returns addrs <->
    exists nis,
      netInterfaces = map Some nis /\
      addrs = ipv4Addresses ++ map ni_NetworkIP nis.
Proof.
  induction netInterfaces as [|ni rest IH]; intros acc addrs;
    cbn [ipv4Addresses_loop].
  - split.
    + intros [= <-]. exists []. now rewrite app_nil_r.
    + intros ([|n nis] & Hn & ->); [|discriminate]. now rewrite app_nil_r.
  - destruct ni as [ni|]; cbn [field].
    + rewrite IH. split.
      * intros (nis & -> & ->). exists (ni :: nis).
        now rewrite <- app_assoc.
      * intros ([|n nis] & Hn & ->); [discriminate|].
        injection Hn as <- ->. exists nis. now rewrite <- app_assoc.
    + split; [discriminate|]. intros ([|n nis] & Hn & _); discriminate.
Qed.

Lemma ipv4Addresses_loop_panics
  (netInterfaces : list (option compute_NetworkInterface)) :
  forall ipv4Addresses msg,
    ipv4Addresses_loop netInterfaces ipv4Addresses = Panics msg ->
    msg = "invalid memory address or nil pointer dereference".
Proof.
  induction netInterfaces as [|ni rest IH]; intros acc msg;
    cbn [ipv4Addresses_loop]; [discriminate|].
  destruct ni as [ni|]; cbn [field]; [apply IH|]. now intros [= <-].
Qed.

(** X25: ipv4AddressesFromInstance.  It returns exactly when the instance and
    every one of its network interfaces are not nil, and then gives the
    network IP of each interface, in their order; in every other case it
    panics on a nil dereference. *)
Theorem ipv4AddressesFromInstance_addresses
  (instance : option compute_Instance) :
  (forall addrs,
      ipv4AddressesFromInstance instance = Returns addrs <->
      exists i nis,
        instance = Some i /\ ci_NetworkInterfaces i = map Some nis /\
        addrs = map ni_NetworkIP nis) /\
  ((forall addrs, ipv4AddressesFromInstance instance <> Returns addrs) ->
   ipv4AddressesFromInstance instance =
   Panics "invalid memory address or nil pointer dereference").
Proof.
  unfold ipv4AddressesFromInstance. destruct instance as [i|]; cbn [field].
  - split.
    + intros addrs. rewrite ipv4Addresses_loop_spec. split.
      * intros (nis & Hn & ->). now exists i, nis.
      * intros (i' & nis & [= <-] & Hn & ->). now exists nis.
    + intros Hno.
      destruct (ipv4Addresses_loop (ci_NetworkInterfaces i) []) as [a|m]
        eqn:E.
      * now contradiction (Hno a).
      * now rewrite (ipv4Addresses_loop_panics _ _ _ E).
  - split.
    + intros addrs. split; [discriminate|]. intros (i & nis & [=] & _).
    + reflexivity.
Qed.

(** X26: generateMachineAndIPV4Addresses, the machine and its addresses.  For
    a setup with a project, a zone and a machine name: when the creation of
    the machine succeeds and the instance looked up afterwards lists network
    interfaces, none of them nil, the result is the network IP of each
    interface and exactly two remote calls were made, the insertion of the
    instance with the basic external NAT interface and the default machine
    type, and one lookup. *)
Theorem generateMachineAndIPV4Addresses_addresses {World} (c : Client World)
  (req : Setup) (s : State World) (created : compute_Instance)
  (nis : list compute_NetworkInterface) (w1 w2 : World) :
  su_Project req <> "" -> su_Zone req <> "" -> su_MachineName req <> "" ->
  let instance :=
    toInstance
      (mkInstanceRequest (su_Zone req) (su_Project req)
         (su_ProjectDescription req) (su_MachineName req) None false []
         (Some BasicExternalNATNetworkInterface) None [] [] false) in
  instancesInsertDo c (st_world s) (su_Project req) (su_Zone req) instance =
    ((Some (mkOperation None), None), w1) ->
  instancesGetDo c w1 (su_Project req) (su_Zone req) (su_MachineName req) =
    ((Some created, None), w2) ->
  ci_NetworkInterfaces created = map Some nis -> nis <> [] ->
  generateMachineAndIPV4Addresses c (Some req) s =
  Returns
    ((map ni_NetworkIP nis, None),
     mkState (st_heap s) w2
       (st_calls s ++
        [CallInstancesInsert (su_Project req) (su_Zone req) instance;
         CallInstancesGet (su_Project req) (su_Zone req)
           (su_MachineName req)])).
Proof.
  intros Hp Hz Hn instance Hins Hget1 Hnis Hne. subst instance.
  apply eqb_empty_false in Hp, Hz, Hn.
  unfold generateMachineAndIPV4Addresses, generateMachine, CreateInstance,
    validateForCreate, FindInstance, validateForByName, bindP, liftP, retP,
    remote.
  cbn -[toInstance validateBasic String.eqb].
  rewrite validateBasic_returns.
  cbn -[toInstance validateBasic String.eqb]. rewrite Hp, Hz, Hn.
  change (validateAsStandardMachine basic1VCPUMachine) with (@None Error).
  cbn -[toInstance validateBasic String.eqb]. rewrite Hins.
  cbn -[toInstance validateBasic String.eqb].
  rewrite validateBasic_returns.
  cbn -[toInstance validateBasic String.eqb]. rewrite Hp, Hz, Hn.
  cbn -[toInstance validateBasic String.eqb]. rewrite Hget1.
  cbn -[toInstance validateBasic String.eqb ipv4AddressesFromInstance].
  rewrite Hnis. destruct nis as [|ni nis]; [contradiction|].
  cbn -[toInstance validateBasic String.eqb ipv4AddressesFromInstance].
  unfold ipv4AddressesFromInstance. cbn [field]. rewrite Hnis.
  rewrite (proj2 (ipv4Addresses_loop_spec (map Some (ni :: nis)) []
                    (map ni_NetworkIP (ni :: nis))))
    by (now exists (ni :: nis)).
  now rewrite <- app_assoc.
Qed.

(** X27: what Setup.Validate leaves to the creation of the machine.  Validate
    accepts a setup with an empty machine name; creating the machine for it
    is then refused with errBlankName before any remote call is made. *)
Theorem Setup_Validate_blank_machine_name {World} (c : Client World)
  (req : Setup) (s : State World) :
  Setup_Validate (Some req) = Returns None ->
  su_MachineName req = "" ->
  generateMachineAndIPV4Addresses c (Some req) s =
  Returns (([], Some (pkgError errBlankName)), s).
Proof.
  unfold Setup_Validate. cbn [is_nil or_else field].
  destruct (String.eqb_spec (TrimSpace (su_Project req)) "") as [|Hp];
    [discriminate|].
  destruct (String.eqb_spec (TrimSpace (su_Zone req)) "") as [|Hz];
    [discriminate|].
  intros _ Hn.
  assert (Hp' : String.eqb (su_Project req) "" = false).
  { apply eqb_empty_false. intros E. now rewrite E in Hp. }
  assert (Hz' : String.eqb (su_Zone req) "" = false).
  { apply eqb_empty_false. intros E. now rewrite E in Hz. }
  unfold generateMachineAndIPV4Addresses, generateMachine, CreateInstance,
    validateForCreate, bindP, liftP, retP.
  cbn -[toInstance validateBasic String.eqb].
  rewrite validateBasic_returns.
  cbn -[toInstance validateBasic String.eqb]. rewrite Hp', Hz', Hn.
  reflexivity.
Qed.

Lemma toRecordSets_loop_app {World} (pre rest : list RecordPtr) :
  forall rrsets rrsets' (s s1 : State World),
    toRecordSets_loop pre rrsets s = Returns ((rrsets', None), s1) ->
    toRecordSets_loop (pre ++ rest) rrsets s =
    toRecordSets_loop rest rrsets' s1.
Proof.
  induction pre as [|rec pre IH]; intros rrsets rrsets' s s1;
    cbn [toRecordSets_loop app].
  - now intros [= <- <-].
  - unfold bindP. destruct (load rec s) as [[ar s0]|]; [|discriminate].
    destruct (Record_Validate (snd ar)) as [err r']. unfold store.
    destruct err as [e|]; [discriminate|]. apply IH.
Qed.

(** X28: toRecordSets on a nil record.  Unlike the request validators, the
    loop does not test its pointers: when the records before a nil pointer
    are all accepted, the call panics on the nil dereference, whatever
    follows the nil pointer. *)
Theorem toRecordSets_nil_record_panics {World} (pre rest : list RecordPtr)
  (s s1 : State World) (rrsets : list dns_ResourceRecordSet) :
  toRecordSets pre s = Returns ((rrsets, None), s1) ->
  toRecordSets (pre ++ None :: rest) s =
  Panics "invalid memory address or nil pointer dereference".
Proof.
  unfold toRecordSets. intros H.
  now rewrite (toRecordSets_loop_app pre (None :: rest) _ _ _ _ H).
Qed.

(* --------------------------------------------------------------------- *)
(** *** The properties with a precondition, at sample inputs *)

(** A custom machine with 2 CPUs and 512 MB. *)
Lemma validateAsCustomMachine_accepts_witness :
  in_int64 (mt_MemoryMBs sample_custom_machine) /\
  (validateAsCustomMachine sample_custom_machine = None <->
   (mt_CPUCount sample_custom_machine = 1 \/
    (2 <= mt_CPUCount sample_custom_machine <= 32 /\
     Z.even (mt_CPUCount sample_custom_machine) = true)) /\
   (256 | mt_MemoryMBs sample_custom_machine)).
Proof.
  assert (H : in_int64 (mt_MemoryMBs sample_custom_machine))
    by (unfold in_int64; cbn; lia).
  split; [exact H|].
  exact (validateAsCustomMachine_accepts sample_custom_machine H).
Defined.

(** The same machine with the type n1-standard-1 named as well. *)
Lemma custom_route_shadows_type_witness :
  validateAsCustomMachine sample_custom_machine = None /\
  partialURLByZone (mkMachineType 2 512 N1Standard1) "us-central1-c" =
  "/zones/us-central1-c/machineTypes/custom-2-512".
Proof.
  split; [reflexivity|].
  exact (custom_route_shadows_type sample_custom_machine N1Standard1
           "us-central1-c" eq_refl).
Defined.

(** The request of the package's example for CreateInstance. *)
Lemma toInstance_of_valid_request_witness :
  validateForCreate (Some sample_instance_request) = Returns None /\
  let r := sample_instance_request in
  let instance := toInstance r in
  ci_Name instance = iq_Name r /\
  ci_Description instance = iq_Description r /\
  ci_Metadata instance = iq_Metadata r /\
  ci_ServiceAccounts instance = iq_ServiceAccounts r /\
  ci_Disks instance =
    match iq_Disks r with
    | [] => [BasicAttachedDisk]
    | _ :: _ => iq_Disks r
    end /\
  ci_Disks instance <> [] /\
  (exists ni,
      iq_NetworkInterface r = Some ni /\
      ci_NetworkInterfaces instance = [Some ni]) /\
  exists segment,
    segment <> "" /\
    ci_MachineType instance =
      ("/zones/" ++ iq_Zone r ++ "/machineTypes/" ++ segment)%string /\
    segment =
      match iq_MachineType r with
      | None => N1Standard1
      | Some mt =>
          if canMakeCustomMachine mt then
            ("custom-" ++ format_d (mt_CPUCount mt) ++ "-"
               ++ format_d (mt_MemoryMBs mt))%string
          else mt_Type mt
      end.
Proof.
  split; [reflexivity|].
  exact (toInstance_of_valid_request sample_instance_request eq_refl).
Defined.

(** The same request against the sample services. *)
Lemma CreateInstance_calls_witness :
  exists res s',
    CreateInstance sample_client (Some sample_instance_request) sample_state =
      Returns (res, s') /\
    ((exists e,
         validateForCreate (Some sample_instance_request) =
           Returns (Some e) /\
         res = (None, Some e) /\ s' = sample_state) \/
     (exists r,
         Some sample_instance_request = Some r /\
         validateForCreate (Some sample_instance_request) = Returns None /\
         st_heap s' = st_heap sample_state /\
         let insert :=
           CallInstancesInsert (iq_Project r) (iq_Zone r) (toInstance r) in
         let inserted :=
           instancesInsertDo sample_client (st_world sample_state)
             (iq_Project r) (iq_Zone r) (toInstance r) in
         match snd (fst inserted), fst (fst inserted) with
         | Some err, _ =>
             res = (None, Some err) /\
             st_calls s' = st_calls sample_state ++ [insert] /\
             st_world s' = snd inserted
         | None, Some operation =>
             match op_Error operation with
             | Some jsonBlob =>
                 res = (None, Some (errOperation jsonBlob)) /\
                 st_calls s' = st_calls sample_state ++ [insert] /\
                 st_world s' = snd inserted
             | None =>
                 st_calls s' =
                   st_calls sample_state ++
                   [insert;
                    CallInstancesGet (iq_Project r) (iq_Zone r)
                      (iq_Name r)] /\
                 (res, st_world s') =
                   instancesGetDo sample_client (snd inserted)
                     (iq_Project r) (iq_Zone r) (iq_Name r)
             end
         | None, None => False
         end)).
Proof.
  do 2 eexists. split; [cbv; reflexivity|].
  exact (CreateInstance_calls sample_client (Some sample_instance_request)
           sample_state _ _ eq_refl).
Defined.

(** Items without white space around them, one repeated and one empty. *)
Lemma dedup_of_trimmed_items_witness :
  Forall (fun i => TrimSpace i = i) ["a"; "b"; "a"; ""] /\
  NoDup (dedup ["a"; "b"; "a"; ""]) /\
  forall x, In x (dedup ["a"; "b"; "a"; ""]) <->
            In x ["a"; "b"; "a"; ""] /\ x <> "".
Proof.
  assert (H : Forall (fun i => TrimSpace i = i) ["a"; "b"; "a"; ""])
    by (repeat constructor).
  split; [exact H|].
  exact (dedup_of_trimmed_items ["a"; "b"; "a"; ""] H).
Defined.

(** An address, and the same address after a space. *)
Lemma dedup_keeps_white_space_variants_witness :
  (TrimSpace "130.211.187.103" = "130.211.187.103" /\
   TrimSpace " 130.211.187.103" = "130.211.187.103" /\
   "130.211.187.103" <> "" /\
   " 130.211.187.103" <> "130.211.187.103") /\
  dedup ["130.211.187.103"; " 130.211.187.103"] =
  ["130.211.187.103"; "130.211.187.103"].
Proof.
  assert (H1 : "130.211.187.103" <> "") by discriminate.
  assert (H2 : " 130.211.187.103" <> "130.211.187.103") by discriminate.
  split; [repeat split; assumption|].
  exact (dedup_keeps_white_space_variants "130.211.187.103"
           " 130.211.187.103" "130.211.187.103" eq_refl eq_refl H1 H2 H2).
Defined.

(** A record of the DNS type AAAA. *)
Lemma Record_Validate_AAAA_witness :
  r_Type (mkDNSRecord "git.orijtech.com" 0 "AAAA" [] ["2001:db8::1"] "" []
            [] [] [] [] []) = "AAAA" /\
  Record_Validate
    (mkDNSRecord "git.orijtech.com" 0 "AAAA" [] ["2001:db8::1"] "" [] [] []
       [] [] []) =
  (Some (errUnknownRecordType "AAAA"),
   mkDNSRecord "git.orijtech.com" 0 "AAAA" [] ["2001:db8::1"] "" [] [] [] []
     [] []).
Proof.
  split; [reflexivity|].
  exact (Record_Validate_AAAA
           (mkDNSRecord "git.orijtech.com" 0 "AAAA" [] ["2001:db8::1"] "" []
              [] [] [] [] []) eq_refl).
Defined.

(** The sample A record. *)
Lemma validated_record_set_witness :
  fst (Record_Validate sample_a_record) = None /\
  let rrset := toRecordSet (snd (Record_Validate sample_a_record)) in
  rs_Rrdatas rrset <> [] /\
  rs_Type rrset = r_Type sample_a_record /\
  rs_Name rrset = ensureHasTrailingDot (r_DNSName sample_a_record) /\
  HasSuffix_dot (rs_Name rrset) = true.
Proof.
  split; [reflexivity|].
  exact (validated_record_set sample_a_record eq_refl).
Defined.

(** The two sample records, through their addresses. *)
Lemma toRecordSets_all_or_nothing_witness :
  exists rrsets err s',
    toRecordSets [Some 0%nat; Some 1%nat] sample_state =
      Returns ((rrsets, err), s') /\
    st_world s' = st_world sample_state /\
    st_calls s' = st_calls sample_state /\
    List.length (st_heap s') = List.length (st_heap sample_state) /\
    (err <> None -> rrsets = []) /\
    (err = None ->
     List.length rrsets = List.length [Some 0%nat; Some 1%nat] /\
     Forall well_formed_record_set rrsets) /\
    (err = None ->
     forall i a r,
       nth_error [Some 0%nat; Some 1%nat] i = Some (Some a) ->
       nth_error (st_heap sample_state) a = Some r ->
       nth_error rrsets i =
         Some (toRecordSet
                 (validated
                    (S (visits a (firstn i [Some 0%nat; Some 1%nat]))) r))) /\
    (forall e,
        err = Some e ->
        exists i a r,
          nth_error [Some 0%nat; Some 1%nat] i = Some (Some a) /\
          nth_error (st_heap sample_state) a = Some r /\
          fst (Record_Validate
                 (validated (visits a (firstn i [Some 0%nat; Some 1%nat]))
                    r)) = Some e /\
          forall j b r',
            (j < i)%nat ->
            nth_error [Some 0%nat; Some 1%nat] j = Some (Some b) ->
            nth_error (st_heap sample_state) b = Some r' ->
            fst (Record_Validate
                   (validated
                      (visits b (firstn j [Some 0%nat; Some 1%nat])) r')) =
              None).
Proof.
  do 3 eexists. split; [cbv; reflexivity|].
  exact (toRecordSets_all_or_nothing [Some 0%nat; Some 1%nat] sample_state _
           _ _ eq_refl).
Defined.

(** The sample A record pointed to twice, the CNAME record once. *)
Lemma toRecordSets_rewrites_records_witness :
  exists rrsets s',
    toRecordSets [Some 0%nat; Some 1%nat; Some 0%nat] sample_state =
      Returns ((rrsets, None), s') /\
    forall a r,
      nth_error (st_heap sample_state) a = Some r ->
      nth_error (st_heap s') a =
        Some (validated (visits a [Some 0%nat; Some 1%nat; Some 0%nat]) r).
Proof.
  do 2 eexists.
  assert (H : toRecordSets [Some 0%nat; Some 1%nat; Some 0%nat] sample_state =
              Returns
                (([toRecordSet (validated 1 sample_a_record);
                   toRecordSet sample_cname_record;
                   toRecordSet (validated 2 sample_a_record)], None),
                 mkState [validated 2 sample_a_record; sample_cname_record]
                   0%nat []))
    by (vm_compute; reflexivity).
  split; [exact H|].
  exact (toRecordSets_rewrites_records [Some 0%nat; Some 1%nat; Some 0%nat]
           sample_state _ _ H).
Defined.


(** The setup of the package's example for FullSetup, with its address. *)
Lemma generateRecordSets_change_witness :
  (su_Zone (sample_setup "full-setup-sample") <> "" /\
   su_Project (sample_setup "full-setup-sample") <> "" /\
   dedup ["35.184.3.107"] <> [] /\
   TrimSpace (su_DomainName (sample_setup "full-setup-sample")) <> "") /\
  let req := sample_setup "full-setup-sample" in
  let change :=
    mkChange
      (mkResourceRecordSet (ensureHasTrailingDot (su_DomainName req)) AName 0
         (dedup ["35.184.3.107"])
       :: map (fun alias =>
                 mkResourceRecordSet (ensureHasTrailingDot alias) CName 0
                   [ensureHasTrailingDot (su_DomainName req)])
            (su_Aliases req))
      [] in
  exists res s',
    generateRecordSets sample_client (Some req) ["35.184.3.107"]
      sample_state = Returns (res, s') /\
    st_calls s' =
      st_calls sample_state ++
      [CallChangesCreate (su_Project req) (su_Zone req) change] /\
    (res, st_world s') =
      changesCreateDo sample_client (st_world sample_state) (su_Project req)
        (su_Zone req) change.
Proof.
  assert (H1 : su_Zone (sample_setup "full-setup-sample") <> "")
    by discriminate.
  assert (H2 : su_Project (sample_setup "full-setup-sample") <> "")
    by discriminate.
  assert (H3 : dedup ["35.184.3.107"] <> []) by discriminate.
  assert (H4 : TrimSpace (su_DomainName (sample_setup "full-setup-sample"))
               <> "") by discriminate.
  split; [repeat split; assumption|].
  exact (generateRecordSets_change sample_client
           (sample_setup "full-setup-sample") ["35.184.3.107"] sample_state
           H1 H2 H3 (or_intror H4)).
Defined.

(** A public bucket that does not exist yet. *)
Lemma EnsureBucketExists_calls_witness :
  exists res s',
    EnsureBucketExists sample_client
      (Some (mkBucketCheck "orijtech-161805" "frontender-binaries" true))
      sample_state = Returns (res, s') /\
    let bc := mkBucketCheck "orijtech-161805" "frontender-binaries" true in
    let lookup :=
      bucketsGetDo sample_client (st_world sample_state) (bc_Bucket bc) in
    match fst (fst lookup) with
    | Some bucket =>
        res = (Some bucket, None) /\
        st_calls s' = st_calls sample_state ++ [CallBucketsGet (bc_Bucket bc)] /\
        st_world s' = snd lookup
    | None =>
        let acl := if bc_Public bc then "publicRead" else "private" in
        st_calls s' =
          st_calls sample_state ++
          [CallBucketsGet (bc_Bucket bc);
           CallBucketsInsert (bc_Project bc) (mkBucket (bc_Bucket bc)) acl] /\
        (res, st_world s') =
          bucketsInsertDo sample_client (snd lookup) (bc_Project bc)
            (mkBucket (bc_Bucket bc)) acl
    end.
Proof.
  do 2 eexists. split; [cbv; reflexivity|].
  exact (EnsureBucketExists_calls sample_client
           (mkBucketCheck "orijtech-161805" "frontender-binaries" true)
           sample_state _ _ eq_refl).
Defined.

(** A public upload into a bucket that does not exist yet. *)
Lemma UploadWithParams_calls_witness :
  exists res s',
    UploadWithParams sample_client (Some sample_upload) sample_state =
      Returns (res, s') /\
    ((exists e,
         UploadParams_Validate (Some sample_upload) = Returns (Some e) /\
         res = (None, Some e) /\ s' = sample_state) \/
     (exists p new,
         Some sample_upload = Some p /\
         UploadParams_Validate (Some sample_upload) = Returns None /\
         st_calls s' = st_calls sample_state ++ new /\
         Forall (upload_call p) new)).
Proof.
  do 2 eexists. split; [cbv; reflexivity|].
  exact (UploadWithParams_calls sample_client (Some sample_upload)
           sample_state _ _ eq_refl).
Defined.

(** The machine named bare of the sample services. *)
Lemma generateMachineAndIPV4Addresses_panics_witness :
  generateMachineAndIPV4Addresses sample_client (Some (sample_setup "bare"))
    sample_state =
  Panics "invalid memory address or nil pointer dereference".
Proof.
  assert (H1 : su_Project (sample_setup "bare") <> "") by discriminate.
  assert (H2 : su_Zone (sample_setup "bare") <> "") by discriminate.
  assert (H3 : su_MachineName (sample_setup "bare") <> "") by discriminate.
  exact (generateMachineAndIPV4Addresses_panics sample_client
           (sample_setup "bare") sample_state (sample_instance "bare" [])
           1%nat 2%nat 3%nat (Some (pkgError (apiError "notFound")))
           H1 H2 H3 eq_refl eq_refl eq_refl eq_refl).
Defined.

(** Any other machine of the sample services. *)
Lemma generateMachineAndIPV4Addresses_addresses_witness :
  generateMachineAndIPV4Addresses sample_client
    (Some (sample_setup "full-setup-sample")) sample_state =
  Returns
    ((["10.128.0.2"], None),
     mkState (st_heap sample_state) 2%nat
       [CallInstancesInsert "orijtech-161805" "us-central1-c"
          (toInstance
             (mkInstanceRequest "us-central1-c" "orijtech-161805"
                "full-setup" "full-setup-sample" None false []
                (Some BasicExternalNATNetworkInterface) None [] [] false));
        CallInstancesGet "orijtech-161805" "us-central1-c"
          "full-setup-sample"]).
Proof.
  assert (H1 : su_Project (sample_setup "full-setup-sample") <> "")
    by discriminate.
  assert (H2 : su_Zone (sample_setup "full-setup-sample") <> "")
    by discriminate.
  assert (H3 : su_MachineName (sample_setup "full-setup-sample") <> "")
    by discriminate.
  assert (H4 : [mkNetworkInterface [] "10.128.0.2"] <> []) by discriminate.
  exact (generateMachineAndIPV4Addresses_addresses sample_client
           (sample_setup "full-setup-sample") sample_state
           (sample_instance "full-setup-sample"
              [Some (mkNetworkInterface [] "10.128.0.2")])
           [mkNetworkInterface [] "10.128.0.2"] 1%nat 2%nat
           H1 H2 H3 eq_refl eq_refl eq_refl H4).
Defined.

(** A setup that names no machine. *)
Lemma Setup_Validate_blank_machine_name_witness :
  Setup_Validate (Some (sample_setup "")) = Returns None /\
  generateMachineAndIPV4Addresses sample_client (Some (sample_setup ""))
    sample_state =
  Returns (([], Some (pkgError errBlankName)), sample_state).
Proof.
  split; [reflexivity|].
  exact (Setup_Validate_blank_machine_name sample_client (sample_setup "")
           sample_state eq_refl eq_refl).
Defined.


(** The sample A record followed by a nil pointer. *)
Lemma toRecordSets_nil_record_panics_witness :
  toRecordSets [Some 0%nat] sample_state =
    Returns
      (([toRecordSet (validated 1 sample_a_record)], None),
       mkState [validated 1 sample_a_record; sample_cname_record] 0%nat []) /\
  toRecordSets ([Some 0%nat] ++ None :: [Some 1%nat]) sample_state =
  Panics "invalid memory address or nil pointer dereference".
Proof.
  assert (H : toRecordSets [Some 0%nat] sample_state =
              Returns
                (([toRecordSet (validated 1 sample_a_record)], None),
                 mkState [validated 1 sample_a_record; sample_cname_record]
                   0%nat []))
    by (vm_compute; reflexivity).
  split; [exact H|].
  exact (toRecordSets_nil_record_panics [Some 0%nat] [Some 1%nat]
           sample_state _ _ H).
Defined.
